(** * Webhook dashboard: the blob-storage query service

    A shallow embedding of [server/services/blobStorage.ts] (listing,
    loading, filtering, sorting, paginating, statistics, lookup and delete
    of webhook records kept as JSON blobs) and of the DELETE route that
    calls it, followed by the properties established about them. The other
    routes of the router, with the [parseInt] that reads [page] and
    [limit], and the dashboard's [extractConversationId] are embedded in
    [Router] and [Client]; their properties come last.

    Modelling conventions.
    - A JavaScript string is the [string] of its UTF-8 bytes, so that ASCII
      text is the text itself; [includes], [startsWith], [endsWith] and
      [split] on well-formed text are the same on bytes as on code units,
      and so is the order of two texts unless one of them has a character
      beyond U+FFFF.
    - JavaScript numbers are the integers together with [NaN]; JSON numerals
      with a fraction are outside the modelled fragment, and where a value
      is printed or echoed the properties are stated for integers that a
      double holds exactly.
    - The built-ins whose full behaviour is a matter of the runtime are the
      fields of the class [Runtime]: [JSON.parse], [Date.parse],
      [String.prototype.toLowerCase] and [toUpperCase], and
      [Array.prototype.sort]. The class states of the last three what
      every conforming runtime does: the case mappings on ASCII text, and
      of the sort that it permutes, that it returns when the comparator
      does, and the order for a consistent comparator; the order for any
      other comparator is left open. The service is stated for an
      arbitrary runtime;
      [nodeRuntime] is an executable one for a fragment of JSON, of the ISO
      date-time format and of the case mappings.
    - An exception is the [Throw] branch of [result]; [try]/[catch] is a
      match on it. *)

From Stdlib Require Import ZArith Lia Ascii.
From stdpp Require Import base list strings gmap pretty sorting.

Set Warnings "-register-all,-clear-no-such-hyp".
#[local] Arguments String.append !_ _ / : simpl nomatch.

(** ** Strings *)

Module Str.

Definition lowerChar (c : ascii) : ascii :=
  let n := nat_of_ascii c in
  if (65 <=? n)%nat && (n <=? 90)%nat then ascii_of_nat (n + 32) else c.

Definition upperChar (c : ascii) : ascii :=
  let n := nat_of_ascii c in
  if (97 <=? n)%nat && (n <=? 122)%nat then ascii_of_nat (n - 32) else c.

Fixpoint mapChars (f : ascii → ascii) (s : string) : string :=
  match s with
  | EmptyString => EmptyString
  | String c s' => String (f c) (mapChars f s')
  end.

(** The case mappings of ASCII: what [s.toLowerCase()] and
    [s.toUpperCase()] return for a text [s] of ASCII characters. *)
Definition toLowerCase : string → string := mapChars lowerChar.
Definition toUpperCase : string → string := mapChars upperChar.

(** The text consists of ASCII characters: every byte is below 128. *)
Fixpoint isAscii (s : string) : bool :=
  match s with
  | EmptyString => true
  | String c s' => (nat_of_ascii c <? 128)%nat && isAscii s'
  end.

(** [s.startsWith(p)] *)
Fixpoint startsWith (s p : string) {struct p} : bool :=
  match p, s with
  | EmptyString, _ => true
  | String _ _, EmptyString => false
  | String a p', String b s' => Ascii.eqb a b && startsWith s' p'
  end.

(** [s.includes(t)] *)
Fixpoint includes (s t : string) : bool :=
  startsWith s t ||
  match s with
  | EmptyString => false
  | String _ s' => includes s' t
  end.

(** [s.endsWith(t)] *)
Fixpoint endsWith (s t : string) : bool :=
  String.eqb s t ||
  match s with
  | EmptyString => false
  | String _ s' => endsWith s' t
  end.

(** [s.split(c)[0]]: the text before the first [c], all of [s] without one. *)
Fixpoint splitHead (c : ascii) (s : string) : string :=
  match s with
  | EmptyString => EmptyString
  | String a s' => if Ascii.eqb a c then EmptyString else String a (splitHead c s')
  end.

(** [s.split(c).length > 1]: the separator occurs in [s]. *)
Fixpoint hasChar (c : ascii) (s : string) : bool :=
  match s with
  | EmptyString => false
  | String a s' => Ascii.eqb a c || hasChar c s'
  end.

Fixpoint chars (s : string) : list string :=
  match s with
  | EmptyString => []
  | String a s' => String a EmptyString :: chars s'
  end.

Fixpoint join (sep : string) (l : list string) : string :=
  match l with
  | [] => ""
  | [x] => x
  | x :: l' => x +:+ sep +:+ join sep l'
  end.

End Str.

(** ** JavaScript values, numbers and exceptions *)

Module Js.

Inductive exn := TypeError | SyntaxError | ConfigError | StoreError.

Inductive result (A : Type) :=
| Ok (a : A)
| Throw (e : exn).
Arguments Ok {A} a.
Arguments Throw {A} e.

Definition bind {A B} (r : result A) (k : A → result B) : result B :=
  match r with
  | Ok a => k a
  | Throw e => Throw e
  end.

(** [try { r } catch { h }] *)
Definition tryCatch {A} (r : result A) (h : A) : A :=
  match r with
  | Ok a => a
  | Throw _ => h
  end.

Inductive number := NaN | Num (z : Z).

Definition sub (a b : number) : number :=
  match a, b with
  | Num x, Num y => Num (x - y)
  | _, _ => NaN
  end.

Definition add (a b : number) : number :=
  match a, b with
  | Num x, Num y => Num (x + y)
  | _, _ => NaN
  end.

Definition mul (a b : number) : number :=
  match a, b with
  | Num x, Num y => Num (x * y)
  | _, _ => NaN
  end.

(** [ToIntegerOrInfinity]: [NaN] becomes 0. *)
Definition toInteger (n : number) : Z :=
  match n with
  | NaN => 0
  | Num z => z
  end.

(** The values that [JSON.parse] and property reads produce. An object is
    the list of its own properties in enumeration order. *)
Inductive jsval :=
| JUndefined
| JNull
| JBool (b : bool)
| JNum (z : Z)
| JStr (s : string)
| JArr (elems : list jsval)
| JObj (props : list (string * jsval)).

Definition truthy (v : jsval) : bool :=
  match v with
  | JUndefined | JNull => false
  | JBool b => b
  | JNum z => negb (z =? 0)%Z
  | JStr s => negb (String.eqb s "")
  | JArr _ | JObj _ => true
  end.

(** [a || b] *)
Definition orElse (a b : jsval) : jsval := if truthy a then a else b.

Fixpoint lookupProp (k : string) (props : list (string * jsval)) : jsval :=
  match props with
  | [] => JUndefined
  | (k', v) :: rest => if String.eqb k' k then v else lookupProp k rest
  end.

Definition hasProp (k : string) (props : list (string * jsval)) : bool :=
  existsb (λ kv, String.eqb (fst kv) k) props.

(** [v.k] for a key [k] that no prototype defines and that is neither an
    index nor ["length"]: only an object's own property can answer; reading
    from [undefined] or [null] throws. *)
Definition getProp (v : jsval) (k : string) : result jsval :=
  match v with
  | JUndefined | JNull => Throw TypeError
  | JObj props => Ok (lookupProp k props)
  | _ => Ok JUndefined
  end.

(** [v?.k] *)
Definition optChain (v : jsval) (k : string) : jsval :=
  match v with
  | JObj props => lookupProp k props
  | _ => JUndefined
  end.

(** [String(v)]. An object answers through [Object.prototype.toString]
    unless it has an own property [toString], which in parsed JSON is never
    callable and makes the conversion throw; an array joins its elements
    with commas, [null] and [undefined] elements giving the empty text. A
    number is written in decimal, which is what [String] gives for an
    integer that a double holds exactly and whose magnitude is at most
    2^53 (see [Spec.safeNumbers]). *)
Fixpoint toStr (v : jsval) : result string :=
  match v with
  | JUndefined => Ok "undefined"
  | JNull => Ok "null"
  | JBool true => Ok "true"
  | JBool false => Ok "false"
  | JNum z => Ok (pretty z)
  | JStr s => Ok s
  | JArr elems =>
      bind
        ((fix go (l : list jsval) : result (list string) :=
            match l with
            | [] => Ok []
            | x :: l' =>
                bind (match x with
                      | JUndefined | JNull => Ok ""
                      | _ => toStr x
                      end) (λ s, bind (go l') (λ ss, Ok (s :: ss)))
            end) elems)
        (λ ss, Ok (Str.join "," ss))
  | JObj props =>
      if hasProp "toString" props then Throw TypeError else Ok "[object Object]"
  end.

(** [Object.values(v)] *)
Definition objectValues (v : jsval) : result (list jsval) :=
  match v with
  | JUndefined | JNull => Throw TypeError
  | JObj props => Ok (map snd props)
  | JArr elems => Ok elems
  | JStr s => Ok (map JStr (Str.chars s))
  | JBool _ | JNum _ => Ok []
  end.

(** A method of [String.prototype] called on [v]: only a string has it. *)
Definition asString (v : jsval) : result string :=
  match v with
  | JStr s => Ok s
  | _ => Throw TypeError
  end.

(** [a === s] for a string [s] *)
Definition strictEqStr (a : jsval) (s : string) : bool :=
  match a with
  | JStr t => String.eqb t s
  | _ => false
  end.

End Js.

(** ** The storage service, [server/services/blobStorage.ts] *)

Module BlobStorage.
Import Js.

Notation "x <- r ;; k" := (bind r (λ x, k))
  (at level 100, r at next level, right associativity, only parsing).

(** A comparator result counts as "greater" only when it is a positive
    number; [NaN] is read as [+0]. *)
Definition isPositive (n : number) : bool :=
  match n with
  | NaN => false
  | Num z => (0 <? z)%Z
  end.

(** The sign that a sort reads off a comparator result. *)
Definition sign (n : number) : Z :=
  match n with
  | NaN => 0
  | Num z => Z.sgn z
  end.

(** The stable sort by insertion, left to right: each element goes before
    the first already placed element that compares greater than it. It is
    the yardstick for [Array.prototype.sort]: on a consistent comparator
    the sorted and stable result is unique, and this is it. *)
Fixpoint insertBy {A} (cmp : A → A → result number) (x : A) (placed : list A)
  : result (list A) :=
  match placed with
  | [] => Ok [x]
  | y :: rest =>
      c <- cmp y x;;
      if isPositive c then Ok (x :: y :: rest)
      else r <- insertBy cmp x rest;; Ok (y :: r)
  end.

Fixpoint sortInto {A} (cmp : A → A → result number) (placed pending : list A)
  : result (list A) :=
  match pending with
  | [] => Ok placed
  | x :: rest =>
      placed' <- insertBy cmp x placed;;
      sortInto cmp placed' rest
  end.

Definition stableSort {A} (cmp : A → A → result number) (l : list A) : result (list A) :=
  sortInto cmp [] l.

(** [cmp] is a consistent comparator for the elements of [l]: it returns
    on every pair, the signs of [cmp a b] and [cmp b a] are opposite, and
    "not greater" is transitive, so that the elements fall into classes of
    equal elements that are totally ordered. The comparator is taken as the
    sort sees it, after [SortCompare] has turned a [NaN] into [+0]. *)
Definition consistent {A} (cmp : A → A → result number) (l : list A) : Prop :=
  (∀ a b, In a l → In b l →
          ∃ x y, cmp a b = Ok x ∧ cmp b a = Ok y ∧ sign x = (- sign y)%Z)
  ∧ (∀ a b c x y z, In a l → In b l → In c l →
       cmp a b = Ok x → cmp b c = Ok y → cmp a c = Ok z →
       (sign x ≤ 0)%Z → (sign y ≤ 0)%Z → (sign z ≤ 0)%Z).

(** The built-ins of the JavaScript runtime that the service calls, and
    what the properties use of them.
    [JSON_parse] answers [None] where [JSON.parse] throws a [SyntaxError];
    [Date_parse] is [Date.parse], [NaN] for text that is not a date.
    [String_toLowerCase] and [String_toUpperCase] follow the Unicode case
    mappings; on ASCII text they change the letters A-Z and a-z and nothing
    else. [Array_sort] is [Array.prototype.sort] with a comparator: its
    result holds the elements of the array; it returns when the comparator
    does; the order is the sorted and stable one when the comparator is
    consistent, and is left to the implementation otherwise, so that
    nothing is stated about it. *)
Class Runtime := {
  JSON_parse : string → option jsval;
  Date_parse : string → number;
  String_toLowerCase : string → string;
  String_toUpperCase : string → string;
  Array_sort : ∀ A : Type, (A → A → result number) → list A → result (list A);
  toLowerCase_ascii s :
    Str.isAscii s = true → String_toLowerCase s = Str.toLowerCase s;
  toUpperCase_ascii s :
    Str.isAscii s = true → String_toUpperCase s = Str.toUpperCase s;
  sort_permutation A cmp (l r : list A) :
    Array_sort A cmp l = Ok r → Permutation l r;
  sort_returns A cmp (l : list A) :
    (∀ a b, In a l → In b l → ∃ c, cmp a b = Ok c) →
    ∃ r, Array_sort A cmp l = Ok r;
  sort_consistent A cmp (l : list A) :
    consistent cmp l → Array_sort A cmp l = stableSort cmp l;
}.

(** A blob of the container: its key, its bytes ([None] when the download
    fails) and whether a delete call on it fails. *)
Record Blob := {
  name : string;
  body : option string;
  deleteFails : bool;
}.

(** The environment of the module: the configured connection string and the
    container ['webhook-requests'], its blobs in listing order. *)
Record World := {
  connectionString : string;
  container : list Blob;
}.

Record WebhookRequest := {
  id : jsval;
  receivedAt : jsval;
  method : jsval;
  path : jsval;
  headers : jsval;
  queryParameters : jsval;
  rawBody : jsval;
  contentType : jsval;
  sourceIp : jsval;
}.

Record ListWebhooksParams := {
  date : option string;
  page : option number;
  limit : option number;
  p_method : option string;
  p_sourceIp : option string;
  search : option string;
  conversationId : option string;
}.

Record ListWebhooksResult := {
  data : list WebhookRequest;
  total : nat;
  r_page : number;
  r_limit : number;
}.

Record WebhookStats := {
  s_total : nat;
  byMethod : gmap string nat;
  byDate : gmap string nat;
}.

Definition getContainerClient (w : World) : result (list Blob) :=
  if String.eqb (connectionString w) "" then Throw ConfigError
  else Ok (container w).

(** An optional string parameter used as a condition: [undefined] and the
    empty string are both falsy. *)
Definition given (o : option string) : option string :=
  match o with
  | Some s => if String.eqb s "" then None else Some s
  | None => None
  end.

Definition transformWebhook (raw : jsval) : result WebhookRequest :=
  i <- getProp raw "Id";;
  r <- getProp raw "ReceivedAt";;
  m <- getProp raw "Method";;
  p <- getProp raw "Path";;
  h <- getProp raw "Headers";;
  q <- getProp raw "QueryParameters";;
  b <- getProp raw "RawBody";;
  c <- getProp raw "ContentType";;
  s <- getProp raw "SourceIp";;
  Ok {| id := i;
        receivedAt := r;
        method := m;
        path := p;
        headers := orElse h (JObj []);
        queryParameters := orElse q (JObj []);
        rawBody := orElse b (JStr "");
        contentType := orElse c (JStr "");
        sourceIp := orElse s (JStr "") |}.

Definition listBlobs (w : World) (prefix : option string) : result (list Blob) :=
  c <- getContainerClient w;;
  let listed :=
    match given prefix with
    | Some p => List.filter (λ b, Str.startsWith (name b) p) c
    | None => c
    end in
  Ok (List.filter (λ b, Str.endsWith (name b) ".json") listed).

(** [blobClient.download()] for the blob called [blobName]. *)
Definition download (c : list Blob) (blobName : string) : result string :=
  match List.find (λ b, String.eqb (name b) blobName) c with
  | Some b =>
      match body b with
      | Some content => Ok content
      | None => Throw StoreError
      end
  | None => Throw StoreError
  end.

Definition readBlobAsJson `{rt : Runtime} (w : World) (blobName : string) : result jsval :=
  c <- getContainerClient w;;
  content <- download c blobName;;
  match JSON_parse content with
  | Some v => Ok v
  | None => Throw SyntaxError
  end.

(** The body of the [try] block shared by the three loading loops. *)
Definition readWebhook `{rt : Runtime} (w : World) (blobName : string) : result WebhookRequest :=
  rawWebhook <- readBlobAsJson w blobName;;
  transformWebhook rawWebhook.

(** The loop "Read all webhook data" of [getWebhooks]. *)
Fixpoint readAll `{rt : Runtime} (w : World) (blobs : list Blob) : list WebhookRequest :=
  match blobs with
  | [] => []
  | blob :: rest =>
      match readWebhook w (name blob) with
      | Ok webhook => webhook :: readAll w rest
      | Throw _ => readAll w rest
      end
  end.

(** [Array.prototype.filter] with a callback that may throw. *)
Fixpoint filterM {A} (p : A → result bool) (l : list A) : result (list A) :=
  match l with
  | [] => Ok []
  | x :: l' =>
      b <- p x;;
      r <- filterM p l';;
      Ok (if b then x :: r else r)
  end.

(** [Array.prototype.some] with a callback that may throw. *)
Fixpoint someM {A} (p : A → result bool) (l : list A) : result bool :=
  match l with
  | [] => Ok false
  | x :: l' =>
      b <- p x;;
      if b then Ok true else someM p l'
  end.

(** [a || b] on conditions, [b] evaluated only when [a] is false. *)
Definition orM (a b : result bool) : result bool :=
  x <- a;;
  if x then Ok true else b.

Definition methodFilter `{rt : Runtime} (m : string) (w : WebhookRequest) : result bool :=
  s <- asString (method w);;
  Ok (String.eqb (String_toUpperCase s) (String_toUpperCase m)).

Definition sourceIpFilter (ip : string) (w : WebhookRequest) : result bool :=
  Ok (strictEqStr (sourceIp w) ip).

(** [v.toLowerCase().includes(searchLower)] *)
Definition lowerIncludes `{rt : Runtime} (searchLower : string) (v : jsval)
  : result bool :=
  s <- asString v;;
  Ok (Str.includes (String_toLowerCase s) searchLower).

Definition someValue `{rt : Runtime} (searchLower : string) (obj : jsval) : result bool :=
  vs <- objectValues obj;;
  someM (lowerIncludes searchLower) vs.

Definition searchFilter `{rt : Runtime} (search : string) (w : WebhookRequest)
  : result bool :=
  let searchLower := String_toLowerCase search in
  orM (lowerIncludes searchLower (id w))
  (orM (lowerIncludes searchLower (path w))
  (orM (lowerIncludes searchLower (rawBody w))
  (orM (lowerIncludes searchLower (contentType w))
  (orM (someValue searchLower (headers w))
       (someValue searchLower (queryParameters w)))))).

Definition jsonParse `{rt : Runtime} (text : string) : result jsval :=
  match JSON_parse text with
  | Some v => Ok v
  | None => Throw SyntaxError
  end.

Definition conversationFilter `{rt : Runtime} (conversationId : string)
    (w : WebhookRequest) : bool :=
  let convIdLower := String_toLowerCase conversationId in
  if negb (truthy (rawBody w)) then false
  else
    tryCatch
      (text <- toStr (rawBody w);;
       parsed <- jsonParse text;;
       let convId := optChain (optChain parsed "conversation") "id" in
       if truthy convId
       then s <- toStr convId;; Ok (Str.includes (String_toLowerCase s) convIdLower)
       else Ok false)
      false.

(** [TimeClip] *)
Definition timeClip (z : Z) : number :=
  if (Z.abs z <=? 8640000000000000)%Z then Num z else NaN.

(** [new Date(v).getTime()] *)
Definition dateGetTime `{rt : Runtime} (v : jsval) : result number :=
  match v with
  | JUndefined => Ok NaN
  | JNull => Ok (Num 0)
  | JBool b => Ok (Num (if b then 1 else 0))
  | JNum z => Ok (timeClip z)
  | JStr s => Ok (Date_parse s)
  | JArr _ | JObj _ => s <- toStr v;; Ok (Date_parse s)
  end.

(** The comparator of the sort: [(a, b) => time(b) - time(a)]. *)
Definition compareReceivedAt `{rt : Runtime} (a b : WebhookRequest) : result number :=
  tb <- dateGetTime (receivedAt b);;
  ta <- dateGetTime (receivedAt a);;
  Ok (sub tb ta).

(** [filtered.sort(cmp)], the sort of the runtime. *)
Definition arraySort `{rt : Runtime} {A} (cmp : A → A → result number) (l : list A)
  : result (list A) :=
  Array_sort A cmp l.

(** [Array.prototype.slice(start, end)] *)
Definition relativeIndex (len : Z) (n : number) : Z :=
  let i := toInteger n in
  if (i <? 0)%Z then Z.max (len + i) 0 else Z.min i len.

Definition arraySlice {A} (l : list A) (start stop : number) : list A :=
  let len := Z.of_nat (length l) in
  let k := relativeIndex len start in
  let final := relativeIndex len stop in
  take (Z.to_nat (Z.max (final - k) 0)) (drop (Z.to_nat k) l).

Definition applyFilter {A} (o : option string) (p : string → A → result bool)
    (l : list A) : result (list A) :=
  match given o with
  | Some v => filterM (p v) l
  | None => Ok l
  end.

Definition getWebhooks `{rt : Runtime} (w : World) (params : ListWebhooksParams)
  : result ListWebhooksResult :=
  let page := default (Num 1) (page params) in
  let limit := default (Num 10) (limit params) in
  let prefix :=
    match given (date params) with
    | Some d => Some (d +:+ "/")
    | None => None
    end in
  blobs <- listBlobs w prefix;;
  let webhooks := readAll w blobs in
  filtered <- applyFilter (p_method params) methodFilter webhooks;;
  filtered <- applyFilter (p_sourceIp params) sourceIpFilter filtered;;
  filtered <- applyFilter (search params) searchFilter filtered;;
  filtered <- applyFilter (conversationId params)
               (λ c (x : WebhookRequest), Ok (conversationFilter c x)) filtered;;
  filtered <- arraySort compareReceivedAt filtered;;
  let total := length filtered in
  let start := mul (sub page (Num 1)) limit in
  let data := arraySlice filtered start (add start limit) in
  Ok {| data := data; total := total; r_page := page; r_limit := limit |}.

(** The value of [filtered] in [getWebhooks] when it reaches the comment
    "Pagination": the loaded records, filtered and sorted. *)
Definition matchingRecords `{rt : Runtime} (w : World) (params : ListWebhooksParams)
  : result (list WebhookRequest) :=
  let prefix :=
    match given (date params) with
    | Some d => Some (d +:+ "/")
    | None => None
    end in
  blobs <- listBlobs w prefix;;
  let webhooks := readAll w blobs in
  filtered <- applyFilter (p_method params) methodFilter webhooks;;
  filtered <- applyFilter (p_sourceIp params) sourceIpFilter filtered;;
  filtered <- applyFilter (search params) searchFilter filtered;;
  filtered <- applyFilter (conversationId params)
               (λ c (x : WebhookRequest), Ok (conversationFilter c x)) filtered;;
  arraySort compareReceivedAt filtered.

(** The loop of [getWebhookById]; [None] is [null]. *)
Fixpoint findByName `{rt : Runtime} (w : World) (id : string) (blobs : list Blob)
  : option WebhookRequest :=
  match blobs with
  | [] => None
  | blob :: rest =>
      if Str.includes (name blob) id then
        match readWebhook w (name blob) with
        | Ok webhook => Some webhook
        | Throw _ => findByName w id rest
        end
      else findByName w id rest
  end.

Definition getWebhookById `{rt : Runtime} (w : World) (id : string)
  : result (option WebhookRequest) :=
  container <- getContainerClient w;;
  blobs <- listBlobs w None;;
  Ok (findByName w id blobs).

(** [new Set()], [add]: a list without repetition, in insertion order. *)
Definition setAdd (x : string) (s : list string) : list string :=
  if existsb (String.eqb x) s then s else s ++ [x].

(** [Array.prototype.sort()] without a comparator on strings: ascending
    order of code units. *)
Fixpoint insertString (x : string) (placed : list string) : list string :=
  match placed with
  | [] => [x]
  | y :: rest =>
      if String.ltb x y then x :: y :: rest else y :: insertString x rest
  end.

Definition sortStrings (l : list string) : list string :=
  foldl (λ placed x, insertString x placed) [] l.

(** The loop of [getAvailableDates], over every blob of the container. *)
Definition collectDates (blobs : list Blob) : list string :=
  foldl (λ dates blob,
           if Str.hasChar "/" (name blob)
           then setAdd (Str.splitHead "/" (name blob)) dates
           else dates) [] blobs.

Definition getAvailableDates (w : World) : result (list string) :=
  c <- getContainerClient w;;
  Ok (rev (sortStrings (collectDates c))).

(** [counts[k] = (counts[k] || 0) + 1]; the keys are taken not to name an
    inherited property of a plain object. *)
Definition increment (k : string) (counts : gmap string nat) : gmap string nat :=
  <[k := S (default 0%nat (counts !! k))]> counts.

(** The counting statements of the loop of [getWebhookStats]: the two
    counters are updated in place, so an exception between the two updates
    leaves the first. *)
Definition countWebhook `{rt : Runtime} (counts : gmap string nat * gmap string nat)
    (webhook : WebhookRequest) : gmap string nat * gmap string nat :=
  match asString (method webhook) with
  | Throw _ => counts
  | Ok m =>
      let byMethod' := increment (String_toUpperCase m) (fst counts) in
      match asString (receivedAt webhook) with
      | Throw _ => (byMethod', snd counts)
      | Ok r => (byMethod', increment (Str.splitHead "T" r) (snd counts))
      end
  end.

(** One turn of that loop, with its [try] and [catch]. *)
Definition countBlob `{rt : Runtime} (w : World)
    (counts : gmap string nat * gmap string nat) (blob : Blob)
  : gmap string nat * gmap string nat :=
  match readWebhook w (name blob) with
  | Throw _ => counts
  | Ok webhook => countWebhook counts webhook
  end.

Definition getWebhookStats `{rt : Runtime} (w : World) : result WebhookStats :=
  blobs <- listBlobs w None;;
  let counts := foldl (countBlob w) (∅, ∅) blobs in
  Ok {| s_total := length blobs;
        byMethod := fst counts;
        byDate := snd counts |}.

(** [blobClient.delete()] for the blob called [blobName]. *)
Definition deleteBlob (c : list Blob) (blobName : string) : result (list Blob) :=
  match List.find (λ b, String.eqb (name b) blobName) c with
  | Some b =>
      if deleteFails b then Throw StoreError
      else Ok (List.filter (λ b', negb (String.eqb (name b') blobName)) c)
  | None => Throw StoreError
  end.

(** What a call of [deleteWebhook] leaves behind: its return value, the
    container afterwards and the keys on which a delete was attempted. *)
Record DeleteOutcome := {
  deleted : bool;
  remaining : list Blob;
  attempts : list string;
}.

Fixpoint deleteByName (c : list Blob) (id : string) (blobs : list Blob) : DeleteOutcome :=
  match blobs with
  | [] => {| deleted := false; remaining := c; attempts := [] |}
  | blob :: rest =>
      if Str.includes (name blob) id then
        match deleteBlob c (name blob) with
        | Ok c' => {| deleted := true; remaining := c'; attempts := [name blob] |}
        | Throw _ => {| deleted := false; remaining := c; attempts := [name blob] |}
        end
      else deleteByName c id rest
  end.

Definition deleteWebhook (w : World) (id : string) : result DeleteOutcome :=
  c <- getContainerClient w;;
  blobs <- listBlobs w None;;
  Ok (deleteByName c id blobs).

End BlobStorage.

(** ** The webhook routes *)

Module Routes.
Import Js BlobStorage.

(** [router.delete('/:id')]: the status code of the response. *)
Definition deleteRoute (w : World) (id : string) : nat :=
  match deleteWebhook w id with
  | Ok out => if negb (deleted out) then 404 else 204
  | Throw _ => 500
  end.

End Routes.

(** ** An executable runtime

    [JSON.parse] for JSON text whose numerals are integers, [Date.parse]
    for the ISO forms [YYYY-MM-DD] and [YYYY-MM-DDTHH:mm:ss(.s+)Z],
    [toLowerCase] and [toUpperCase] for text of ASCII characters, Latin-1
    letters and unaccented Greek letters, and the stable sort by
    insertion. *)

Module NodeRuntime.
Import Js.

Definition dquote : ascii := "034"%char.
Definition backslash : ascii := "092"%char.

(** Sample JSON text is written with apostrophes for the double quotes. *)
Definition json (s : string) : string :=
  Str.mapChars (λ c, if Ascii.eqb c "'"%char then dquote else c) s.

Definition isDigit (c : ascii) : bool :=
  let n := nat_of_ascii c in (48 <=? n)%nat && (n <=? 57)%nat.

Definition digitVal (c : ascii) : Z := Z.of_nat (nat_of_ascii c) - 48.

Definition hexVal (c : ascii) : option nat :=
  let n := nat_of_ascii c in
  if (48 <=? n)%nat && (n <=? 57)%nat then Some (n - 48)%nat
  else if (65 <=? n)%nat && (n <=? 70)%nat then Some (n - 55)%nat
  else if (97 <=? n)%nat && (n <=? 102)%nat then Some (n - 87)%nat
  else None.

Definition isWs (c : ascii) : bool :=
  let n := nat_of_ascii c in
  (n =? 32)%nat || (n =? 9)%nat || (n =? 10)%nat || (n =? 13)%nat.

Fixpoint skipWs (s : string) : string :=
  match s with
  | String c r => if isWs c then skipWs r else s
  | EmptyString => s
  end.

Fixpoint dropChars (n : nat) (s : string) : string :=
  match n, s with
  | S n', String _ r => dropChars n' r
  | _, _ => s
  end.

(** Leading decimal digits of [s], their value accumulated onto [acc]. *)
Fixpoint digits (acc : Z) (s : string) : Z * string :=
  match s with
  | String c r => if isDigit c then digits (10 * acc + digitVal c) r else (acc, s)
  | EmptyString => (acc, s)
  end.

(** A code point below [0x10000] as UTF-8 bytes. *)
Definition utf8 (n : nat) : string :=
  if (n <? 128)%nat then String (ascii_of_nat n) ""
  else if (n <? 2048)%nat then
    String (ascii_of_nat (192 + n / 64)) (String (ascii_of_nat (128 + n mod 64)) "")
  else
    String (ascii_of_nat (224 + n / 4096))
      (String (ascii_of_nat (128 + (n / 64) mod 64))
         (String (ascii_of_nat (128 + n mod 64)) "")).

(** The rest of a string literal, after its opening quote. *)
Fixpoint stringLit (s : string) : option (string * string) :=
  match s with
  | EmptyString => None
  | String c r =>
      if Ascii.eqb c dquote then Some ("", r)
      else if Ascii.eqb c backslash then
        match r with
        | String e r' =>
            let plain (x : ascii) :=
              match stringLit r' with
              | Some (t, rest) => Some (String x t, rest)
              | None => None
              end in
            if Ascii.eqb e dquote then plain dquote
            else if Ascii.eqb e backslash then plain backslash
            else if Ascii.eqb e "/"%char then plain "/"%char
            else if Ascii.eqb e "b"%char then plain "008"%char
            else if Ascii.eqb e "f"%char then plain "012"%char
            else if Ascii.eqb e "n"%char then plain "010"%char
            else if Ascii.eqb e "r"%char then plain "013"%char
            else if Ascii.eqb e "t"%char then plain "009"%char
            else if Ascii.eqb e "u"%char then
              match r' with
              | String h1 (String h2 (String h3 (String h4 r''))) =>
                  match hexVal h1, hexVal h2, hexVal h3, hexVal h4, stringLit r'' with
                  | Some a, Some b, Some c', Some d, Some (t, rest) =>
                      Some (utf8 (4096 * a + 256 * b + 16 * c' + d) +:+ t, rest)
                  | _, _, _, _, _ => None
                  end
              | _ => None
              end
            else None
        | EmptyString => None
        end
      else if (nat_of_ascii c <? 32)%nat then None
      else
        match stringLit r with
        | Some (t, rest) => Some (String c t, rest)
        | None => None
        end
  end.

(** An integer numeral: an optional minus sign, then a single 0 or digits
    that do not start with 0, with no fraction or exponent after it. *)
Definition numberLit (s : string) : option (Z * string) :=
  let (neg, s1) :=
    match s with
    | String "-"%char r => (true, r)
    | _ => (false, s)
    end in
  match s1 with
  | String c r =>
      if isDigit c then
        let (v, rest) := if Ascii.eqb c "0"%char then (0%Z, r) else digits 0 s1 in
        match rest with
        | String d _ =>
            if isDigit d || Ascii.eqb d "."%char || Ascii.eqb d "e"%char
               || Ascii.eqb d "E"%char
            then None else Some (if neg then (- v)%Z else v, rest)
        | EmptyString => Some (if neg then (- v)%Z else v, rest)
        end
      else None
  | EmptyString => None
  end.

(** A canonical array index: such keys are enumerated first, ascending. *)
Definition indexKey (k : string) : option Z :=
  match k with
  | String c r =>
      if isDigit c && (negb (Ascii.eqb c "0"%char) || String.eqb r "") then
        match digits 0 k with
        | (v, EmptyString) => if (v <? 4294967295)%Z then Some v else None
        | _ => None
        end
      else None
  | EmptyString => None
  end.

(** [CreateDataProperty]: a repeated key keeps its place and takes the new
    value; a new index key goes among the index keys, any other key last. *)
Fixpoint defineProp (k : string) (v : jsval) (props : list (string * jsval))
  : list (string * jsval) :=
  match props with
  | [] => [(k, v)]
  | (k', v') :: rest =>
      if String.eqb k' k then (k, v) :: rest
      else if hasProp k rest then (k', v') :: defineProp k v rest
      else
        match indexKey k, indexKey k' with
        | Some i, Some j =>
            if (i <? j)%Z then (k, v) :: props else (k', v') :: defineProp k v rest
        | Some _, None => (k, v) :: props
        | None, _ => (k', v') :: defineProp k v rest
        end
  end.

Fixpoint value (fuel : nat) (s : string) {struct fuel} : option (jsval * string) :=
  match fuel with
  | O => None
  | S fuel =>
      match skipWs s with
      | EmptyString => None
      | String c r =>
          if Ascii.eqb c "{"%char then
            match skipWs r with
            | String "}"%char r' => Some (JObj [], r')
            | _ => members fuel [] r
            end
          else if Ascii.eqb c "["%char then
            match skipWs r with
            | String "]"%char r' => Some (JArr [], r')
            | _ => elements fuel [] r
            end
          else if Ascii.eqb c dquote then
            match stringLit r with
            | Some (t, rest) => Some (JStr t, rest)
            | None => None
            end
          else if Str.startsWith (String c r) "true" then
            Some (JBool true, dropChars 4 (String c r))
          else if Str.startsWith (String c r) "false" then
            Some (JBool false, dropChars 5 (String c r))
          else if Str.startsWith (String c r) "null" then
            Some (JNull, dropChars 4 (String c r))
          else
            match numberLit (String c r) with
            | Some (z, rest) => Some (JNum z, rest)
            | None => None
            end
      end
  end
with elements (fuel : nat) (acc : list jsval) (s : string) {struct fuel}
  : option (jsval * string) :=
  match fuel with
  | O => None
  | S fuel =>
      match value fuel s with
      | Some (v, r) =>
          match skipWs r with
          | String ","%char r' => elements fuel (v :: acc) r'
          | String "]"%char r' => Some (JArr (rev (v :: acc)), r')
          | _ => None
          end
      | None => None
      end
  end
with members (fuel : nat) (acc : list (string * jsval)) (s : string) {struct fuel}
  : option (jsval * string) :=
  match fuel with
  | O => None
  | S fuel =>
      match skipWs s with
      | String c r =>
          if Ascii.eqb c dquote then
            match stringLit r with
            | Some (k, r1) =>
                match skipWs r1 with
                | String ":"%char r2 =>
                    match value fuel r2 with
                    | Some (v, r3) =>
                        match skipWs r3 with
                        | String ","%char r4 => members fuel (defineProp k v acc) r4
                        | String "}"%char r4 => Some (JObj (defineProp k v acc), r4)
                        | _ => None
                        end
                    | None => None
                    end
                | _ => None
                end
            | None => None
            end
          else None
      | EmptyString => None
      end
  end.

Definition parse (text : string) : option jsval :=
  match value (2 * String.length text + 2) text with
  | Some (v, rest) =>
      match skipWs rest with
      | EmptyString => Some v
      | _ => None
      end
  | None => None
  end.

(** Days from 1970-01-01 to the first day of month [m] of year [y]. *)
Definition daysFromCivil (y m : Z) : Z :=
  let y' := if (m <=? 2)%Z then (y - 1)%Z else y in
  let era := (y' / 400)%Z in
  let yoe := (y' - era * 400)%Z in
  let mp := ((m + 9) mod 12)%Z in
  let doy := ((153 * mp + 2) / 5)%Z in
  let doe := (yoe * 365 + yoe / 4 - yoe / 100 + doy)%Z in
  (era * 146097 + doe - 719468)%Z.

(** Exactly [n] digits at the head of [s]. *)
Fixpoint fixedDigits (n : nat) (acc : Z) (s : string) : option (Z * string) :=
  match n with
  | O => Some (acc, s)
  | S n' =>
      match s with
      | String c r =>
          if isDigit c then fixedDigits n' (10 * acc + digitVal c) r else None
      | EmptyString => None
      end
  end.

Definition expect (c : ascii) (s : string) : option string :=
  match s with
  | String c' r => if Ascii.eqb c c' then Some r else None
  | EmptyString => None
  end.

(** The milliseconds of a fraction: its first three digits, padded. *)
Definition millis (s : string) : option (Z * string) :=
  match s with
  | String c r =>
      if isDigit c then
        let frac := String.substring 0 3 (s +:+ "00") in
        let ms :=
          match fixedDigits 3 0 (Str.mapChars (λ x, if isDigit x then x else "0"%char) frac) with
          | Some (v, _) => v
          | None => 0%Z
          end in
        Some (ms, snd (digits 0 s))
      else None
  | EmptyString => None
  end.

Definition isoTime (s : string) : option Z :=
  '(y, s) ← fixedDigits 4 0 s;
  s ← expect "-"%char s;
  '(m, s) ← fixedDigits 2 0 s;
  s ← expect "-"%char s;
  '(d, s) ← fixedDigits 2 0 s;
  if negb ((1 <=? m)%Z && (m <=? 12)%Z && (1 <=? d)%Z && (d <=? 31)%Z) then None
  else
    let day := (daysFromCivil y m + d - 1)%Z in
    match s with
    | EmptyString => Some (day * 86400000)%Z
    | _ =>
        s ← expect "T"%char s;
        '(hh, s) ← fixedDigits 2 0 s;
        s ← expect ":"%char s;
        '(mm, s) ← fixedDigits 2 0 s;
        s ← expect ":"%char s;
        '(ss, s) ← fixedDigits 2 0 s;
        '(ms, s) ← match s with
                   | String "."%char r => millis r
                   | _ => Some (0%Z, s)
                   end;
        if String.eqb s "Z" && (hh <? 24)%Z && (mm <? 60)%Z && (ss <? 60)%Z
        then Some (day * 86400000 + hh * 3600000 + mm * 60000 + ss * 1000 + ms)%Z
        else None
    end.

Definition dateParse (s : string) : number :=
  match isoTime s with
  | Some t => Num t
  | None => NaN
  end.

(** An ASCII letter. *)
Definition isLetter (c : ascii) : bool :=
  let n := nat_of_ascii c in
  ((65 <=? n)%nat && (n <=? 90)%nat) || ((97 <=? n)%nat && (n <=? 122)%nat).

(** The second byte of a Latin-1 letter of [U+00C0 .. U+00FF] (bytes
    C3 80 .. C3 BF), which are letters but for the signs [U+00D7] and
    [U+00F7]. *)
Definition isLatinLetter (m : nat) : bool :=
  (128 <=? m)%nat && (m <=? 191)%nat && negb (m =? 151)%nat && negb (m =? 183)%nat.

(** The text starts with a letter: an ASCII letter, a Latin-1 letter of
    [U+00C0 .. U+00FF], the micro sign [U+00B5] (C2 B5), or a Greek letter
    of [U+0391 .. U+03A9] (bytes CE 91 .. CE A9), [U+03B1 .. U+03BF]
    (CE B1 .. CE BF) or [U+03C0 .. U+03C9] (CF 80 .. CF 89). *)
Definition startsLetter (s : string) : bool :=
  match s with
  | String c r =>
      let n := nat_of_ascii c in
      if (n =? 194)%nat then
        match r with
        | String d _ => (nat_of_ascii d =? 181)%nat
        | EmptyString => false
        end
      else if (n =? 195)%nat then
        match r with
        | String d _ => isLatinLetter (nat_of_ascii d)
        | EmptyString => false
        end
      else if (n =? 206)%nat then
        match r with
        | String d _ =>
            let m := nat_of_ascii d in
            ((145 <=? m)%nat && (m <=? 169)%nat && negb (m =? 162)%nat)
            || ((177 <=? m)%nat && (m <=? 191)%nat)
        | EmptyString => false
        end
      else if (n =? 207)%nat then
        match r with
        | String d _ =>
            let m := nat_of_ascii d in (128 <=? m)%nat && (m <=? 137)%nat
        | EmptyString => false
        end
      else isLetter c
  | EmptyString => false
  end.

(** The ASCII characters that the case mappings pass over when they look
    for the letter before or after a sigma: ['], [.], [:], [^] and [`]. *)
Definition isIgnorable (c : ascii) : bool :=
  let n := nat_of_ascii c in
  (n =? 39)%nat || (n =? 46)%nat || (n =? 58)%nat || (n =? 94)%nat || (n =? 96)%nat.

Fixpoint followedByLetter (s : string) : bool :=
  match s with
  | String c r => if isIgnorable c then followedByLetter r else startsLetter s
  | EmptyString => false
  end.

(** [s.toLowerCase()] for text of ASCII characters and of the Latin-1 and
    Greek letters named above; any other byte is kept. A capital letter of
    [U+00C0 .. U+00DE] (C3 80 .. C3 9E) becomes the letter 32 places on. A
    capital sigma (CE A3) becomes the final sigma (CF 82) when a letter
    precedes it and no letter follows it, and the small sigma (CF 83)
    otherwise. [afterLetter] tells whether a letter comes before [s]. *)
Fixpoint lowerFrom (afterLetter : bool) (s : string) : string :=
  match s with
  | EmptyString => EmptyString
  | String c r =>
      if (nat_of_ascii c =? 206)%nat then
        match r with
        | String d r' =>
            let m := nat_of_ascii d in
            if (m =? 163)%nat then
              String "207"%char
                (String (if afterLetter && negb (followedByLetter r')
                         then "130"%char else "131"%char)
                   (lowerFrom true r'))
            else if (145 <=? m)%nat && (m <=? 159)%nat then
              String c (String (ascii_of_nat (m + 32)) (lowerFrom true r'))
            else if (160 <=? m)%nat && (m <=? 169)%nat && negb (m =? 162)%nat then
              String "207"%char (String (ascii_of_nat (m - 32)) (lowerFrom true r'))
            else String c (String d (lowerFrom (startsLetter s) r'))
        | EmptyString => String c EmptyString
        end
      else if (nat_of_ascii c =? 207)%nat || (nat_of_ascii c =? 194)%nat then
        match r with
        | String d r' => String c (String d (lowerFrom (startsLetter s) r'))
        | EmptyString => String c EmptyString
        end
      else if (nat_of_ascii c =? 195)%nat then
        match r with
        | String d r' =>
            let m := nat_of_ascii d in
            String c
              (String (if (m <=? 158)%nat && isLatinLetter m
                       then ascii_of_nat (m + 32) else d)
                 (lowerFrom (startsLetter s) r'))
        | EmptyString => String c EmptyString
        end
      else
        String (Str.lowerChar c)
          (lowerFrom (if isIgnorable c then afterLetter else isLetter c) r)
  end.

Definition lowerCase (s : string) : string := lowerFrom false s.

(** [s.toUpperCase()] for the same text. A small letter of
    [U+00E0 .. U+00FE] (C3 A0 .. C3 BE) becomes the letter 32 places back,
    the sharp s (C3 9F) the two letters SS, the y with diaeresis (C3 BF)
    its capital [U+0178] (C5 B8) and the micro sign the capital mu (CE 9C);
    both small sigmas become the capital sigma. *)
Fixpoint upperCase (s : string) : string :=
  match s with
  | EmptyString => EmptyString
  | String c r =>
      let n := nat_of_ascii c in
      if (n =? 194)%nat then
        match r with
        | String d r' =>
            if (nat_of_ascii d =? 181)%nat
            then String "206"%char (String "156"%char (upperCase r'))
            else String c (String d (upperCase r'))
        | EmptyString => String c EmptyString
        end
      else if (n =? 195)%nat then
        match r with
        | String d r' =>
            let m := nat_of_ascii d in
            if (m =? 159)%nat then String "S"%char (String "S"%char (upperCase r'))
            else if (m =? 191)%nat
            then String "197"%char (String "184"%char (upperCase r'))
            else if (160 <=? m)%nat && isLatinLetter m
            then String c (String (ascii_of_nat (m - 32)) (upperCase r'))
            else String c (String d (upperCase r'))
        | EmptyString => String c EmptyString
        end
      else if (n =? 206)%nat then
        match r with
        | String d r' =>
            let m := nat_of_ascii d in
            if (177 <=? m)%nat && (m <=? 191)%nat
            then String c (String (ascii_of_nat (m - 32)) (upperCase r'))
            else String c (String d (upperCase r'))
        | EmptyString => String c EmptyString
        end
      else if (n =? 207)%nat then
        match r with
        | String d r' =>
            let m := nat_of_ascii d in
            if (128 <=? m)%nat && (m <=? 137)%nat
            then String "206"%char
                   (String (ascii_of_nat (if (m =? 130)%nat then 163 else m + 32))
                      (upperCase r'))
            else String c (String d (upperCase r'))
        | EmptyString => String c EmptyString
        end
      else String (Str.upperChar c) (upperCase r)
  end.

(** The runtime made of these functions and of the stable sort by
    insertion, with the proofs of what [Runtime] asks of them: the case
    mappings are those of ASCII on ASCII text, and the sort returns the
    elements it was given, and returns whenever the comparator does. *)
Definition nodeRuntime : BlobStorage.Runtime.
Proof.
  refine {| BlobStorage.JSON_parse := parse;
            BlobStorage.Date_parse := dateParse;
            BlobStorage.String_toLowerCase := lowerCase;
            BlobStorage.String_toUpperCase := upperCase;
            BlobStorage.Array_sort := @BlobStorage.stableSort |}.
  - (* toLowerCase on ASCII text *)
    intros s. unfold lowerCase. generalize false.
    induction s as [|c s IH]; intros afterLetter H; [reflexivity |].
    cbn [Str.isAscii] in H. apply andb_true_iff in H as [Hc Hs].
    apply Nat.ltb_lt in Hc. cbn [lowerFrom].
    destruct (Nat.eqb_spec (nat_of_ascii c) 206) as [E | _]; [lia |].
    destruct (Nat.eqb_spec (nat_of_ascii c) 207) as [E | _]; [lia |].
    destruct (Nat.eqb_spec (nat_of_ascii c) 194) as [E | _]; [lia |].
    destruct (Nat.eqb_spec (nat_of_ascii c) 195) as [E | _]; [lia |].
    unfold Str.toLowerCase in *. cbn [Str.mapChars orb]. by rewrite IH.
  - (* toUpperCase on ASCII text *)
    intros s. induction s as [|c s IH]; intros H; [reflexivity |].
    cbn [Str.isAscii] in H. apply andb_true_iff in H as [Hc Hs].
    apply Nat.ltb_lt in Hc. cbn [upperCase]. cbv zeta.
    destruct (Nat.eqb_spec (nat_of_ascii c) 194) as [E | _]; [lia |].
    destruct (Nat.eqb_spec (nat_of_ascii c) 195) as [E | _]; [lia |].
    destruct (Nat.eqb_spec (nat_of_ascii c) 206) as [E | _]; [lia |].
    destruct (Nat.eqb_spec (nat_of_ascii c) 207) as [E | _]; [lia |].
    unfold Str.toUpperCase in *. cbn [Str.mapChars]. by rewrite IH.
  - (* the sort returns the elements it was given *)
    intros A cmp.
    assert (Hins : ∀ x placed r,
               BlobStorage.insertBy cmp x placed = Ok r → Permutation (x :: placed) r).
    { intros x placed. induction placed as [|y rest IH]; intros r H; simpl in H.
      - by injection H as <-.
      - destruct (cmp y x) as [c|]; [| discriminate]. simpl in H.
        destruct (BlobStorage.isPositive c); [by injection H as <- |].
        destruct (BlobStorage.insertBy cmp x rest) as [r'|]; [| discriminate].
        simpl in H. injection H as <-. rewrite Permutation_swap.
        constructor. by apply IH. }
    assert (Hsort : ∀ pending placed r,
               BlobStorage.sortInto cmp placed pending = Ok r →
               Permutation (placed ++ pending) r).
    { induction pending as [|x rest IH]; intros placed r H; simpl in H.
      - injection H as <-. by rewrite app_nil_r.
      - destruct (BlobStorage.insertBy cmp x placed) as [placed'|] eqn:E;
          [| discriminate].
        simpl in H. apply IH in H. rewrite <- H, <- (Hins _ _ _ E).
        simpl. symmetry. apply Permutation_middle. }
    intros l r H. exact (Hsort l [] r H).
  - (* the sort returns whenever the comparator does *)
    intros A cmp l Hcmp. unfold BlobStorage.stableSort.
    assert (Hins : ∀ x placed, In x l → Forall (λ a, In a l) placed →
               ∃ r, BlobStorage.insertBy cmp x placed = Ok r
                    ∧ Forall (λ a, In a l) r).
    { intros x placed Hx. induction 1 as [|y rest Hy Hrest (r & IH & Hr)]; simpl.
      - eexists. split; [reflexivity |]. by repeat constructor.
      - destruct (Hcmp y x Hy Hx) as [c ->]. simpl.
        destruct (BlobStorage.isPositive c).
        + eexists. split; [reflexivity |]. by repeat constructor.
        + rewrite IH. simpl. eexists. split; [reflexivity |]. by constructor. }
    assert (Hsort : ∀ pending placed,
               Forall (λ a, In a l) pending → Forall (λ a, In a l) placed →
               ∃ r, BlobStorage.sortInto cmp placed pending = Ok r).
    { induction pending as [|x rest IH]; intros placed Hpe Hpl; simpl.
      - by eexists.
      - apply Forall_cons in Hpe as [Hx Hrest].
        destruct (Hins x placed Hx Hpl) as (placed' & -> & Hpl'). simpl.
        by apply IH. }
    apply Hsort; [| constructor].
    apply Forall_forall. intros a Ha. by apply list_elem_of_In.
  - (* on a consistent comparator the sort is the yardstick *)
    reflexivity.
Defined.

End NodeRuntime.

(** ** The vocabulary of the specification *)

Module Spec.
Import Js BlobStorage.

(** A capital letter of ASCII: A-Z, codes 65 to 90. *)
Definition isUpper (c : ascii) : bool :=
  (65 <=? nat_of_ascii c)%nat && (nat_of_ascii c <=? 90)%nat.

(** Two characters are the same letter: the same character, or a capital
    letter of ASCII and its small letter, 32 codes further. *)
Definition sameLetter (a b : ascii) : bool :=
  Ascii.eqb a b
  || (isUpper a && (nat_of_ascii b =? nat_of_ascii a + 32)%nat)
  || (isUpper b && (nat_of_ascii a =? nat_of_ascii b + 32)%nat).

(** Two texts are equal up to the case of their letters, the letters being
    those of ASCII: A-Z and a-z. *)
Inductive ciEqual : string → string → Prop :=
| ciEqual_nil : ciEqual "" ""
| ciEqual_cons a b s t :
    sameLetter a b = true → ciEqual s t → ciEqual (String a s) (String b t).

(** [q] is a case-insensitive substring of [s]. *)
Definition ciSubstring (q s : string) : Prop :=
  ∃ pre mid post, s = pre +:+ mid +:+ post ∧ ciEqual mid q.

(** A record as the data model types it: text fields and two text-to-text
    mappings. *)
Record WebhookRecord := {
  w_id : string;
  w_receivedAt : string;
  w_method : string;
  w_path : string;
  w_headers : list (string * string);
  w_queryParameters : list (string * string);
  w_rawBody : string;
  w_contentType : string;
  w_sourceIp : string;
}.

Definition mapping (m : list (string * string)) : jsval :=
  JObj (map (λ kv, (fst kv, JStr (snd kv))) m).

(** The runtime value of a typed record. *)
Definition embed (x : WebhookRecord) : WebhookRequest :=
  {| id := JStr (w_id x);
     receivedAt := JStr (w_receivedAt x);
     method := JStr (w_method x);
     path := JStr (w_path x);
     headers := mapping (w_headers x);
     queryParameters := mapping (w_queryParameters x);
     rawBody := JStr (w_rawBody x);
     contentType := JStr (w_contentType x);
     sourceIp := JStr (w_sourceIp x) |}.

Definition isStr (v : jsval) : bool :=
  match v with
  | JStr _ => true
  | _ => false
  end.

Definition isMapping (v : jsval) : bool :=
  match v with
  | JObj props => forallb (λ kv, isStr (snd kv)) props
  | _ => false
  end.

(** A runtime record has the types that [WebhookRequest] declares. *)
Definition wellTyped (y : WebhookRequest) : bool :=
  isStr (id y) && isStr (receivedAt y) && isStr (method y) && isStr (path y)
  && isMapping (headers y) && isMapping (queryParameters y)
  && isStr (rawBody y) && isStr (contentType y) && isStr (sourceIp y).

(** The texts that the free-text search looks into. *)
Definition searchable (x : WebhookRecord) : list string :=
  [w_id x; w_path x; w_rawBody x; w_contentType x]
  ++ map snd (w_headers x) ++ map snd (w_queryParameters x).

(** The test that the code makes on one text: the lower-cased search text
    occurs in the lower-cased text. *)
Definition lowerOccurs `{rt : Runtime} (q field : string) : bool :=
  Str.includes (String_toLowerCase field) (String_toLowerCase q).

(** Every number in the value is an integer of magnitude at most 2^53 - 1:
    a double holds it, and [toStr] prints it as [String] does. *)
Fixpoint safeNumbers (v : jsval) : bool :=
  match v with
  | JNum z => (Z.abs z <=? 9007199254740991)%Z
  | JArr elems => forallb safeNumbers elems
  | _ => true
  end.

(** The listing prefix that a query uses. *)
Definition datePrefix (params : ListWebhooksParams) : option string :=
  match given (date params) with
  | Some d => Some (d +:+ "/")
  | None => None
  end.

(** A record passes an optional filter: the filter is not supplied, or its
    predicate answers true. *)
Definition passes {A} (o : option string) (p : string → A → result bool) (x : A) : bool :=
  match given o with
  | Some v => tryCatch (p v x) false
  | None => true
  end.

(** A record satisfies the conjunction of the supplied filters. *)
Definition satisfies `{rt : Runtime} (params : ListWebhooksParams) (x : WebhookRequest) : bool :=
  passes (p_method params) methodFilter x
  && passes (p_sourceIp params) sourceIpFilter x
  && passes (search params) searchFilter x
  && passes (conversationId params) (λ c y, Ok (conversationFilter c y)) x.

(** The timestamp of a record, when its [receivedAt] yields one. *)
Definition hasTime `{rt : Runtime} (x : WebhookRequest) : bool :=
  match dateGetTime (receivedAt x) with
  | Ok (Num _) => true
  | _ => false
  end.

Definition timeOf `{rt : Runtime} (x : WebhookRequest) : Z :=
  match dateGetTime (receivedAt x) with
  | Ok (Num t) => t
  | _ => 0%Z
  end.

(** [a] is at least as recent as [b]. *)
Definition notOlder `{rt : Runtime} (a b : WebhookRequest) : Prop :=
  (timeOf b ≤ timeOf a)%Z.

(** The member [k] of a parsed JSON value, when it is an object that has
    one. *)
Definition member (k : string) (v : jsval) : option jsval :=
  match v with
  | JObj props => snd <$> List.find (λ kv, String.eqb (fst kv) k) props
  | _ => None
  end.

(** The value at the nested path [conversation.id]. *)
Definition conversationIdOf (parsed : jsval) : option jsval :=
  member "conversation" parsed ≫= member "id".

(** A property read from a stored object: as it is, or with a default in
    place of a missing or falsy value. *)
Definition required (k : string) (raw : jsval) : jsval :=
  default JUndefined (member k raw).

Definition optional (k : string) (dflt : jsval) (raw : jsval) : jsval :=
  match member k raw with
  | Some v => if truthy v then v else dflt
  | None => dflt
  end.

(** The nine names under which the loader reads a stored object. *)
Definition capitalizedNames : list string :=
  ["Id"; "ReceivedAt"; "Method"; "Path"; "Headers"; "QueryParameters";
   "RawBody"; "ContentType"; "SourceIp"].

Definition capitalizedPart (props : list (string * jsval)) : list (string * jsval) :=
  List.filter (λ kv, existsb (String.eqb (fst kv)) capitalizedNames) props.

(** The candidate records of the whole namespace. *)
Definition jsonBlobs (w : World) : list Blob :=
  List.filter (λ b, Str.endsWith (name b) ".json") (container w).

(** The blob is listed under the prefix as a candidate record. *)
Definition listed (prefix : option string) (b : Blob) : bool :=
  match given prefix with
  | Some p => Str.startsWith (name b) p
  | None => true
  end && Str.endsWith (name b) ".json".

(** The same blob with other content. *)
Definition withBody (content : option string) (b : Blob) : Blob :=
  {| name := name b; body := content; deleteFails := deleteFails b |}.

(** The text of the key contains the requested id. *)
Definition keyMatches (id : string) (b : Blob) : bool :=
  Str.includes (name b) id.

(** The blob loads: it downloads, parses and transforms. *)
Definition loads `{rt : Runtime} (w : World) (b : Blob) : bool :=
  match readWebhook w (name b) with
  | Ok _ => true
  | Throw _ => false
  end.

(** The same query with another page and limit. *)
Definition withPaging (p l : option number) (params : ListWebhooksParams)
  : ListWebhooksParams :=
  {| date := date params; page := p; limit := l;
     p_method := p_method params; p_sourceIp := p_sourceIp params;
     search := search params; conversationId := conversationId params |}.

(** The number of pages of [l] records that [t] records fill: the ceiling
    of [t / l]. *)
Definition pageCount (t l : Z) : Z := ((t + l - 1) / l)%Z.

End Spec.

(** ** The other routes of the router *)

Module Router.
Import Js BlobStorage.

(** [parseInt(s, 10)] on text that starts with ASCII characters: white
    space is skipped, a sign is read, then the longest run of decimal
    digits; [NaN] without a digit. The value is the integer that the digits
    write, which is the result of [parseInt] when a double holds it; the
    properties use it up to 2^53. White space outside ASCII, which
    [parseInt] skips too, is not modelled: the properties ask for an ASCII
    first character. *)
Definition isSpace (c : ascii) : bool :=
  let n := nat_of_ascii c in
  (n =? 32)%nat || ((9 <=? n)%nat && (n <=? 13)%nat).

Fixpoint trimStart (s : string) : string :=
  match s with
  | String c r => if isSpace c then trimStart r else s
  | EmptyString => s
  end.

Definition isDecimal (c : ascii) : bool :=
  let n := nat_of_ascii c in (48 <=? n)%nat && (n <=? 57)%nat.

Fixpoint leadingDigits (acc : Z) (s : string) : Z :=
  match s with
  | String c r =>
      if isDecimal c
      then leadingDigits (10 * acc + (Z.of_nat (nat_of_ascii c) - 48)) r
      else acc
  | EmptyString => acc
  end.

Definition unsignedInt (s : string) : option Z :=
  match s with
  | String c _ => if isDecimal c then Some (leadingDigits 0 s) else None
  | EmptyString => None
  end.

Definition signed (negative : bool) (digits : string) : number :=
  match unsignedInt digits with
  | Some v => Num (if negative then - v else v)
  | None => NaN
  end.

Definition parseInt (s : string) : number :=
  match trimStart s with
  | String c r =>
      if Ascii.eqb c "-"%char then signed true r
      else if Ascii.eqb c "+"%char then signed false r
      else signed false (String c r)
  | EmptyString => NaN
  end.

(** [req.query], each parameter a text or absent. *)
Record Query := {
  q_date : option string;
  q_page : option string;
  q_limit : option string;
  q_method : option string;
  q_sourceIp : option string;
  q_search : option string;
  q_conversationId : option string;
}.

(** [req.query.page ? parseInt(req.query.page, 10) : undefined] *)
Definition numberParam (o : option string) : option number :=
  match given o with
  | Some s => Some (parseInt s)
  | None => None
  end.

Definition listParams (q : Query) : ListWebhooksParams :=
  {| date := q_date q;
     page := numberParam (q_page q);
     limit := numberParam (q_limit q);
     p_method := q_method q;
     p_sourceIp := q_sourceIp q;
     search := q_search q;
     conversationId := q_conversationId q |}.

(** What a handler sends: the status code and the JSON body. *)
Inductive Payload :=
| PList (r : ListWebhooksResult)
| PDates (dates : list string)
| PStats (s : WebhookStats)
| PWebhook (x : WebhookRequest)
| PError (message : string)
| PEmpty.

Record Response := {
  status : nat;
  payload : Payload;
}.

(** [router.get('/')] *)
Definition listRoute `{rt : Runtime} (w : World) (q : Query) : Response :=
  match getWebhooks w (listParams q) with
  | Ok result => {| status := 200; payload := PList result |}
  | Throw _ => {| status := 500; payload := PError "Failed to fetch webhooks" |}
  end.

(** [router.get('/dates')] *)
Definition datesRoute (w : World) : Response :=
  match getAvailableDates w with
  | Ok dates => {| status := 200; payload := PDates dates |}
  | Throw _ => {| status := 500; payload := PError "Failed to fetch dates" |}
  end.

(** [router.get('/stats')] *)
Definition statsRoute `{rt : Runtime} (w : World) : Response :=
  match getWebhookStats w with
  | Ok stats => {| status := 200; payload := PStats stats |}
  | Throw _ => {| status := 500; payload := PError "Failed to fetch stats" |}
  end.

(** [router.get('/:id')] *)
Definition getRoute `{rt : Runtime} (w : World) (id : string) : Response :=
  match getWebhookById w id with
  | Ok (Some webhook) => {| status := 200; payload := PWebhook webhook |}
  | Ok None => {| status := 404; payload := PError "Webhook not found" |}
  | Throw _ => {| status := 500; payload := PError "Failed to fetch webhook" |}
  end.

End Router.

(** ** The dashboard's reading of a payload, [components/webhooks/WebhookTable.tsx] *)

Module Client.
Import Js BlobStorage.

(** [tryParseJson(str)]: [None] is [null]. *)
Definition tryParseJson `{rt : Runtime} (str : string) : option jsval :=
  JSON_parse str.

(** [typeof v === 'object'] for a truthy [v]. *)
Definition isObject (v : jsval) : bool :=
  match v with
  | JArr _ | JObj _ => true
  | _ => false
  end.

(** [extractConversationId(rawBody)], [rawBody] absent when it is
    [undefined]; [None] is [null]. *)
Definition extractConversationId `{rt : Runtime} (rawBody : option string) : option string :=
  match given rawBody with
  | None => None
  | Some text =>
      match tryParseJson text with
      | Some parsed =>
          if truthy parsed && isObject parsed then
            let conversation := optChain parsed "conversation" in
            if truthy conversation && isObject conversation then
              match optChain conversation "id" with
              | JStr s => Some s
              | _ => None
              end
            else None
          else None
      | None => None
      end
  end.

End Client.

(** ** Further vocabulary *)

Module Coverage.
Import Js BlobStorage Spec Router.

(** The container reduced to the keys that start with [d/]. *)
Definition restrictTo (d : string) (w : World) : World :=
  {| connectionString := connectionString w;
     container := List.filter (λ b, Str.startsWith (name b) (d +:+ "/")) (container w) |}.

(** The same query without a date. *)
Definition withoutDate (params : ListWebhooksParams) : ListWebhooksParams :=
  {| date := None; page := page params; limit := limit params;
     p_method := p_method params; p_sourceIp := p_sourceIp params;
     search := search params; conversationId := conversationId params |}.

(** The record is counted under the method [k]. *)
Definition methodIs `{rt : Runtime} (k : string) (x : WebhookRequest) : bool :=
  match method x with
  | JStr m => String.eqb (String_toUpperCase m) k
  | _ => false
  end.

(** The record is counted under the date [d]. *)
Definition dateIs (d : string) (x : WebhookRequest) : bool :=
  match method x, receivedAt x with
  | JStr _, JStr r => String.eqb (Str.splitHead "T" r) d
  | _, _ => false
  end.


(** The page [p] of a query, empty when the query fails. *)
Definition pageOf `{rt : Runtime} (w : World) (params : ListWebhooksParams)
    (l : Z) (p : nat) : list WebhookRequest :=
  match getWebhooks w (withPaging (Some (Num (Z.of_nat p))) (Some (Num l)) params) with
  | Ok r => data r
  | Throw _ => []
  end.

(** A counter of the statistics: absent rather than zero. *)
Definition tally (n : nat) : option nat :=
  match n with
  | O => None
  | S _ => Some n
  end.


(** The text starts with a decimal digit. *)
Definition headDecimal (s : string) : bool :=
  match s with
  | String c _ => isDecimal c
  | EmptyString => false
  end.

(** A query parameter reads as the integer [z]: it is absent or empty and
    [z] is the default, or it is the decimal text of [z], an integer of
    magnitude at most 2^53, which [parseInt] returns and a response echoes
    as it is. *)
Definition readsAs (o : option string) (dflt z : Z) : Prop :=
  (given o = None ∧ z = dflt)
  ∨ (o = Some (pretty z) ∧ (Z.abs z ≤ 9007199254740992)%Z).

(** The world after a call of [deleteWebhook]. *)
Definition after (w : World) (out : DeleteOutcome) : World :=
  {| connectionString := connectionString w; container := remaining out |}.

End Coverage.

(** ** Sample containers *)

Module Samples.
Import Js BlobStorage NodeRuntime.

Definition blob (key text : string) : Blob :=
  {| name := key; body := Some (json text); deleteFails := false |}.

Definition blob_a1 : Blob :=
  blob "2026-01-15/a1.json"
    "{'Id':'a1','ReceivedAt':'2026-01-15T10:00:00Z','Method':'GET','Path':'/hook',
      'Headers':{'X-Foo':'AbcDef'},'QueryParameters':{'page':'7'},
      'RawBody':'hello','ContentType':'text/plain','SourceIp':'10.0.0.1'}".

Definition blob_b2 : Blob :=
  blob "2026-01-15/b2.json"
    "{'Id':'b2','ReceivedAt':'2026-01-15T12:30:00Z','Method':'post','Path':'/chat',
      'Headers':{},'QueryParameters':{},
      'RawBody':'{\'conversation\':{\'id\':\'conv-123\'}}',
      'ContentType':'application/json','SourceIp':'10.0.0.2'}".

Definition blob_c3 : Blob :=
  blob "2026-01-16/c3.json"
    "{'Id':'c3','ReceivedAt':'2026-01-16T08:00:00.250Z','Method':'GET','Path':'/hook',
      'Headers':{},'QueryParameters':{},
      'RawBody':'','ContentType':'','SourceIp':'10.0.0.1'}".

(** Three records, two dates, and a key that is not a record. *)
Definition demo : World :=
  {| connectionString := "UseDevelopmentStorage=true";
     container :=
       [blob_a1; blob_b2;
        {| name := "2026-01-16/notes.txt"; body := Some "n/a"; deleteFails := false |};
        blob_c3] |}.

(** The record of [blob_a1], typed. *)
Definition record_a1 : Spec.WebhookRecord :=
  {| Spec.w_id := "a1"; Spec.w_receivedAt := "2026-01-15T10:00:00Z";
     Spec.w_method := "GET"; Spec.w_path := "/hook";
     Spec.w_headers := [("X-Foo", "AbcDef")];
     Spec.w_queryParameters := [("page", "7")];
     Spec.w_rawBody := "hello"; Spec.w_contentType := "text/plain";
     Spec.w_sourceIp := "10.0.0.1" |}.

(** A record with the given raw body. *)
Definition posted (text : string) : WebhookRequest :=
  {| id := JStr "p1"; receivedAt := JStr "2026-01-15T09:00:00Z";
     method := JStr "POST"; path := JStr "/chat";
     headers := JObj []; queryParameters := JObj [];
     rawBody := JStr text;
     contentType := JStr "application/json"; sourceIp := JStr "10.0.0.3" |}.

(** The record of [blob_a1] stored under lower-camel-case names. *)
Definition camelCaseText : string :=
  json "{'id':'a1','receivedAt':'2026-01-15T10:00:00Z','method':'GET','path':'/hook',
         'headers':{'X-Foo':'AbcDef'},'queryParameters':{'page':'7'},
         'rawBody':'hello','contentType':'text/plain','sourceIp':'10.0.0.1'}".

(** Keys that do not carry the id of their record: the record with id [a1]
    lies under [req-001], and the key [a1] holds the record with id [zz9]. *)
Definition renamed : World :=
  {| connectionString := "UseDevelopmentStorage=true";
     container :=
       [blob "2026-01-15/req-001.json"
          "{'Id':'a1','ReceivedAt':'2026-01-15T10:00:00Z','Method':'GET','Path':'/hook'}";
        blob "2026-01-15/a1.json"
          "{'Id':'zz9','ReceivedAt':'2026-01-15T11:00:00Z','Method':'PUT','Path':'/other'}"] |}.

(** A blob whose content is not JSON. *)
Definition garbage : Blob :=
  {| name := "2026-01-17/bad.json"; body := Some "<html>502</html>";
     deleteFails := false |}.

Definition garbageOnly : World :=
  {| connectionString := "UseDevelopmentStorage=true"; container := [garbage] |}.

(** A record without a readable date, listed before one with a date. *)
Definition undated : World :=
  {| connectionString := "UseDevelopmentStorage=true";
     container :=
       [blob "2026-01-15/u1.json"
          "{'Id':'u1','ReceivedAt':'unknown','Method':'GET','Path':'/hook'}";
        blob "2026-01-15/v2.json"
          "{'Id':'v2','ReceivedAt':'2026-01-15T10:00:00Z','Method':'GET','Path':'/hook'}"] |}.

(** Two keys contain [b2]; the delete call on the first one fails. *)
Definition locked : World :=
  {| connectionString := "UseDevelopmentStorage=true";
     container :=
       [blob_a1;
        {| name := name blob_b2; body := body blob_b2; deleteFails := true |};
        blob "2026-01-16/b2-copy.json" "{'Id':'b2','Method':'POST'}"] |}.

Definition noParams : ListWebhooksParams :=
  {| date := None; page := None; limit := None; p_method := None;
     p_sourceIp := None; search := None; conversationId := None |}.

Definition getOnly : ListWebhooksParams :=
  {| date := None; page := None; limit := None; p_method := Some "get";
     p_sourceIp := None; search := None; conversationId := None |}.

Definition secondPage : ListWebhooksParams :=
  {| date := None; page := Some (Num 2); limit := Some (Num 2); p_method := None;
     p_sourceIp := None; search := None; conversationId := None |}.

End Samples.

(** ** Further sample containers and queries *)

Module MoreSamples.
Import Js BlobStorage NodeRuntime Router Samples.

(** The sample container without a connection string. *)
Definition offline : World :=
  {| connectionString := EmptyString; container := container demo |}.

(** Records that lack a field: the first has no [Method], the second no
    [Id]. *)
Definition sparse : World :=
  {| connectionString := "UseDevelopmentStorage=true";
     container :=
       [blob "2026-01-18/e1.json" "{'Id':'e1','Path':'/x'}";
        blob "2026-01-18/e2.json" "{'Method':'GET','Path':'/x'}"] |}.

Definition record_e1 : WebhookRequest :=
  {| id := JStr "e1"; receivedAt := JUndefined; method := JUndefined;
     path := JStr "/x"; headers := JObj []; queryParameters := JObj [];
     rawBody := JStr EmptyString; contentType := JStr EmptyString;
     sourceIp := JStr EmptyString |}.

Definition record_e2 : WebhookRequest :=
  {| id := JUndefined; receivedAt := JUndefined; method := JStr "GET";
     path := JStr "/x"; headers := JObj []; queryParameters := JObj [];
     rawBody := JStr EmptyString; contentType := JStr EmptyString;
     sourceIp := JStr EmptyString |}.

(** A key that contains [a1] and does not load, listed before the record
    [a1]. *)
Definition draft : Blob :=
  {| name := "2026-01-14/a1-draft.json"; body := Some "<html>502</html>";
     deleteFails := false |}.

Definition shadowed : World :=
  {| connectionString := "UseDevelopmentStorage=true";
     container := [draft; blob_a1] |}.

Definition searchOnly : ListWebhooksParams :=
  {| date := None; page := None; limit := None; p_method := None;
     p_sourceIp := None; search := Some "x"; conversationId := None |}.

Definition dated : ListWebhooksParams :=
  {| date := Some "2026-01-15"; page := None; limit := None; p_method := None;
     p_sourceIp := None; search := None; conversationId := None |}.

Definition zeroPage : ListWebhooksParams :=
  {| date := None; page := Some (Num 0); limit := Some (Num 2); p_method := None;
     p_sourceIp := None; search := None; conversationId := None |}.

(** The query string with the given [page] and [limit] and nothing else. *)
Definition paging (p l : option string) : Query :=
  {| q_date := None; q_page := p; q_limit := l; q_method := None;
     q_sourceIp := None; q_search := None; q_conversationId := None |}.

(** The sample container after the delete of the key of [blob_b2]. *)
Definition without_b2 : DeleteOutcome :=
  {| deleted := true;
     remaining :=
       [blob_a1;
        {| name := "2026-01-16/notes.txt"; body := Some "n/a"; deleteFails := false |};
        blob_c3];
     attempts := [name blob_b2] |}.

(** The two records of [undated], as they are loaded. *)
Definition record_u1 : WebhookRequest :=
  {| id := JStr "u1"; receivedAt := JStr "unknown"; method := JStr "GET";
     path := JStr "/hook"; headers := JObj []; queryParameters := JObj [];
     rawBody := JStr EmptyString; contentType := JStr EmptyString;
     sourceIp := JStr EmptyString |}.

Definition record_v2 : WebhookRequest :=
  {| id := JStr "v2"; receivedAt := JStr "2026-01-15T10:00:00Z"; method := JStr "GET";
     path := JStr "/hook"; headers := JObj []; queryParameters := JObj [];
     rawBody := JStr EmptyString; contentType := JStr EmptyString;
     sourceIp := JStr EmptyString |}.

(** A record whose path ends in a capital sigma, as it is stored and as the
    data model types it. *)
Definition blob_g1 : Blob :=
  blob "2026-01-19/g1.json"
    "{'Id':'g1','ReceivedAt':'2026-01-19T07:00:00Z','Method':'GET','Path':'/ΑΣ'}".

Definition record_g1 : Spec.WebhookRecord :=
  {| Spec.w_id := "g1"; Spec.w_receivedAt := "2026-01-19T07:00:00Z";
     Spec.w_method := "GET"; Spec.w_path := "/ΑΣ";
     Spec.w_headers := []; Spec.w_queryParameters := [];
     Spec.w_rawBody := EmptyString; Spec.w_contentType := EmptyString;
     Spec.w_sourceIp := EmptyString |}.

Definition greek : World :=
  {| connectionString := "UseDevelopmentStorage=true"; container := [blob_g1] |}.

Definition sigmaSearch : ListWebhooksParams :=
  {| date := None; page := None; limit := None; p_method := None;
     p_sourceIp := None; search := Some "Σ"; conversationId := None |}.

End MoreSamples.

(** * Properties *)

(** ** Strings *)

Module StrFacts.
Import Str.

Lemma startsWith_spec (s p : string) :
  startsWith s p = true ↔ ∃ post, s = p +:+ post.
Proof.
  revert s; induction p as [|a p IH]; intros s; simpl.
  - split; [intros _; by exists s | done].
  - destruct s as [|b s].
    + split; [discriminate | intros [post Hp]; discriminate].
    + rewrite andb_true_iff, IH. split.
      * intros [Hab [post ->]]. apply Ascii.eqb_eq in Hab as ->. by exists post.
      * intros [post Hp]. injection Hp as -> ->. split; [apply Ascii.eqb_refl | by exists post].
Qed.

Lemma includes_spec (s t : string) :
  includes s t = true ↔ ∃ pre post, s = pre +:+ t +:+ post.
Proof.
  induction s as [|b s IH].
  - cbn [includes]. rewrite orb_false_r, startsWith_spec. split.
    + intros [post Hp]. by exists "", post.
    + intros [pre [post Hp]]. destruct pre; [by exists post | discriminate].
  - cbn [includes]. rewrite orb_true_iff, startsWith_spec, IH. split.
    + intros [[post Hp] | [pre [post Hp]]].
      * by exists "", post.
      * exists (String b pre), post. simpl. by rewrite Hp.
    + intros [pre [post Hp]]. destruct pre as [|x pre].
      * left. by exists post.
      * right. simpl in Hp. injection Hp as _ Hp. by exists pre, post.
Qed.

Lemma mapChars_append f (a b : string) :
  mapChars f (a +:+ b) = mapChars f a +:+ mapChars f b.
Proof. induction a as [|x a IH]; simpl; [done | by rewrite IH]. Qed.

Lemma mapChars_split f (s a b : string) :
  mapChars f s = a +:+ b →
  ∃ a' b', s = a' +:+ b' ∧ mapChars f a' = a ∧ mapChars f b' = b.
Proof.
  revert s; induction a as [|x a IH]; intros s H.
  - by exists "", s.
  - destruct s as [|y s]; [discriminate |]. simpl in H. injection H as Hx H.
    destruct (IH _ H) as (a' & b' & -> & Ha & Hb).
    exists (String y a'), b'. simpl. by rewrite Hx, Ha.
Qed.

Lemma nat_of_ascii_inj (a b : ascii) : nat_of_ascii a = nat_of_ascii b → a = b.
Proof. intros H. by rewrite <- (ascii_nat_embedding a), <- (ascii_nat_embedding b), H. Qed.

Lemma lowerChar_code (c : ascii) :
  nat_of_ascii (Str.lowerChar c)
  = if (65 <=? nat_of_ascii c)%nat && (nat_of_ascii c <=? 90)%nat
    then (nat_of_ascii c + 32)%nat else nat_of_ascii c.
Proof.
  unfold Str.lowerChar.
  destruct ((65 <=? nat_of_ascii c)%nat && (nat_of_ascii c <=? 90)%nat) eqn:E; [| done].
  apply andb_true_iff in E as [E1 E2]. apply Nat.leb_le in E1, E2.
  apply nat_ascii_embedding. lia.
Qed.

(** Two characters are the same letter exactly when the lower-casing of
    ASCII sends them to one character. *)
Lemma sameLetter_lower (a b : ascii) :
  Spec.sameLetter a b = true ↔ Str.lowerChar a = Str.lowerChar b.
Proof.
  unfold Spec.sameLetter, Spec.isUpper.
  rewrite !orb_true_iff, !andb_true_iff, Ascii.eqb_eq, !Nat.leb_le, !Nat.eqb_eq.
  split.
  - intros H. apply nat_of_ascii_inj. rewrite !lowerChar_code.
    assert (a = b → nat_of_ascii a = nat_of_ascii b) as Hab by (by intros ->).
    repeat match goal with
           | |- context [(?x <=? ?y)%nat] => destruct (Nat.leb_spec x y)
           end; simpl; destruct H as [[H | H] | H]; try (apply Hab in H); lia.
  - intros H. apply (f_equal nat_of_ascii) in H. rewrite !lowerChar_code in H.
    destruct (decide (nat_of_ascii a = nat_of_ascii b)) as [E | E].
    { left; left. by apply nat_of_ascii_inj. }
    repeat match type of H with
           | context [(?x <=? ?y)%nat] => destruct (Nat.leb_spec x y)
           end; simpl in H; lia.
Qed.

Lemma ciEqual_lower (s t : string) :
  Spec.ciEqual s t ↔ toLowerCase s = toLowerCase t.
Proof.
  split.
  - induction 1 as [|a b s t Hab _ IH]; simpl; [done |].
    apply sameLetter_lower in Hab.
    unfold toLowerCase in *. simpl. by rewrite Hab, IH.
  - revert t; induction s as [|a s IH]; intros [|b t] H; try discriminate.
    + constructor.
    + unfold toLowerCase in H. simpl in H. injection H as Hab H.
      constructor; [by apply sameLetter_lower | by apply IH].
Qed.

(** Under the case mapping of ASCII, [includes] on the lower-cased texts
    decides the case-insensitive substring relation. *)
Lemma lower_includes_spec (s q : string) :
  includes (toLowerCase s) (toLowerCase q) = true ↔ Spec.ciSubstring q s.
Proof.
  rewrite includes_spec. unfold Spec.ciSubstring. split.
  - intros (pre & post & H).
    apply mapChars_split in H as (pre' & rest & -> & Hpre & H).
    apply mapChars_split in H as (mid & post' & -> & Hmid & Hpost).
    exists pre', mid, post'. split; [done |]. by apply ciEqual_lower.
  - intros (pre & mid & post & -> & H). apply ciEqual_lower in H.
    exists (toLowerCase pre), (toLowerCase post).
    unfold toLowerCase in *. by rewrite !mapChars_append, H.
Qed.

End StrFacts.

(** ** Exceptions and the yardstick sort *)

Module SortFacts.
Import Js BlobStorage.

Lemma bind_Ok_inv {A B} (r : result A) (k : A → result B) (b : B) :
  bind r k = Ok b → ∃ a, r = Ok a ∧ k a = Ok b.
Proof. destruct r as [a|e]; simpl; [eauto | discriminate]. Qed.

(** Peel the successful binds of a hypothesis [H : bind .. = Ok _]. *)
Ltac bind_inv H :=
  repeat match type of H with
         | bind _ _ = Ok _ =>
             let a := fresh "v" in
             let Ha := fresh "Hv" in
             apply bind_Ok_inv in H as (a & Ha & H)
         end.

Lemma insertBy_Permutation {A} (cmp : A → A → result number) x placed r :
  insertBy cmp x placed = Ok r → Permutation (x :: placed) r.
Proof.
  revert r; induction placed as [|y rest IH]; intros r H; simpl in H.
  - by injection H as <-.
  - bind_inv H. destruct (isPositive v).
    + by injection H as <-.
    + bind_inv H. injection H as <-. rewrite Permutation_swap.
      constructor. by apply IH.
Qed.

End SortFacts.

(** ** Filters and the sort of the runtime *)

Section Service.
Import Js BlobStorage SortFacts Spec.
Context `{rt : Runtime}.

Lemma filterM_Ok {A} (p : A → result bool) (l l' : list A) :
  filterM p l = Ok l' → l' = List.filter (λ x, tryCatch (p x) false) l.
Proof.
  revert l'; induction l as [|x l IH]; intros l' H; simpl in *.
  - by injection H as <-.
  - bind_inv H. injection H as <-. rewrite Hv. simpl.
    rewrite <- (IH _ Hv0). by destruct v.
Qed.

Lemma filterM_total {A} (p : A → result bool) (l : list A) :
  Forall (λ x, ∃ b, p x = Ok b) l → ∃ l', filterM p l = Ok l'.
Proof.
  induction 1 as [|x l [b Hb] _ [l' IH]]; simpl; [by eexists |].
  rewrite Hb, IH. simpl. by eexists.
Qed.

Lemma applyFilter_Ok {A} o (p : string → A → result bool) (l l' : list A) :
  applyFilter o p l = Ok l' → l' = List.filter (passes o p) l.
Proof.
  unfold applyFilter, passes. destruct (given o) as [v|].
  - apply filterM_Ok.
  - intros [= <-]. induction l as [|x l IH]; simpl; [done | by rewrite <- IH].
Qed.

Lemma applyFilter_total {A} o (p : string → A → result bool) (l : list A) :
  Forall (λ x, ∀ v, ∃ b, p v x = Ok b) l → ∃ l', applyFilter o p l = Ok l'.
Proof.
  intros Hl. unfold applyFilter. destruct (given o) as [v|]; [| by eexists].
  apply filterM_total. eapply Forall_impl; [exact Hl |]. intros x Hx. apply Hx.
Qed.

Lemma filter_filter_and {A} (f g : A → bool) (l : list A) :
  List.filter g (List.filter f l) = List.filter (λ x, f x && g x) l.
Proof.
  induction l as [|x l IH]; simpl; [done |].
  destruct (f x); simpl; [destruct (g x) |]; by rewrite IH.
Qed.

Lemma arraySort_Permutation {A} (cmp : A → A → result number) l r :
  arraySort cmp l = Ok r → Permutation l r.
Proof. apply sort_permutation. Qed.

Lemma getWebhooks_unfold (w : World) (params : ListWebhooksParams) :
  getWebhooks w params =
  (records <- matchingRecords w params;;
   let page := default (Num 1) (page params) in
   let limit := default (Num 10) (limit params) in
   let start := mul (sub page (Num 1)) limit in
   Ok {| data := arraySlice records start (add start limit);
         total := length records; r_page := page; r_limit := limit |}).
Proof.
  unfold getWebhooks, matchingRecords.
  repeat match goal with
         | |- context [bind ?r _] =>
             lazymatch r with
             | bind _ _ => fail
             | _ => destruct r; simpl; try reflexivity
             end
         end.
Qed.

(** ** Pagination *)

Lemma take_min_length {A} (n : nat) (l : list A) :
  take (n `min` length l) l = take n l.
Proof.
  destruct (decide (n ≤ length l)) as [Hn|Hn].
  - by rewrite Nat.min_l.
  - rewrite Nat.min_r by lia. by rewrite !take_ge by lia.
Qed.

Lemma arraySlice_page {A} (l : list A) (p L : Z) :
  (1 ≤ p)%Z → (0 ≤ L)%Z →
  let start := mul (sub (Num p) (Num 1)) (Num L) in
  arraySlice l start (add start (Num L))
  = take (Z.to_nat L) (drop (Z.to_nat ((p - 1) * L)) l).
Proof.
  intros Hp HL. simpl. unfold arraySlice, relativeIndex. simpl.
  set (len := Z.of_nat (length l)). set (s := ((p - 1) * L)%Z).
  assert (0 ≤ s)%Z by (unfold s; nia).
  destruct (s <? 0)%Z eqn:E1; [apply Z.ltb_lt in E1; lia |].
  destruct (s + L <? 0)%Z eqn:E2; [apply Z.ltb_lt in E2; lia |].
  destruct (decide (s ≤ len)%Z) as [Hs|Hs].
  - rewrite (Z.min_l s len) by lia.
    rewrite <- (take_min_length (Z.to_nat L)). f_equal.
    rewrite length_drop. unfold len. lia.
  - rewrite (Z.min_r s len) by lia.
    rewrite !drop_ge by (unfold len in *; lia). by rewrite !take_nil.
Qed.

Lemma page_nonempty {A} (l : list A) (p L : Z) :
  (1 ≤ p)%Z → (1 ≤ L)%Z →
  take (Z.to_nat L) (drop (Z.to_nat ((p - 1) * L)) l) ≠ []
  ↔ (p ≤ pageCount (Z.of_nat (length l)) L)%Z.
Proof.
  intros Hp HL. unfold pageCount.
  set (T := Z.of_nat (length l)).
  assert (Hlen : length (take (Z.to_nat L) (drop (Z.to_nat ((p - 1) * L)) l))
          = (Z.to_nat L `min` (length l - Z.to_nat ((p - 1) * L)))%nat).
  { by rewrite length_take, length_drop. }
  assert (Hiff : ((p - 1) * L < T ↔ p ≤ (T + L - 1) / L)%Z).
  { split; intros H.
    - apply Z.div_le_lower_bound; [lia | nia].
    - assert (HL' : (0 < L)%Z) by lia.
      pose proof (Z.mul_div_le (T + L - 1) L HL'). nia. }
  rewrite <- Hiff. clear Hiff.
  assert (Hs : (0 ≤ (p - 1) * L)%Z) by nia. revert Hlen Hs.
  generalize ((p - 1) * L)%Z; intros s Hlen Hs. split.
  - intros Hne. destruct (decide (s < T)%Z); [done |].
    exfalso. apply Hne. apply nil_length_inv. rewrite Hlen. unfold T in *. lia.
  - intros Hlt Hnil. rewrite Hnil in Hlen. cbn [length] in Hlen.
    unfold T in *. lia.
Qed.

(** C6. For the sorted list of matching records, of length T, and a page
    p >= 1 with a limit L >= 1 (page 1 and limit 10 when they are not
    given), the query returns the slice from (p-1)*L of length L together
    with the total T; the slice is empty beyond page ceil(T/L) and
    non-empty exactly on the pages 1 .. ceil(T/L). *)
Theorem getWebhooks_pagination (w : World) (params : ListWebhooksParams)
    (records : list WebhookRequest) (p L : Z) :
  matchingRecords w params = Ok records →
  default (Num 1) (page params) = Num p →
  default (Num 10) (limit params) = Num L →
  (1 ≤ p)%Z → (1 ≤ L)%Z →
  ∃ r, getWebhooks w params = Ok r
     ∧ total r = length records
     ∧ data r = take (Z.to_nat L) (drop (Z.to_nat ((p - 1) * L)) records)
     ∧ ((pageCount (Z.of_nat (length records)) L < p)%Z → data r = [])
     ∧ (data r ≠ [] ↔ (p ≤ pageCount (Z.of_nat (length records)) L)%Z)
     ∧ getWebhooks w (withPaging None None params)
       = getWebhooks w (withPaging (Some (Num 1)) (Some (Num 10)) params).
Proof.
  intros Hrec Hpage Hlimit Hp HL.
  rewrite getWebhooks_unfold, Hrec. cbn [bind]. rewrite Hpage, Hlimit.
  eexists. split; [reflexivity |]. cbn [total data].
  rewrite arraySlice_page by lia.
  pose proof (page_nonempty records p L Hp HL) as Hne.
  repeat split; try apply Hne.
  intros Hlt.
  destruct (take (Z.to_nat L) (drop (Z.to_nat ((p - 1) * L)) records)) eqn:E; [done |].
  assert (p ≤ pageCount (Z.of_nat (length records)) L)%Z by (by apply Hne). lia.
Qed.

(** ** The filters *)

Lemma includes_empty (s : string) : Str.includes s "" = true.
Proof. by destruct s. Qed.

Lemma orM_Ok (a b : bool) : orM (Ok a) (Ok b) = Ok (a || b).
Proof. by destruct a. Qed.

Lemma someM_strings (q : string) (l : list string) :
  someM (lowerIncludes q) (map JStr l)
  = Ok (existsb (λ s, Str.includes (String_toLowerCase s) q) l).
Proof.
  induction l as [|s l IH]; simpl; [done |].
  destruct (Str.includes (String_toLowerCase s) q); [done | exact IH].
Qed.

Lemma someValue_mapping (q : string) (m : list (string * string)) :
  someValue q (mapping m)
  = Ok (existsb (λ s, Str.includes (String_toLowerCase s) q) (map snd m)).
Proof.
  unfold someValue, mapping. simpl. rewrite map_map. simpl.
  rewrite <- (map_map snd JStr). apply someM_strings.
Qed.

Lemma searchFilter_embed (q : string) (x : WebhookRecord) :
  searchFilter q (embed x) = Ok (existsb (lowerOccurs q) (searchable x)).
Proof.
  unfold searchFilter, searchable, lowerOccurs.
  cbn [embed id path rawBody contentType headers queryParameters].
  rewrite !someValue_mapping. cbn [lowerIncludes asString bind].
  rewrite !orM_Ok. cbn [existsb app]. rewrite existsb_app.
  by rewrite !orb_assoc.
Qed.

(** On ASCII text the test of the code decides the case-insensitive
    substring relation. *)
Lemma lowerOccurs_ascii (q field : string) :
  Str.isAscii q = true → Str.isAscii field = true →
  lowerOccurs q field = true ↔ ciSubstring q field.
Proof.
  intros Hq Hf. unfold lowerOccurs.
  rewrite (toLowerCase_ascii q Hq), (toLowerCase_ascii field Hf).
  apply StrFacts.lower_includes_spec.
Qed.

Lemma lowerOccurs_empty (field : string) : lowerOccurs "" field = true.
Proof.
  unfold lowerOccurs. rewrite (toLowerCase_ascii "" eq_refl). apply includes_empty.
Qed.

(** C7. A typed record passes the free-text search exactly when the
    lower-cased search text occurs in the lower-cased text of its id, path,
    rawBody or contentType, or of a value of its headers or of its
    queryParameters. When the search text and these texts are ASCII, that is
    exactly when the search text is a case-insensitive substring of one of
    them. *)
Theorem searchFilter_spec (q : string) (x : WebhookRecord) :
  ∃ b, searchFilter q (embed x) = Ok b
     ∧ passes (Some q) searchFilter (embed x) = b
     ∧ (b = true ↔ ∃ field, In field (searchable x) ∧ lowerOccurs q field = true)
     ∧ (Str.isAscii q = true → forallb Str.isAscii (searchable x) = true →
        (b = true ↔ ∃ field, In field (searchable x) ∧ ciSubstring q field)).
Proof.
  eexists. split; [apply searchFilter_embed |]. split; [| split].
  - unfold passes, given. destruct (String.eqb_spec q "") as [-> | Hq].
    + symmetry. apply existsb_exists. exists (w_id x). split.
      * unfold searchable. simpl. by left.
      * apply lowerOccurs_empty.
    + by rewrite searchFilter_embed.
  - apply existsb_exists.
  - intros Hq Hx. rewrite existsb_exists. rewrite forallb_forall in Hx.
    split; intros (s & Hs & Hi); exists s; (split; [done |]);
      by apply (lowerOccurs_ascii q s Hq (Hx s Hs)).
Qed.

(** ** The query pipeline *)

Lemma Forall_filter {A} (P : A → Prop) (f : A → bool) (l : list A) :
  Forall P l → Forall P (List.filter f l).
Proof.
  induction 1 as [|x l Hx _ IH]; simpl; [constructor |].
  destruct (f x); [by constructor | done].
Qed.

Lemma isStr_inv (v : jsval) : isStr v = true → ∃ s, v = JStr s.
Proof. destruct v; try discriminate. by eexists. Qed.

Lemma isMapping_inv (v : jsval) : isMapping v = true → ∃ m, v = mapping m.
Proof.
  destruct v as [| | | | |?|props]; try discriminate. simpl. intros H.
  enough (∃ m, props = map (λ kv, (fst kv, JStr (snd kv))) m) as [m ->]
    by (by exists m).
  induction props as [|[k v] props IH]; [by exists [] |].
  simpl in H. apply andb_true_iff in H as [Hv H].
  apply isStr_inv in Hv as [s ->]. destruct (IH H) as [m ->].
  by exists ((k, s) :: m).
Qed.

Lemma wellTyped_embed (y : WebhookRequest) :
  wellTyped y = true → ∃ x, y = embed x.
Proof.
  unfold wellTyped. rewrite !andb_true_iff.
  intros [[[[[[[[H1 H2] H3] H4] H5] H6] H7] H8] H9].
  destruct y as [i r m p h q b c s]. simpl in *.
  apply isStr_inv in H1 as [? ->], H2 as [? ->], H3 as [? ->], H4 as [? ->],
    H7 as [? ->], H8 as [? ->], H9 as [? ->].
  apply isMapping_inv in H5 as [mh ->], H6 as [mq ->].
  by eexists {| w_id := _; w_headers := mh; w_queryParameters := mq |}.
Qed.

Lemma matchingRecords_withPaging w p l params :
  matchingRecords w (withPaging p l params) = matchingRecords w params.
Proof. reflexivity. Qed.

Lemma matchingRecords_Ok w params records :
  matchingRecords w params = Ok records →
  ∃ blobs, listBlobs w (datePrefix params) = Ok blobs
         ∧ Permutation (List.filter (satisfies params) (readAll w blobs)) records.
Proof.
  unfold matchingRecords. fold (datePrefix params). intros H.
  apply bind_Ok_inv in H as (blobs & Hb & H). exists blobs. split; [done |].
  apply bind_Ok_inv in H as (f1 & H1 & H). apply applyFilter_Ok in H1.
  apply bind_Ok_inv in H as (f2 & H2 & H). apply applyFilter_Ok in H2.
  apply bind_Ok_inv in H as (f3 & H3 & H). apply applyFilter_Ok in H3.
  apply bind_Ok_inv in H as (f4 & H4 & H). apply applyFilter_Ok in H4.
  apply arraySort_Permutation in H. rewrite <- H.
  subst f4 f3 f2 f1. rewrite !filter_filter_and.
  erewrite List.filter_ext; [reflexivity |].
  intros x. unfold satisfies. by rewrite !andb_assoc.
Qed.

Lemma matchingRecords_total w params blobs :
  listBlobs w (datePrefix params) = Ok blobs →
  forallb wellTyped (readAll w blobs) = true →
  ∃ records, matchingRecords w params = Ok records.
Proof.
  intros Hb Ht. unfold matchingRecords. fold (datePrefix params). rewrite Hb. simpl.
  set (typed := λ y : WebhookRequest, ∃ x, y = embed x).
  assert (Ht0 : Forall typed (readAll w blobs)).
  { apply Forall_forall. intros y Hy. apply wellTyped_embed.
    rewrite forallb_forall in Ht. apply Ht. by apply list_elem_of_In. }
  destruct (applyFilter_total (p_method params) methodFilter (readAll w blobs)) as [f1 H1].
  { eapply Forall_impl; [exact Ht0 |]. intros y [x ->] v. by eexists. }
  rewrite H1. simpl. pose proof (applyFilter_Ok _ _ _ _ H1) as E1.
  assert (Ht1 : Forall typed f1) by (subst f1; by apply Forall_filter).
  destruct (applyFilter_total (p_sourceIp params) sourceIpFilter f1) as [f2 H2].
  { eapply Forall_impl; [exact Ht1 |]. intros y _ v. by eexists. }
  rewrite H2. simpl. pose proof (applyFilter_Ok _ _ _ _ H2) as E2.
  assert (Ht2 : Forall typed f2) by (subst f2; by apply Forall_filter).
  destruct (applyFilter_total (search params) searchFilter f2) as [f3 H3].
  { eapply Forall_impl; [exact Ht2 |]. intros y [x ->] v. eexists.
    apply searchFilter_embed. }
  rewrite H3. simpl. pose proof (applyFilter_Ok _ _ _ _ H3) as E3.
  assert (Ht3 : Forall typed f3) by (subst f3; by apply Forall_filter).
  destruct (applyFilter_total (conversationId params)
              (λ c (y : WebhookRequest), Ok (conversationFilter c y)) f3) as [f4 H4].
  { eapply Forall_impl; [exact Ht3 |]. intros y _ v. by eexists. }
  rewrite H4. simpl. pose proof (applyFilter_Ok _ _ _ _ H4) as E4.
  assert (Ht4 : Forall typed f4) by (subst f4; by apply Forall_filter).
  apply sort_returns. intros a b Ha Hb'. rewrite Forall_forall in Ht4.
  apply list_elem_of_In in Ha, Hb'.
  destruct (Ht4 a Ha) as [xa ->], (Ht4 b Hb') as [xb ->]. by eexists.
Qed.

(** C5. The total that a query returns is the number of loaded records that
    satisfy every supplied filter; it is the same for every page and limit.
    The query does return when the loaded records have the declared types. *)
Theorem getWebhooks_total (w : World) (params : ListWebhooksParams) (blobs : list Blob) :
  listBlobs w (datePrefix params) = Ok blobs →
  (∀ r, getWebhooks w params = Ok r →
     total r = length (List.filter (satisfies params) (readAll w blobs))
     ∧ ∀ p l, ∃ r', getWebhooks w (withPaging p l params) = Ok r'
                  ∧ total r' = total r)
  ∧ (forallb wellTyped (readAll w blobs) = true →
     ∃ r, getWebhooks w params = Ok r).
Proof.
  intros Hb. split.
  - intros r Hr. rewrite getWebhooks_unfold in Hr.
    apply bind_Ok_inv in Hr as (records & Hrec & Hr).
    destruct (matchingRecords_Ok _ _ _ Hrec) as (blobs' & Hb' & Hperm).
    rewrite Hb in Hb'. injection Hb' as <-.
    cbn zeta in Hr. injection Hr as <-. cbn [total]. split.
    + symmetry. by apply Permutation_length.
    + intros p l. rewrite getWebhooks_unfold, matchingRecords_withPaging, Hrec.
      cbn [bind]. eexists. split; reflexivity.
  - intros Ht. destruct (matchingRecords_total _ _ _ Hb Ht) as [records Hrec].
    rewrite getWebhooks_unfold, Hrec. cbn [bind]. by eexists.
Qed.

(** ** The sort *)

Lemma compareReceivedAt_times (a b : WebhookRequest) :
  hasTime a = true → hasTime b = true →
  compareReceivedAt a b = Ok (Num (timeOf b - timeOf a)).
Proof.
  unfold hasTime, timeOf, compareReceivedAt.
  destruct (dateGetTime (receivedAt a)) as [[|ta]|]; try discriminate.
  destruct (dateGetTime (receivedAt b)) as [[|tb]|]; try discriminate.
  done.
Qed.

Lemma insertBy_sorted x placed r :
  hasTime x = true → Forall (λ y, hasTime y = true) placed →
  StronglySorted notOlder placed →
  insertBy compareReceivedAt x placed = Ok r →
  StronglySorted notOlder r.
Proof.
  intros Hx Hpl Hs. revert r.
  induction Hs as [|y rest Hrest IH Hy]; intros r H; simpl in H.
  - injection H as <-. repeat constructor.
  - apply Forall_cons in Hpl as [Hty Hpl].
    rewrite (compareReceivedAt_times y x Hty Hx) in H. simpl in H.
    destruct (0 <? timeOf x - timeOf y)%Z eqn:E.
    + injection H as <-. apply Z.ltb_lt in E.
      constructor; [by constructor |].
      constructor; [unfold notOlder; lia |].
      eapply Forall_impl; [exact Hy |]. unfold notOlder. intros z Hz. lia.
    + apply bind_Ok_inv in H as (r' & Hr' & H). injection H as <-.
      apply Z.ltb_ge in E. constructor; [by apply IH |].
      apply insertBy_Permutation in Hr'. rewrite <- Hr'.
      constructor; [unfold notOlder; lia | done].
Qed.

Lemma sortInto_sorted placed pending r :
  Forall (λ y, hasTime y = true) placed →
  Forall (λ y, hasTime y = true) pending →
  StronglySorted notOlder placed →
  sortInto compareReceivedAt placed pending = Ok r →
  StronglySorted notOlder r.
Proof.
  intros Hpl Hpe. revert placed Hpl r.
  induction Hpe as [|x rest Hx _ IH]; intros placed Hpl r Hs H; simpl in H.
  - by injection H as <-.
  - apply bind_Ok_inv in H as (placed' & Hins & H).
    apply (IH placed'); [| | done].
    + apply insertBy_Permutation in Hins. rewrite <- Hins. by constructor.
    + by eapply insertBy_sorted.
Qed.

Lemma StronglySorted_lookup {A} (R : relation A) (l : list A) i j a b :
  StronglySorted R l → (i < j)%nat → l !! i = Some a → l !! j = Some b → R a b.
Proof.
  intros Hs. revert i j. induction Hs as [|x l _ IH Hx]; intros i j Hij Hi Hj.
  - discriminate.
  - destruct j as [|j]; [lia |]. destruct i as [|i]; simpl in *.
    + injection Hi as <-. rewrite Forall_forall in Hx. apply Hx.
      by eapply list_elem_of_lookup_2.
    + apply (IH i j); [lia | done | done].
Qed.

Lemma StronglySorted_slice {A} (R : relation A) (l : list A) start stop :
  StronglySorted R l → StronglySorted R (arraySlice l start stop).
Proof.
  intros Hs. unfold arraySlice.
  set (k := Z.to_nat _). set (n := Z.to_nat _).
  rewrite <- (take_drop n l) in Hs. apply StronglySorted_app_1_r in Hs.
  rewrite <- (take_drop k (drop n l)) in Hs. by apply StronglySorted_app_1_l in Hs.
Qed.

Lemma sign_times (x y : Z) : sign (Num (x - y)) = (- sign (Num (y - x)))%Z.
Proof. cbn [sign]. rewrite <- Z.sgn_opp. f_equal. lia. Qed.

Lemma sign_nonpos (x y : Z) : (sign (Num (x - y)) ≤ 0 ↔ x ≤ y)%Z.
Proof. cbn [sign]. rewrite Z.sgn_nonpos. lia. Qed.

(** The comparator is consistent on records that all have a timestamp. *)
Lemma consistent_times (l : list WebhookRequest) :
  forallb hasTime l = true → consistent compareReceivedAt l.
Proof.
  intros Hl. rewrite forallb_forall in Hl. split.
  - intros a b Ha Hb. exists (Num (timeOf b - timeOf a)), (Num (timeOf a - timeOf b)).
    rewrite !compareReceivedAt_times by auto. split; [done |]. split; [done |].
    apply sign_times.
  - intros a b c x y z Ha Hb Hc. rewrite !compareReceivedAt_times by auto.
    intros [= <-] [= <-] [= <-]. rewrite !sign_nonpos. lia.
Qed.

Lemma arraySort_strings (l : list WebhookRequest) :
  forallb (λ x, isStr (receivedAt x)) l = true →
  ∃ r, arraySort compareReceivedAt l = Ok r ∧ Permutation l r.
Proof.
  intros Hl. rewrite forallb_forall in Hl.
  destruct (sort_returns _ compareReceivedAt l) as [r Hr].
  - intros a b Ha Hb. apply Hl, isStr_inv in Ha as [sa Ha], Hb as [sb Hb].
    unfold compareReceivedAt. rewrite Ha, Hb. by eexists.
  - exists r. split; [done | exact (sort_permutation _ _ _ _ Hr)].
Qed.

Lemma compareReceivedAt_unparsed (a b : WebhookRequest) (sa sb : string) :
  receivedAt a = JStr sa → receivedAt b = JStr sb →
  Date_parse sa = NaN ∨ Date_parse sb = NaN →
  compareReceivedAt a b = Ok NaN.
Proof.
  intros Ha Hb Hnan. unfold compareReceivedAt. rewrite Ha, Hb. cbn [dateGetTime bind].
  destruct Hnan as [-> | ->]; [| done]. by destruct (Date_parse sb).
Qed.

Lemma compareReceivedAt_same (a : WebhookRequest) (sa : string) :
  receivedAt a = JStr sa → ∃ c, compareReceivedAt a a = Ok c ∧ sign c = 0%Z.
Proof.
  intros Ha. unfold compareReceivedAt. rewrite Ha. cbn [dateGetTime bind].
  destruct (Date_parse sa) as [|t]; eexists; (split; [reflexivity |]); cbn [sub sign].
  - done.
  - by rewrite Z.sub_diag.
Qed.

(** Two records of which one has no timestamp: every comparison among them
    reads as "equal", so the comparator is consistent, and a stable sort
    leaves them as they are. *)
Lemma arraySort_unparsed_pair (a b : WebhookRequest) (sa sb : string) :
  receivedAt a = JStr sa → receivedAt b = JStr sb →
  Date_parse sa = NaN ∨ Date_parse sb = NaN →
  arraySort compareReceivedAt [a; b] = Ok [a; b].
Proof.
  intros Ha Hb Hnan.
  assert (Hab : compareReceivedAt a b = Ok NaN)
    by exact (compareReceivedAt_unparsed a b sa sb Ha Hb Hnan).
  assert (Hba : compareReceivedAt b a = Ok NaN).
  { apply (compareReceivedAt_unparsed b a sb sa Hb Ha). tauto. }
  destruct (compareReceivedAt_same a sa Ha) as (ca & Haa & Hca).
  destruct (compareReceivedAt_same b sb Hb) as (cb & Hbb & Hcb).
  assert (Hzero : ∀ u v x, In u [a; b] → In v [a; b] →
                           compareReceivedAt u v = Ok x → sign x = 0%Z).
  { intros u v x Hu Hv Hx.
    destruct Hu as [<- | [<- | []]], Hv as [<- | [<- | []]];
      rewrite ?Haa, ?Hab, ?Hba, ?Hbb in Hx; injection Hx as <-; done. }
  unfold arraySort. rewrite sort_consistent.
  - unfold stableSort. cbn [sortInto insertBy bind]. by rewrite Hab.
  - split.
    + intros u v Hu Hv.
      assert (∃ x, compareReceivedAt u v = Ok x) as [x Hx].
      { destruct Hu as [<- | [<- | []]], Hv as [<- | [<- | []]]; by eexists. }
      assert (∃ y, compareReceivedAt v u = Ok y) as [y Hy].
      { destruct Hu as [<- | [<- | []]], Hv as [<- | [<- | []]]; by eexists. }
      exists x, y. split; [done |]. split; [done |].
      by rewrite (Hzero u v x Hu Hv Hx), (Hzero v u y Hv Hu Hy).
    + intros u v t x y z Hu Hv Ht _ _ Hz _ _.
      by rewrite (Hzero u t z Hu Ht Hz).
Qed.

(** The list that a query sorts: the loaded records of the scope that pass
    every supplied filter, in listing order. *)
Lemma matchingRecords_sort w params blobs records :
  listBlobs w (datePrefix params) = Ok blobs →
  matchingRecords w params = Ok records →
  arraySort compareReceivedAt (List.filter (satisfies params) (readAll w blobs))
  = Ok records.
Proof.
  intros Hb H. unfold matchingRecords in H. fold (datePrefix params) in H.
  rewrite Hb in H. cbn [bind] in H.
  apply bind_Ok_inv in H as (f1 & H1 & H). apply applyFilter_Ok in H1.
  apply bind_Ok_inv in H as (f2 & H2 & H). apply applyFilter_Ok in H2.
  apply bind_Ok_inv in H as (f3 & H3 & H). apply applyFilter_Ok in H3.
  apply bind_Ok_inv in H as (f4 & H4 & H). apply applyFilter_Ok in H4.
  rewrite <- H. f_equal. subst f4 f3 f2 f1. rewrite !filter_filter_and.
  apply List.filter_ext. intros x. unfold satisfies. by rewrite !andb_assoc.
Qed.

(** C4. When the receivedAt of every matching record parses as a
    timestamp, the records that a query returns are in descending order of
    it. A receivedAt text that does not parse raises no error in the sort,
    and its record is not placed after the others: a comparison with it
    gives NaN, read as "equal", so when two records match, one of them
    with such a receivedAt, they keep their listing order. *)
Theorem getWebhooks_sorted :
  (∀ w params blobs r,
     listBlobs w (datePrefix params) = Ok blobs →
     getWebhooks w params = Ok r →
     forallb hasTime (List.filter (satisfies params) (readAll w blobs)) = true →
     ∀ i j a b, (i < j)%nat → data r !! i = Some a → data r !! j = Some b →
                (timeOf b ≤ timeOf a)%Z)
  ∧ (∀ l, forallb (λ x, isStr (receivedAt x)) l = true →
          ∃ sorted, arraySort compareReceivedAt l = Ok sorted ∧ Permutation l sorted)
  ∧ (∀ w params blobs records a b sa sb,
       listBlobs w (datePrefix params) = Ok blobs →
       matchingRecords w params = Ok records →
       List.filter (satisfies params) (readAll w blobs) = [a; b] →
       receivedAt a = JStr sa → receivedAt b = JStr sb →
       Date_parse sa = NaN ∨ Date_parse sb = NaN →
       records = [a; b]).
Proof.
  split; [| split; [apply arraySort_strings |]].
  - intros w params blobs r Hb Hr Ht i j a b Hij Hi Hj.
    rewrite getWebhooks_unfold in Hr.
    apply bind_Ok_inv in Hr as (records & Hrec & Hr).
    cbn zeta in Hr. injection Hr as <-. cbn [data] in Hi, Hj.
    assert (Hsorted : StronglySorted notOlder records).
    { pose proof (matchingRecords_sort w params blobs records Hb Hrec) as Hsort.
      unfold arraySort in Hsort.
      rewrite (sort_consistent _ _ _ (consistent_times _ Ht)) in Hsort.
      apply (sortInto_sorted [] (List.filter (satisfies params) (readAll w blobs)));
        [constructor | | constructor | exact Hsort].
      apply Forall_forall. intros x Hx. rewrite forallb_forall in Ht.
      apply Ht. by apply list_elem_of_In. }
    exact (StronglySorted_lookup notOlder _ i j a b
             (StronglySorted_slice notOlder records _ _ Hsorted) Hij Hi Hj).
  - intros w params blobs records a b sa sb Hb Hrec Hf Ha Hb' Hnan.
    pose proof (matchingRecords_sort w params blobs records Hb Hrec) as Hsort.
    rewrite Hf, (arraySort_unparsed_pair a b sa sb Ha Hb' Hnan) in Hsort.
    congruence.
Qed.

(** ** The conversation filter *)

Lemma lookupProp_find (k : string) (props : list (string * jsval)) :
  lookupProp k props
  = default JUndefined (snd <$> List.find (λ kv, String.eqb (fst kv) k) props).
Proof.
  induction props as [|[k' v] props IH]; simpl; [done |].
  by destruct (String.eqb k' k).
Qed.

Lemma optChain_member (v : jsval) (k : string) :
  optChain v k = default JUndefined (member k v).
Proof. destruct v; try done. apply lookupProp_find. Qed.

Lemma truthy_conversationId (parsed c : jsval) :
  optChain (optChain parsed "conversation") "id" = c ∧ truthy c = true
  ↔ conversationIdOf parsed = Some c ∧ truthy c = true.
Proof.
  unfold conversationIdOf. rewrite !optChain_member.
  destruct (member "conversation" parsed) as [conv|]; simpl.
  - destruct (member "id" conv) as [c'|]; simpl.
    + split; intros [H Ht]; split; congruence.
    + split; intros [H Ht]; [subst c |]; discriminate.
  - split; intros [H Ht]; [subst c |]; discriminate.
Qed.

Lemma conversationFilter_true (q : string) (x : WebhookRequest) (body : string) :
  rawBody x = JStr body →
  conversationFilter q x = true ↔
  body ≠ "" ∧ ∃ parsed c s,
    JSON_parse body = Some parsed ∧ conversationIdOf parsed = Some c
    ∧ truthy c = true ∧ toStr c = Ok s ∧ lowerOccurs q s = true.
Proof.
  intros Hb. unfold conversationFilter, lowerOccurs. rewrite Hb. cbn [truthy toStr bind].
  destruct (String.eqb_spec body "") as [-> | Hne]; cbn [negb].
  { split; [discriminate | by intros [? _]]. }
  unfold jsonParse. destruct (JSON_parse body) as [parsed|]; cbn [bind tryCatch].
  2: { split; [discriminate | by intros (_ & ? & ? & ? & ? & _)]. }
  set (c := optChain (optChain parsed "conversation") "id").
  assert (Hc : ∀ c', conversationIdOf parsed = Some c' ∧ truthy c' = true
                     ↔ c = c' ∧ truthy c' = true).
  { intros c'. symmetry. apply truthy_conversationId. }
  destruct (truthy c) eqn:Ht.
  - destruct (toStr c) as [s|e] eqn:Hs; cbn [bind tryCatch].
    + split.
      * intros Hq. split; [done |]. exists parsed, c, s.
        repeat split; try done. by apply Hc.
      * intros (_ & p' & c' & s' & [= <-] & Hc' & Ht' & Hs' & Hq).
        destruct (proj1 (Hc c') (conj Hc' Ht')) as [<- _]. congruence.
    + split; [discriminate |].
      intros (_ & p' & c' & s' & [= <-] & Hc' & Ht' & Hs' & Hq).
      destruct (proj1 (Hc c') (conj Hc' Ht')) as [<- _]. congruence.
  - cbn [tryCatch]. split; [discriminate |].
    intros (_ & p' & c' & s' & [= <-] & Hc' & Ht' & Hs' & Hq).
    destruct (proj1 (Hc c') (conj Hc' Ht')) as [<- _]. congruence.
Qed.

(** C8. For a non-empty conversationId filter value, a record with a text
    rawBody does not pass the filter when the rawBody is empty, is not JSON
    or lacks the path conversation.id, and no error is raised. When the
    path holds a value whose numbers are integers of magnitude at most
    2^53 - 1, the record passes exactly when the rawBody is non-empty, the
    value is truthy (not null, false, 0 or the empty text) and the
    lower-cased filter value occurs in the lower-cased string form of the
    value; when the filter value and that string form are ASCII, this is
    exactly that the filter value is a case-insensitive substring of the
    string form. *)
Theorem conversationFilter_spec (q : string) (x : WebhookRequest) (body : string) :
  q ≠ "" →
  rawBody x = JStr body →
  (body = "" ∨ JSON_parse body = None
   ∨ (∃ parsed, JSON_parse body = Some parsed ∧ conversationIdOf parsed = None) →
   passes (Some q) (λ c y, Ok (conversationFilter c y)) x = false)
  ∧ (∀ parsed c,
       JSON_parse body = Some parsed → conversationIdOf parsed = Some c →
       safeNumbers c = true →
       (passes (Some q) (λ c y, Ok (conversationFilter c y)) x = true ↔
          body ≠ "" ∧ truthy c = true
          ∧ ∃ s, toStr c = Ok s ∧ lowerOccurs q s = true)
       ∧ ∀ s, toStr c = Ok s → Str.isAscii q = true → Str.isAscii s = true →
              (passes (Some q) (λ c y, Ok (conversationFilter c y)) x = true ↔
                 body ≠ "" ∧ truthy c = true ∧ ciSubstring q s)).
Proof.
  intros Hq Hb.
  assert (Hp : passes (Some q) (λ c y, Ok (conversationFilter c y)) x
               = conversationFilter q x).
  { unfold passes, given. by destruct (String.eqb_spec q ""). }
  rewrite Hp. pose proof (conversationFilter_true q x body Hb) as Hiff.
  split.
  - intros Hno. destruct (conversationFilter q x); [| done].
    destruct (proj1 Hiff eq_refl) as (Hne & parsed & c & s & Hparse & Hc & _).
    destruct Hno as [-> | [Hnone | (parsed' & Hparse' & Hnone)]]; congruence.
  - intros parsed c Hparse Hc _.
    assert (Hgen : conversationFilter q x = true ↔
                   body ≠ "" ∧ truthy c = true
                   ∧ ∃ s, toStr c = Ok s ∧ lowerOccurs q s = true).
    { rewrite Hiff. split.
      - intros (Hne & parsed' & c' & s & Hparse' & Hc' & Ht & Hs & Ho).
        assert (parsed' = parsed) as -> by congruence.
        assert (c' = c) as -> by congruence. eauto.
      - intros (Hne & Ht & s & Hs & Ho). split; [done |]. by exists parsed, c, s. }
    split; [exact Hgen |].
    intros s Hs Haq Has. rewrite Hgen. split.
    + intros (Hne & Ht & s' & Hs' & Ho). assert (s' = s) as -> by congruence.
      split; [done |]. split; [done |]. by apply lowerOccurs_ascii.
    + intros (Hne & Ht & Hsub). split; [done |]. split; [done |].
      exists s. split; [done |]. by apply lowerOccurs_ascii.
Qed.

(** ** The loader *)

Lemma orElse_optional (k : string) (dflt : jsval) (props : list (string * jsval)) :
  orElse (lookupProp k props) dflt = optional k dflt (JObj props).
Proof.
  unfold orElse, optional. rewrite lookupProp_find. simpl.
  by destruct (List.find _ props) as [[k' v]|].
Qed.

Lemma lookupProp_filter (P : string → bool) (k : string) (props : list (string * jsval)) :
  P k = true →
  lookupProp k (List.filter (λ kv, P (fst kv)) props) = lookupProp k props.
Proof.
  intros Hk. induction props as [|[k' v] props IH]; simpl; [done |].
  destruct (String.eqb_spec k' k) as [-> | Hne].
  - rewrite Hk. simpl. by rewrite String.eqb_refl.
  - destruct (P k'); simpl; [| done].
    destruct (String.eqb_spec k' k); [done | exact IH].
Qed.

(** C3. For every stored JSON object the loader returns a record and does
    not fail: each field is read under its capitalized name only, Id,
    ReceivedAt, Method and Path as they are (undefined when missing),
    Headers and QueryParameters with an empty mapping, and RawBody,
    ContentType and SourceIp with the empty text, in place of a missing or
    falsy value; properties under any other name, the lower-camel-case
    ones included, are not read. *)
Theorem transformWebhook_capitalized (props : list (string * jsval)) :
  transformWebhook (JObj props)
  = Ok {| id := required "Id" (JObj props);
          receivedAt := required "ReceivedAt" (JObj props);
          method := required "Method" (JObj props);
          path := required "Path" (JObj props);
          headers := optional "Headers" (JObj []) (JObj props);
          queryParameters := optional "QueryParameters" (JObj []) (JObj props);
          rawBody := optional "RawBody" (JStr "") (JObj props);
          contentType := optional "ContentType" (JStr "") (JObj props);
          sourceIp := optional "SourceIp" (JStr "") (JObj props) |}
  ∧ transformWebhook (JObj (capitalizedPart props)) = transformWebhook (JObj props).
Proof.
  split.
  - unfold transformWebhook. cbn [getProp bind].
    rewrite !orElse_optional. unfold required. cbn [member].
    by rewrite !lookupProp_find.
  - unfold transformWebhook, capitalizedPart. cbn [getProp bind].
    by rewrite !(lookupProp_filter (λ k, existsb (String.eqb k) capitalizedNames)).
Qed.

(** ** Lookup, delete and statistics *)

Lemma listBlobs_all (w : World) :
  listBlobs w None = (c <- getContainerClient w;; Ok (jsonBlobs w)).
Proof.
  unfold listBlobs, getContainerClient, jsonBlobs.
  by destruct (String.eqb (connectionString w) "").
Qed.

Lemma getContainerClient_Ok (w : World) (c : list Blob) :
  getContainerClient w = Ok c → c = container w.
Proof.
  unfold getContainerClient. destruct (String.eqb _ _); [discriminate | congruence].
Qed.

Lemma findByName_find (w : World) (id : string) (blobs : list Blob) :
  findByName w id blobs
  = match List.find (λ b, keyMatches id b && loads w b) blobs with
    | Some b => match readWebhook w (name b) with
                | Ok webhook => Some webhook
                | Throw _ => None
                end
    | None => None
    end.
Proof.
  induction blobs as [|b rest IH]; simpl; [done |].
  unfold keyMatches, loads at 1.
  destruct (Str.includes (name b) id); simpl; [| exact IH].
  destruct (readWebhook w (name b)) eqn:E; simpl; [by rewrite E | exact IH].
Qed.

Lemma deleteByName_find (c : list Blob) (id : string) (blobs : list Blob) :
  deleteByName c id blobs
  = match List.find (keyMatches id) blobs with
    | Some b =>
        match deleteBlob c (name b) with
        | Ok c' => {| deleted := true; remaining := c'; attempts := [name b] |}
        | Throw _ => {| deleted := false; remaining := c; attempts := [name b] |}
        end
    | None => {| deleted := false; remaining := c; attempts := [] |}
    end.
Proof.
  induction blobs as [|b rest IH]; simpl; [done |].
  unfold keyMatches at 1. by destruct (Str.includes (name b) id).
Qed.

Lemma deleteWebhook_find (w : World) (id : string) :
  deleteWebhook w id
  = (c <- getContainerClient w;;
     Ok (match List.find (keyMatches id) (jsonBlobs w) with
         | Some b =>
             match deleteBlob (container w) (name b) with
             | Ok c' => {| deleted := true; remaining := c'; attempts := [name b] |}
             | Throw _ =>
                 {| deleted := false; remaining := container w; attempts := [name b] |}
             end
         | None => {| deleted := false; remaining := container w; attempts := [] |}
         end)).
Proof.
  unfold deleteWebhook. rewrite listBlobs_all.
  destruct (getContainerClient w) as [c|e] eqn:E; cbn [bind]; [| done].
  apply getContainerClient_Ok in E as ->.
  by rewrite deleteByName_find.
Qed.

Lemma foldl_countBlob (w : World) (blobs : list Blob) counts :
  foldl (countBlob w) counts blobs = foldl countWebhook counts (readAll w blobs).
Proof.
  revert counts; induction blobs as [|b rest IH]; intros counts; simpl; [done |].
  unfold countBlob at 2. destruct (readWebhook w (name b)); simpl; apply IH.
Qed.

Lemma readAll_length (w : World) (blobs : list Blob) :
  length blobs
  = (length (readAll w blobs) + length (List.filter (λ b, negb (loads w b)) blobs))%nat.
Proof.
  induction blobs as [|b rest IH]; simpl; [done |].
  unfold loads at 1. destruct (readWebhook w (name b)); simpl; lia.
Qed.

(** C2. The total of the statistics is the number of [.json] keys listed
    in the namespace, those whose content loads and those whose content
    does not; byMethod and byDate are the counts over the loaded records, so
    a blob that fails to load or parse adds nothing to them; the
    aggregation returns whenever the listing does. *)
Theorem getWebhookStats_counts (w : World) :
  getWebhookStats w
  = (c <- getContainerClient w;;
     let counts := foldl countWebhook (∅, ∅) (readAll w (jsonBlobs w)) in
     Ok {| s_total := length (jsonBlobs w);
           byMethod := fst counts;
           byDate := snd counts |})
  ∧ length (jsonBlobs w)
    = (length (readAll w (jsonBlobs w))
       + length (List.filter (λ b, negb (loads w b)) (jsonBlobs w)))%nat.
Proof.
  split; [| apply readAll_length].
  unfold getWebhookStats. rewrite listBlobs_all.
  destruct (getContainerClient w); cbn [bind]; [| done].
  by rewrite foldl_countBlob.
Qed.

(** C10. When the first key that contains the id is found and the delete
    call on it fails, [deleteWebhook] returns false, as it does when no key
    matches, and the DELETE route answers 404 in both cases; the only
    delete attempted is the one on that first key. *)
Theorem deleteWebhook_delete_fails (w : World) (id : string) (b : Blob) (e : exn) :
  connectionString w ≠ "" →
  List.find (keyMatches id) (jsonBlobs w) = Some b →
  deleteBlob (container w) (name b) = Throw e →
  deleteWebhook w id
  = Ok {| deleted := false; remaining := container w; attempts := [name b] |}
  ∧ Routes.deleteRoute w id = 404%nat
  ∧ ∀ w0, connectionString w0 ≠ "" →
          List.find (keyMatches id) (jsonBlobs w0) = None →
          deleteWebhook w0 id
          = Ok {| deleted := false; remaining := container w0; attempts := [] |}
          ∧ Routes.deleteRoute w0 id = 404%nat.
Proof.
  intros Hcs Hfind Hdel.
  assert (Hclient : ∀ w1, connectionString w1 ≠ "" →
                          getContainerClient w1 = Ok (container w1)).
  { intros w1 H1. unfold getContainerClient.
    by destruct (String.eqb_spec (connectionString w1) ""). }
  assert (H : deleteWebhook w id
              = Ok {| deleted := false; remaining := container w;
                      attempts := [name b] |}).
  { rewrite deleteWebhook_find, (Hclient w Hcs). cbn [bind].
    by rewrite Hfind, Hdel. }
  split; [exact H |]. split.
  - unfold Routes.deleteRoute. by rewrite H.
  - intros w0 H0 Hnone.
    assert (H' : deleteWebhook w0 id
                 = Ok {| deleted := false; remaining := container w0;
                         attempts := [] |}).
    { rewrite deleteWebhook_find, (Hclient w0 H0). cbn [bind].
      by rewrite Hnone. }
    split; [exact H' |]. unfold Routes.deleteRoute. by rewrite H'.
Qed.

(** ** A blob that does not parse *)

(** A blob added under a key of its own. *)
Lemma find_insert_other (n : string) (l1 l2 : list Blob) (b : Blob) :
  name b ≠ n →
  List.find (λ b', String.eqb (name b') n) (l1 ++ b :: l2)
  = List.find (λ b', String.eqb (name b') n) (l1 ++ l2).
Proof.
  intros Hn. induction l1 as [|a l1 IH]; simpl.
  - by destruct (String.eqb_spec (name b) n).
  - by destruct (String.eqb (name a) n).
Qed.

Lemma find_insert_own (l1 l2 : list Blob) (b : Blob) :
  ¬ In (name b) (map name l1) →
  List.find (λ b', String.eqb (name b') (name b)) (l1 ++ b :: l2) = Some b.
Proof.
  induction l1 as [|a l1 IH]; simpl; intros Hn.
  - by rewrite String.eqb_refl.
  - destruct (String.eqb_spec (name a) (name b)) as [E | _]; [| apply IH]; tauto.
Qed.

Lemma readWebhook_insert_other cs (l1 l2 : list Blob) (b : Blob) (n : string) :
  name b ≠ n →
  readWebhook {| connectionString := cs; container := l1 ++ b :: l2 |} n
  = readWebhook {| connectionString := cs; container := l1 ++ l2 |} n.
Proof.
  intros Hn. unfold readWebhook, readBlobAsJson, getContainerClient, download.
  cbn [connectionString container]. destruct (String.eqb cs ""); cbn [bind]; [done |].
  by rewrite find_insert_other.
Qed.

Lemma readWebhook_insert_own cs (l1 l2 : list Blob) (b : Blob) (text : string) :
  body b = Some text → JSON_parse text = None →
  ¬ In (name b) (map name l1) →
  ∃ e, readWebhook {| connectionString := cs; container := l1 ++ b :: l2 |} (name b)
       = Throw e.
Proof.
  intros Hb Hp Hn. unfold readWebhook, readBlobAsJson, getContainerClient, download.
  cbn [connectionString container].
  destruct (String.eqb cs ""); cbn [bind]; [by eexists |].
  rewrite find_insert_own, Hb by done. cbn [bind]. rewrite Hp. by eexists.
Qed.

Lemma readAll_app (w : World) (a b : list Blob) :
  readAll w (a ++ b) = readAll w a ++ readAll w b.
Proof.
  induction a as [|x a IH]; simpl; [done |].
  destruct (readWebhook w (name x)); simpl; by rewrite IH.
Qed.

Lemma readAll_insert_other cs (l1 l2 : list Blob) (b : Blob) (blobs : list Blob) :
  ¬ In (name b) (map name blobs) →
  readAll {| connectionString := cs; container := l1 ++ b :: l2 |} blobs
  = readAll {| connectionString := cs; container := l1 ++ l2 |} blobs.
Proof.
  induction blobs as [|x blobs IH]; simpl; intros Hn; [done |].
  rewrite readWebhook_insert_other by naive_solver. rewrite IH by tauto. done.
Qed.

Lemma not_In_filter_names (f : Blob → bool) (n : string) (l : list Blob) :
  ¬ In n (map name l) → ¬ In n (map name (List.filter f l)).
Proof.
  intros Hn Hin. apply Hn. apply in_map_iff in Hin as (x & Hx & Hin).
  apply filter_In in Hin as [Hin _]. apply in_map_iff. by exists x.
Qed.


Lemma listBlobs_filter cs (c : list Blob) (prefix : option string) :
  cs ≠ "" →
  listBlobs {| connectionString := cs; container := c |} prefix
  = Ok (List.filter (listed prefix) c).
Proof.
  intros Hcs. unfold listBlobs, getContainerClient, listed.
  cbn [connectionString container].
  destruct (String.eqb_spec cs ""); [done |]. cbn [bind]. f_equal.
  destruct (given prefix) as [p|].
  - by rewrite filter_filter_and.
  - done.
Qed.

Lemma readAll_insert_unparsed cs (l1 l2 : list Blob) (b : Blob) (text : string)
    (prefix : option string) :
  body b = Some text → JSON_parse text = None →
  ¬ In (name b) (map name (l1 ++ l2)) →
  readAll {| connectionString := cs; container := l1 ++ b :: l2 |}
    (List.filter (listed prefix) (l1 ++ b :: l2))
  = readAll {| connectionString := cs; container := l1 ++ l2 |}
      (List.filter (listed prefix) (l1 ++ l2)).
Proof.
  intros Hb Hp Hn. rewrite map_app, in_app_iff in Hn.
  rewrite !List.filter_app, !readAll_app. cbn [List.filter].
  rewrite !(readAll_insert_other cs l1 l2 b)
    by (apply not_In_filter_names; tauto).
  f_equal. destruct (listed prefix b); cbn [readAll app].
  - destruct (readWebhook_insert_own cs l1 l2 b text Hb Hp) as [e ->]; [tauto |].
    apply readAll_insert_other. apply not_In_filter_names; tauto.
  - apply readAll_insert_other. apply not_In_filter_names; tauto.
Qed.

Lemma setAdd_In (x y : string) (s : list string) :
  In x (setAdd y s) ↔ x = y ∨ In x s.
Proof.
  unfold setAdd. destruct (existsb (String.eqb y) s) eqn:E.
  - split; [tauto |]. intros [-> | H]; [| done].
    apply existsb_exists in E as (z & Hz & E). by apply String.eqb_eq in E as ->.
  - rewrite in_app_iff. simpl. naive_solver.
Qed.

Lemma collectDates_In (d : string) (blobs : list Blob) (acc : list string) :
  In d (foldl (λ dates blob,
                 if Str.hasChar "/" (name blob)
                 then setAdd (Str.splitHead "/" (name blob)) dates
                 else dates) acc blobs)
  ↔ In d acc ∨ ∃ b, In b blobs ∧ Str.hasChar "/" (name b) = true
                    ∧ d = Str.splitHead "/" (name b).
Proof.
  revert acc; induction blobs as [|x blobs IH]; intros acc; simpl.
  - naive_solver.
  - rewrite IH. destruct (Str.hasChar "/" (name x)) eqn:E.
    + rewrite setAdd_In. naive_solver.
    + split; [naive_solver |]. intros [H | (b & [-> | Hb] & Hc & Hd)].
      * by left.
      * congruence.
      * right. by exists b.
Qed.

Lemma collectDates_names (l l' : list Blob) :
  map name l = map name l' → collectDates l = collectDates l'.
Proof.
  unfold collectDates. generalize (@nil string).
  revert l'; induction l as [|x l IH]; intros [|x' l'] acc H; try discriminate.
  - done.
  - simpl in *. injection H as Hx H. rewrite Hx. by apply IH.
Qed.

Lemma insertString_In (x y : string) (l : list string) :
  In x (insertString y l) ↔ x = y ∨ In x l.
Proof.
  induction l as [|z l IH]; simpl; [naive_solver |].
  destruct (String.ltb y z); simpl; [naive_solver |]. rewrite IH. naive_solver.
Qed.

Lemma sortStrings_In (x : string) (l : list string) :
  In x (sortStrings l) ↔ In x l.
Proof.
  unfold sortStrings.
  enough (∀ acc, In x (foldl (λ placed y, insertString y placed) acc l)
                 ↔ In x acc ∨ In x l) as H by (rewrite H; simpl; tauto).
  induction l as [|y l IH]; intros acc; simpl; [tauto |].
  rewrite IH, insertString_In. naive_solver.
Qed.

(** C9. A blob whose content is not JSON, under a key of its own, changes
    nothing in what a query returns and nothing in the byMethod and byDate
    counts, and none of the three operations fails because of it; its key
    is still counted in the total of the statistics when it ends in
    [.json], and the date listing, which reads keys only, still lists its
    date prefix. *)
Theorem unparseable_blob (cs : string) (l1 l2 : list Blob) (b : Blob) (text : string) :
  cs ≠ "" →
  body b = Some text →
  JSON_parse text = None →
  ¬ In (name b) (map name (l1 ++ l2)) →
  let w' := {| connectionString := cs; container := l1 ++ b :: l2 |} in
  let w := {| connectionString := cs; container := l1 ++ l2 |} in
  (∀ params, getWebhooks w' params = getWebhooks w params)
  ∧ (∃ s' s, getWebhookStats w' = Ok s' ∧ getWebhookStats w = Ok s
             ∧ byMethod s' = byMethod s ∧ byDate s' = byDate s
             ∧ s_total s'
               = (s_total s + if Str.endsWith (name b) ".json" then 1 else 0)%nat)
  ∧ (∃ dates, getAvailableDates w' = Ok dates
              ∧ (Str.hasChar "/" (name b) = true →
                 In (Str.splitHead "/" (name b)) dates)
              ∧ ∀ content,
                  getAvailableDates
                    {| connectionString := cs;
                       container := l1 ++ withBody content b :: l2 |}
                  = Ok dates).
Proof.
  intros Hcs Hb Hp Hn w' w. split; [| split].
  - intros params. unfold getWebhooks, w', w.
    rewrite !listBlobs_filter by done. cbn [bind].
    by rewrite (readAll_insert_unparsed cs l1 l2 b text).
  - unfold getWebhookStats, w', w. rewrite !listBlobs_filter by done. cbn [bind].
    do 2 eexists. split; [reflexivity |]. split; [reflexivity |].
    cbn [byMethod byDate s_total]. rewrite !foldl_countBlob.
    rewrite (readAll_insert_unparsed cs l1 l2 b text) by done.
    split; [done |]. split; [done |].
    rewrite !List.filter_app, !length_app. cbn [List.filter].
    unfold listed at 2. cbn [given andb].
    destruct (Str.endsWith (name b) ".json"); cbn [length]; lia.
  - unfold getAvailableDates, getContainerClient, w'. cbn [connectionString container].
    destruct (String.eqb_spec cs ""); [done |]. cbn [bind].
    eexists. split; [reflexivity |]. split.
    + intros Hc. apply in_rev. rewrite rev_involutive.
      apply sortStrings_In. apply collectDates_In. right. exists b.
      split; [| done]. apply in_app_iff. right. by left.
    + intros content. do 3 f_equal. apply collectDates_names.
      by rewrite !map_app.
Qed.

End Service.

(** ** The properties on sample containers *)

Section Examples.
Import Js BlobStorage NodeRuntime Spec Samples MoreSamples.

(** C5 on the sample container: the query for method [get] counts the two
    GET records, whatever the page and the limit. *)
Lemma getWebhooks_total_witness :
  listBlobs demo (datePrefix getOnly) = Ok [blob_a1; blob_b2; blob_c3]
  ∧ ∃ r, getWebhooks (rt := nodeRuntime) demo getOnly = Ok r
       ∧ total r = 2%nat
       ∧ ∀ p l, ∃ r', getWebhooks (rt := nodeRuntime) demo (withPaging p l getOnly) = Ok r'
                    ∧ total r' = 2%nat.
Proof.
  split; [vm_compute; reflexivity |].
  destruct (getWebhooks_total (rt := nodeRuntime) demo getOnly
              [blob_a1; blob_b2; blob_c3] ltac:(vm_compute; reflexivity))
    as [Hcount Hret].
  destruct (Hret ltac:(vm_compute; reflexivity)) as [r Hr].
  destruct (Hcount r Hr) as [Ht Hp].
  assert (H2 : total r = 2%nat) by (rewrite Ht; vm_compute; reflexivity).
  exists r. split; [exact Hr |]. split; [exact H2 |].
  intros p l. destruct (Hp p l) as (r' & Hr' & Ht'). exists r'.
  split; [exact Hr' |]. by rewrite Ht'.
Defined.

(** C6 on the sample container: page 2 with limit 2 of three records holds
    the third one, and there are two pages. *)
Lemma getWebhooks_pagination_witness :
  ∃ records,
    matchingRecords (rt := nodeRuntime) demo secondPage = Ok records
    ∧ length records = 3%nat
    ∧ ∃ r, getWebhooks (rt := nodeRuntime) demo secondPage = Ok r
         ∧ total r = 3%nat
         ∧ map id (data r) = [JStr "a1"]
         ∧ pageCount 3 2 = 2%Z.
Proof.
  eexists. split; [vm_compute; reflexivity |]. split; [reflexivity |].
  edestruct (getWebhooks_pagination (rt := nodeRuntime) demo secondPage)
    as (r & Hr & Ht & Hd & _);
    [vm_compute; reflexivity | reflexivity | reflexivity | lia | lia |].
  exists r. split; [exact Hr |]. split; [exact Ht |].
  split; [by rewrite Hd | reflexivity].
Defined.

(** C7 on the example of the specification: the record with the header
    value [AbcDef] is the one that the container stores under [a1], its
    texts and the search text [bcd] are ASCII, and it passes the search. *)
Lemma searchFilter_spec_witness :
  readWebhook (rt := nodeRuntime) demo (name blob_a1) = Ok (embed record_a1)
  ∧ Str.isAscii "bcd" = true
  ∧ forallb Str.isAscii (searchable record_a1) = true
  ∧ passes (Some "bcd") (searchFilter (rt := nodeRuntime)) (embed record_a1) = true.
Proof.
  split; [vm_compute; reflexivity |]. split; [reflexivity |].
  split; [reflexivity |].
  destruct (searchFilter_spec (rt := nodeRuntime) "bcd" record_a1)
    as (b & _ & -> & _ & Hiff).
  apply (Hiff eq_refl eq_refl). exists "AbcDef". split.
  - unfold searchable. simpl. tauto.
  - exists "A", "bcD", "ef". split; [reflexivity |].
    repeat constructor.
Defined.

(** C4 on the sample container: the three dated records come newest
    first; and on a container of two records, the first without a
    timestamp, the two stay as they are listed. *)
Lemma getWebhooks_sorted_witness :
  (∃ r, getWebhooks (rt := nodeRuntime) demo noParams = Ok r
      ∧ map id (data r) = [JStr "c3"; JStr "b2"; JStr "a1"]
      ∧ ∀ i j a b, (i < j)%nat → data r !! i = Some a → data r !! j = Some b →
                   (timeOf (rt := nodeRuntime) b ≤ timeOf (rt := nodeRuntime) a)%Z)
  ∧ List.filter (satisfies (rt := nodeRuntime) noParams)
      (readAll (rt := nodeRuntime) undated (jsonBlobs undated))
    = [record_u1; record_v2]
  ∧ dateParse "unknown" = NaN
  ∧ matchingRecords (rt := nodeRuntime) undated noParams = Ok [record_u1; record_v2].
Proof.
  split; [| split; [vm_compute; reflexivity | split; [reflexivity |]]].
  - destruct (getWebhooks (rt := nodeRuntime) demo noParams) as [r|e] eqn:Hr;
      [| vm_compute in Hr; discriminate].
    exists r. split; [reflexivity |]. split.
    + vm_compute in Hr. by injection Hr as <-.
    + apply (proj1 (getWebhooks_sorted (rt := nodeRuntime)) demo noParams
               [blob_a1; blob_b2; blob_c3] r);
        [vm_compute; reflexivity | exact Hr | vm_compute; reflexivity].
  - destruct (matchingRecords (rt := nodeRuntime) undated noParams)
      as [records|e] eqn:Hrec; [| vm_compute in Hrec; discriminate].
    f_equal.
    apply (proj2 (proj2 (getWebhooks_sorted (rt := nodeRuntime))) undated noParams
             (jsonBlobs undated) records record_u1 record_v2
             "unknown" "2026-01-15T10:00:00Z");
      [vm_compute; reflexivity | exact Hrec | vm_compute; reflexivity
      | reflexivity | reflexivity | left; reflexivity].
Defined.

(** C8 on the example of the specification: the body with conversation id
    [conv-123] passes the filter [CONV-1], a body that is not JSON does not. *)
Lemma conversationFilter_spec_witness :
  "CONV-1" ≠ ""
  ∧ rawBody (posted (json "{'conversation':{'id':'conv-123'}}"))
    = JStr (json "{'conversation':{'id':'conv-123'}}")
  ∧ parse (json "{'conversation':{'id':'conv-123'}}")
    = Some (JObj [("conversation", JObj [("id", JStr "conv-123")])])
  ∧ passes (Some "CONV-1") (λ c y, Ok (conversationFilter (rt := nodeRuntime) c y))
      (posted (json "{'conversation':{'id':'conv-123'}}"))
    = true
  ∧ passes (Some "CONV-1") (λ c y, Ok (conversationFilter (rt := nodeRuntime) c y))
      (posted "conv-123, plain text")
    = false.
Proof.
  split; [discriminate |]. split; [reflexivity |].
  split; [vm_compute; reflexivity |]. split.
  - destruct (conversationFilter_spec (rt := nodeRuntime) "CONV-1"
                (posted (json "{'conversation':{'id':'conv-123'}}"))
                (json "{'conversation':{'id':'conv-123'}}"))
      as [_ Hyes]; [discriminate | reflexivity |].
    destruct (Hyes (JObj [("conversation", JObj [("id", JStr "conv-123")])])
                (JStr "conv-123"))
      as [_ Hascii];
      [vm_compute; reflexivity | reflexivity | reflexivity |].
    apply (Hascii "conv-123" eq_refl eq_refl eq_refl).
    split; [discriminate |]. split; [reflexivity |].
    exists "", "conv-1", "23". split; [reflexivity |]. repeat constructor.
  - apply (conversationFilter_spec (rt := nodeRuntime) "CONV-1" _ "conv-123, plain text");
      [discriminate | reflexivity |].
    right. left. vm_compute. reflexivity.
Defined.

(** C9 on the sample container with a blob of HTML text added to it. *)
Lemma unparseable_blob_witness :
  "UseDevelopmentStorage=true" ≠ ""
  ∧ body garbage = Some "<html>502</html>"
  ∧ parse "<html>502</html>" = None
  ∧ ¬ In (name garbage) (map name ([blob_a1] ++ [blob_c3]))
  ∧ (∀ params,
       getWebhooks (rt := nodeRuntime)
         {| connectionString := "UseDevelopmentStorage=true";
            container := [blob_a1] ++ garbage :: [blob_c3] |} params
       = getWebhooks (rt := nodeRuntime)
           {| connectionString := "UseDevelopmentStorage=true";
              container := [blob_a1] ++ [blob_c3] |} params)
  ∧ ∃ dates,
      getAvailableDates
        {| connectionString := "UseDevelopmentStorage=true";
           container := [blob_a1] ++ garbage :: [blob_c3] |} = Ok dates
      ∧ In "2026-01-17" dates.
Proof.
  assert (Hcs : "UseDevelopmentStorage=true" ≠ "") by discriminate.
  assert (Hnew : ¬ In (name garbage) (map name ([blob_a1] ++ [blob_c3]))).
  { simpl. intros [H | [H | []]]; discriminate. }
  destruct (unparseable_blob (rt := nodeRuntime) "UseDevelopmentStorage=true"
              [blob_a1] [blob_c3] garbage "<html>502</html>"
              Hcs eq_refl eq_refl Hnew)
    as (Hquery & _ & dates & Hdates & Hin & _).
  split; [exact Hcs |]. split; [reflexivity |]. split; [reflexivity |].
  split; [exact Hnew |]. split; [exact Hquery |].
  exists dates. split; [exact Hdates |]. exact (Hin eq_refl).
Defined.

(** C10 on a container where two keys contain [b2] and the delete call on
    the first one fails. *)
Lemma deleteWebhook_delete_fails_witness :
  connectionString locked ≠ ""
  ∧ List.find (keyMatches "b2") (jsonBlobs locked)
    = Some {| name := name blob_b2; body := body blob_b2; deleteFails := true |}
  ∧ deleteBlob (container locked) (name blob_b2) = Throw StoreError
  ∧ deleteWebhook locked "b2"
    = Ok {| deleted := false; remaining := container locked;
            attempts := ["2026-01-15/b2.json"] |}
  ∧ Routes.deleteRoute locked "b2" = 404%nat
  ∧ Routes.deleteRoute garbageOnly "b2" = 404%nat.
Proof.
  assert (Hcs : connectionString locked ≠ "") by discriminate.
  destruct (deleteWebhook_delete_fails locked "b2"
              {| name := name blob_b2; body := body blob_b2; deleteFails := true |}
              StoreError Hcs eq_refl eq_refl)
    as (Hdel & Hroute & Hnone).
  split; [exact Hcs |]. split; [reflexivity |]. split; [reflexivity |].
  split; [exact Hdel |]. split; [exact Hroute |].
  apply (Hnone garbageOnly); [discriminate | reflexivity].
Defined.

(** C1. Lookup and delete by id are to compare the [id] field of the
    records; they test instead whether the text of the key contains the
    requested id. No record of the sample container has the id [2026] or
    [json]: yet the lookup of [2026] returns the record [a1], and the delete
    of [json] removes the blob of [a1] and reports success, with statuses
    200 and 204. And where a key does not carry the id of its record, the
    lookup of [a1] returns the record with id [zz9]. *)
Theorem lookup_by_id_failing_input :
  map id (readAll (rt := nodeRuntime) demo (jsonBlobs demo))
  = [JStr "a1"; JStr "b2"; JStr "c3"]
  ∧ (∃ r, getWebhookById (rt := nodeRuntime) demo "2026" = Ok (Some r)
          ∧ id r = JStr "a1"
          ∧ Router.status (Router.getRoute (rt := nodeRuntime) demo "2026") = 200%nat)
  ∧ (∃ out, deleteWebhook demo "json" = Ok out
            ∧ deleted out = true
            ∧ attempts out = ["2026-01-15/a1.json"]
            ∧ map name (remaining out)
              = ["2026-01-15/b2.json"; "2026-01-16/notes.txt"; "2026-01-16/c3.json"]
            ∧ Routes.deleteRoute demo "json" = 204%nat)
  ∧ map id (readAll (rt := nodeRuntime) renamed (jsonBlobs renamed))
    = [JStr "a1"; JStr "zz9"]
  ∧ (∃ r, getWebhookById (rt := nodeRuntime) renamed "a1" = Ok (Some r)
          ∧ id r = JStr "zz9").
Proof.
  split; [vm_compute; reflexivity |]. split; [| split; [| split]].
  - eexists. split; [vm_compute; reflexivity |].
    split; [vm_compute; reflexivity | vm_compute; reflexivity].
  - eexists. split; [vm_compute; reflexivity |].
    split; [vm_compute; reflexivity |]. split; [vm_compute; reflexivity |].
    split; [vm_compute; reflexivity | vm_compute; reflexivity].
  - vm_compute; reflexivity.
  - eexists. split; [vm_compute; reflexivity | vm_compute; reflexivity].
Qed.

(** C2 fails as stated: no blob of this namespace loads, and the total of
    the statistics is 1. *)
Lemma stats_total_counterexample :
  readAll (rt := nodeRuntime) garbageOnly (jsonBlobs garbageOnly) = []
  ∧ getWebhookStats (rt := nodeRuntime) garbageOnly
    = Ok {| s_total := 1; byMethod := ∅; byDate := ∅ |}.
Proof. split; vm_compute; reflexivity. Qed.

(** C3 fails as stated: a JSON object with the lower-camel-case names and
    the id [a1] is loaded as a record with no id, no date, no method and no
    path, and with the defaults everywhere else. *)
Lemma camelCase_counterexample :
  ∃ raw, parse camelCaseText = Some raw
       ∧ member "id" raw = Some (JStr "a1")
       ∧ transformWebhook raw
         = Ok {| id := JUndefined; receivedAt := JUndefined; method := JUndefined;
                 path := JUndefined; headers := JObj []; queryParameters := JObj [];
                 rawBody := JStr ""; contentType := JStr ""; sourceIp := JStr "" |}.
Proof.
  eexists. split; [vm_compute; reflexivity |].
  split; [vm_compute; reflexivity | vm_compute; reflexivity].
Qed.

(** C4 fails as stated: the record whose receivedAt does not parse is
    returned first, before the record with a valid timestamp. *)
Lemma unparsed_date_counterexample :
  ∃ r, getWebhooks (rt := nodeRuntime) undated noParams = Ok r
     ∧ map (λ x, (id x, dateGetTime (rt := nodeRuntime) (receivedAt x))) (data r)
       = [(JStr "u1", Ok NaN); (JStr "v2", Ok (Num 1768471200000))].
Proof.
  eexists. split; [vm_compute; reflexivity | vm_compute; reflexivity].
Qed.

(** C7 fails as stated: the path of the record holds the search text [Σ]
    as it is, so that the search text is a substring of it whatever the
    case, and the record does not pass the search: the path is lower-cased
    to a text that ends in the final sigma, the search text to the small
    sigma. *)
Lemma final_sigma_counterexample :
  readWebhook (rt := nodeRuntime) greek (name blob_g1) = Ok (embed record_g1)
  ∧ In "/ΑΣ" (searchable record_g1)
  ∧ "/ΑΣ" = "/Α" +:+ "Σ" +:+ ""
  ∧ ciSubstring "Σ" "/ΑΣ"
  ∧ searchFilter (rt := nodeRuntime) "Σ" (embed record_g1) = Ok false
  ∧ passes (Some "Σ") (searchFilter (rt := nodeRuntime)) (embed record_g1) = false
  ∧ ∃ r, getWebhooks (rt := nodeRuntime) greek sigmaSearch = Ok r
       ∧ data r = [] ∧ total r = 0%nat.
Proof.
  split; [vm_compute; reflexivity |]. split; [simpl; tauto |].
  split; [reflexivity |]. split.
  { exists "/Α", "Σ", "". split; [reflexivity |]. repeat constructor. }
  split; [vm_compute; reflexivity |]. split; [vm_compute; reflexivity |].
  eexists. split; [vm_compute; reflexivity |]. split; reflexivity.
Qed.

(** C8 fails as stated: the body parses, the path conversation.id holds 0,
    whose string form contains the filter value [0], and the record does not
    pass the filter. *)
Lemma zero_conversation_id_counterexample :
  parse (json "{'conversation':{'id':0}}")
  = Some (JObj [("conversation", JObj [("id", JNum 0)])])
  ∧ conversationIdOf (JObj [("conversation", JObj [("id", JNum 0)])]) = Some (JNum 0)
  ∧ toStr (JNum 0) = Ok "0"
  ∧ ciSubstring "0" "0"
  ∧ lowerOccurs (rt := nodeRuntime) "0" "0" = true
  ∧ conversationFilter (rt := nodeRuntime) "0" (posted (json "{'conversation':{'id':0}}"))
    = false.
Proof.
  split; [vm_compute; reflexivity |]. split; [vm_compute; reflexivity |].
  split; [vm_compute; reflexivity |]. split.
  { exists "", "0", "". split; [reflexivity |]. repeat constructor. }
  split; [vm_compute; reflexivity | vm_compute; reflexivity].
Qed.

(** C9 fails as stated: the only blob of this namespace is not JSON, and
    it is counted in the total of the statistics and its date is listed. *)
Lemma unparseable_blob_counterexample :
  parse "<html>502</html>" = None
  ∧ (∃ s, getWebhookStats (rt := nodeRuntime) garbageOnly = Ok s ∧ s_total s = 1%nat)
  ∧ getAvailableDates garbageOnly = Ok ["2026-01-17"].
Proof.
  split; [vm_compute; reflexivity |]. split; [| vm_compute; reflexivity].
  eexists. split; [vm_compute; reflexivity | vm_compute; reflexivity].
Qed.

End Examples.

(** * Further properties of the service and of its routes *)

Section Further.
Import Js BlobStorage Spec Router Client Coverage.
Context `{rt : Runtime}.

Lemma upperChar_code (c : ascii) :
  nat_of_ascii (Str.upperChar c)
  = if (97 <=? nat_of_ascii c)%nat && (nat_of_ascii c <=? 122)%nat
    then (nat_of_ascii c - 32)%nat else nat_of_ascii c.
Proof.
  unfold Str.upperChar.
  destruct ((97 <=? nat_of_ascii c)%nat && (nat_of_ascii c <=? 122)%nat) eqn:E; [| done].
  apply andb_true_iff in E as [E1 E2]. apply Nat.leb_le in E1, E2.
  apply nat_ascii_embedding. lia.
Qed.

Lemma upperChar_lowerChar (a b : ascii) :
  Str.upperChar a = Str.upperChar b ↔ Str.lowerChar a = Str.lowerChar b.
Proof.
  split; intros H; apply (f_equal nat_of_ascii) in H; apply StrFacts.nat_of_ascii_inj;
    rewrite ?upperChar_code, ?StrFacts.lowerChar_code in *;
    repeat match goal with
           | |- context [(?x <=? ?y)%nat] => destruct (Nat.leb_spec x y)
           | H : context [(?x <=? ?y)%nat] |- _ => destruct (Nat.leb_spec x y)
           end; simpl in *; lia.
Qed.

Lemma toUpperCase_ciEqual (s t : string) :
  Str.toUpperCase s = Str.toUpperCase t ↔ ciEqual s t.
Proof.
  split.
  - revert t; induction s as [|a s IH]; intros [|b t] H; try discriminate.
    + constructor.
    + unfold Str.toUpperCase in H. simpl in H. injection H as Hab H.
      constructor; [by apply StrFacts.sameLetter_lower, upperChar_lowerChar | by apply IH].
  - induction 1 as [|a b s t Hab _ IH]; [done |].
    unfold Str.toUpperCase in *. simpl.
    apply StrFacts.sameLetter_lower, upperChar_lowerChar in Hab. by rewrite Hab, IH.
Qed.

(** X2. For a method parameter and a record method that are ASCII texts,
    the method filter keeps the record exactly when the two are equal up
    to the case of their letters; the source-address filter keeps a record
    exactly when the address is the parameter itself; on a record whose
    fields are strings neither of them throws. *)
Theorem methodFilter_spec (m ip : string) (x : WebhookRecord) :
  Str.isAscii m = true →
  Str.isAscii (w_method x) = true →
  (∃ b, methodFilter m (embed x) = Ok b ∧ (b = true ↔ ciEqual (w_method x) m))
  ∧ (∃ b, sourceIpFilter ip (embed x) = Ok b ∧ (b = true ↔ w_sourceIp x = ip)).
Proof.
  intros Hm Hx. split; (eexists; split; [reflexivity |]).
  - rewrite String.eqb_eq, (toUpperCase_ascii m Hm), (toUpperCase_ascii _ Hx).
    apply toUpperCase_ciEqual.
  - unfold strictEqStr. simpl. apply String.eqb_eq.
Qed.

Lemma filterM_Throw {A} (p : A → result bool) (l : list A) (x : A) (e : exn) :
  In x l → p x = Throw e →
  (∀ y e', p y = Throw e' → e' = TypeError) →
  filterM p l = Throw TypeError.
Proof.
  intros Hin Hx Hty. induction l as [|y l IH]; [done |].
  simpl. destruct (p y) as [b|e'] eqn:Hy; simpl.
  - destruct Hin as [-> | Hin]; [congruence |]. by rewrite (IH Hin).
  - by rewrite (Hty _ _ Hy).
Qed.

Lemma asString_Throw (v : jsval) (e : exn) : asString v = Throw e → e = TypeError.
Proof. destruct v; simpl; congruence. Qed.

Lemma methodFilter_Throw (m : string) (y : WebhookRequest) (e : exn) :
  methodFilter m y = Throw e → e = TypeError.
Proof.
  unfold methodFilter. destruct (asString (method y)) eqn:E; simpl; [discriminate |].
  intros [= <-]. by eapply asString_Throw.
Qed.

Lemma lowerIncludes_Throw (q : string) (v : jsval) (e : exn) :
  lowerIncludes q v = Throw e → e = TypeError.
Proof.
  unfold lowerIncludes. destruct (asString v) eqn:E; simpl; [discriminate |].
  intros [= <-]. by eapply asString_Throw.
Qed.

Lemma someM_Throw (q : string) (l : list jsval) (e : exn) :
  someM (lowerIncludes q) l = Throw e → e = TypeError.
Proof.
  induction l as [|v l IH]; simpl; [discriminate |].
  destruct (lowerIncludes q v) as [[|]|e'] eqn:E; simpl; [discriminate | exact IH |].
  intros [= <-]. by eapply lowerIncludes_Throw.
Qed.

Lemma someValue_Throw (q : string) (v : jsval) (e : exn) :
  someValue q v = Throw e → e = TypeError.
Proof.
  unfold someValue. destruct (objectValues v) as [vs|e'] eqn:E; simpl.
  - apply someM_Throw.
  - intros [= <-]. destruct v; simpl in E; congruence.
Qed.

Lemma orM_Throw (a b : result bool) (e : exn) :
  orM a b = Throw e → a = Throw e ∨ b = Throw e.
Proof. destruct a as [[|]|]; simpl; [discriminate | by right | by left]. Qed.

Lemma searchFilter_Throw (q : string) (y : WebhookRequest) (e : exn) :
  searchFilter q y = Throw e → e = TypeError.
Proof.
  unfold searchFilter. intros H.
  repeat (apply orM_Throw in H as [H | H];
          [by eapply lowerIncludes_Throw |]).
  apply orM_Throw in H as [H | H]; by eapply someValue_Throw.
Qed.

Lemma listRoute_Throw (w : World) (q : Query) (e : exn) :
  getWebhooks w (listParams q) = Throw e → status (listRoute w q) = 500%nat.
Proof. intros H. unfold listRoute. by rewrite H. Qed.

(** X3. The loading loop accepts any JSON value, and the filters run
    outside its [try]: when a method is given and one loaded record of the
    scope has no string under [Method], [getWebhooks] throws a [TypeError]
    and the list route answers 500. *)
Theorem untyped_method_fails (w : World) (params : ListWebhooksParams)
    (blobs : list Blob) (m : string) (x : WebhookRequest) :
  listBlobs w (datePrefix params) = Ok blobs →
  given (p_method params) = Some m →
  In x (readAll w blobs) →
  isStr (method x) = false →
  getWebhooks w params = Throw TypeError
  ∧ ∀ q, listParams q = params → status (listRoute w q) = 500%nat.
Proof.
  intros Hb Hm Hin Hx.
  assert (H : getWebhooks w params = Throw TypeError).
  { unfold getWebhooks. fold (datePrefix params). rewrite Hb. cbn [bind].
    unfold applyFilter at 1. rewrite Hm.
    rewrite (filterM_Throw (methodFilter m) _ x TypeError); [done | done | |].
    - unfold methodFilter. destruct (method x); try done.
    - apply methodFilter_Throw. }
  split; [exact H |]. intros q <-. by eapply listRoute_Throw.
Qed.

(** X4. Likewise for the search: when no method is given, a search text is,
    and a loaded record that passes the source-address filter has no string
    under [Id], [getWebhooks] throws a [TypeError] and the list route
    answers 500. *)
Theorem untyped_id_fails (w : World) (params : ListWebhooksParams)
    (blobs : list Blob) (q : string) (x : WebhookRequest) :
  listBlobs w (datePrefix params) = Ok blobs →
  given (p_method params) = None →
  given (search params) = Some q →
  In x (readAll w blobs) →
  passes (p_sourceIp params) sourceIpFilter x = true →
  isStr (id x) = false →
  getWebhooks w params = Throw TypeError
  ∧ ∀ query, listParams query = params → status (listRoute w query) = 500%nat.
Proof.
  intros Hb Hm Hq Hin Hip Hx.
  assert (H : getWebhooks w params = Throw TypeError).
  { unfold getWebhooks. fold (datePrefix params). rewrite Hb. cbn [bind].
    unfold applyFilter at 1. rewrite Hm. cbn [bind].
    destruct (applyFilter (p_sourceIp params) sourceIpFilter (readAll w blobs))
      as [f2|e] eqn:H2.
    2: { unfold applyFilter in H2. destruct (given (p_sourceIp params)); [| done].
         exfalso. clear -H2. induction (readAll w blobs) as [|y l IH]; [done |].
         simpl in H2. destruct (filterM (sourceIpFilter s) l); [done | by apply IH]. }
    cbn [bind]. apply applyFilter_Ok in H2.
    unfold applyFilter at 1. rewrite Hq.
    rewrite (filterM_Throw (searchFilter q) _ x TypeError); [done | | |].
    - subst f2. apply filter_In. by split.
    - unfold searchFilter, lowerIncludes. destruct (id x); try done.
    - apply searchFilter_Throw. }
  split; [exact H |]. intros query <-. by eapply listRoute_Throw.
Qed.

Lemma find_filter_name (P : string → bool) (n : string) (l : list Blob) :
  P n = true →
  List.find (λ b, String.eqb (name b) n) (List.filter (λ b, P (name b)) l)
  = List.find (λ b, String.eqb (name b) n) l.
Proof.
  intros Hn. induction l as [|a l IH]; simpl; [done |].
  destruct (P (name a)) eqn:HP; simpl.
  - by destruct (String.eqb (name a) n).
  - destruct (String.eqb_spec (name a) n) as [E | E]; [congruence | done].
Qed.

Lemma readWebhook_restrict (d : string) (w : World) (n : string) :
  Str.startsWith n (d +:+ "/") = true →
  readWebhook (restrictTo d w) n = readWebhook w n.
Proof.
  intros Hn. unfold readWebhook, readBlobAsJson, getContainerClient, download, restrictTo.
  cbn [connectionString container].
  destruct (String.eqb (connectionString w) ""); cbn [bind]; [done |].
  by rewrite (find_filter_name (λ k, Str.startsWith k (d +:+ "/"))).
Qed.

Lemma readAll_restrict (d : string) (w : World) (blobs : list Blob) :
  Forall (λ b, Str.startsWith (name b) (d +:+ "/") = true) blobs →
  readAll (restrictTo d w) blobs = readAll w blobs.
Proof.
  induction 1 as [|b blobs Hb _ IH]; simpl; [done |].
  by rewrite readWebhook_restrict, IH.
Qed.

Lemma append_slash_nonempty (d : string) : String.eqb (d +:+ "/") "" = false.
Proof. by destruct d. Qed.

(** X5. A date only narrows the listing: the query with the date [d] is the
    query without a date over the blobs whose key starts with [d/], and the
    keys it lists are those of the container that start with [d/] and end
    in [.json]. The [ReceivedAt] of a record plays no part. *)
Theorem date_scope_is_key_prefix (w : World) (params : ListWebhooksParams) (d : string) :
  given (date params) = Some d →
  getWebhooks w params = getWebhooks (restrictTo d w) (withoutDate params)
  ∧ ∀ blobs, listBlobs w (Some (d +:+ "/")) = Ok blobs →
             Forall (λ b, In b (container w)
                          ∧ Str.startsWith (name b) (d +:+ "/") = true
                          ∧ Str.endsWith (name b) ".json" = true) blobs.
Proof.
  intros Hd. split.
  - unfold getWebhooks. cbn [date withoutDate given page limit p_method p_sourceIp
                             search conversationId].
    rewrite Hd. unfold listBlobs, getContainerClient, restrictTo.
    cbn [connectionString container given]. rewrite append_slash_nonempty.
    destruct (String.eqb (connectionString w) ""); cbn [bind]; [done |].
    rewrite (readAll_restrict d w); [done |].
    apply Forall_forall. intros b Hb. apply list_elem_of_In in Hb.
    apply filter_In in Hb as [Hb _]. by apply filter_In in Hb as [_ Hb].
  - intros blobs. unfold listBlobs, getContainerClient. cbn [given].
    rewrite append_slash_nonempty.
    destruct (String.eqb (connectionString w) ""); cbn [bind]; [done |].
    intros [= <-]. apply Forall_forall. intros b Hb. apply list_elem_of_In in Hb.
    apply filter_In in Hb as [Hb He]. apply filter_In in Hb as [Hb Hs]. done.
Qed.













Lemma increment_lookup (k k' : string) (counts : gmap string nat) (n : nat) :
  counts !! k = tally n →
  increment k' counts !! k = tally (if String.eqb k' k then S n else n).
Proof.
  intros H. unfold increment. destruct (String.eqb_spec k' k) as [-> | Hne].
  - rewrite lookup_insert_eq, H. by destruct n.
  - by rewrite lookup_insert_ne.
Qed.

Lemma countWebhook_lookup (counts : gmap string nat * gmap string nat)
    (x : WebhookRequest) (k d : string) (n m : nat) :
  fst counts !! k = tally n → snd counts !! d = tally m →
  fst (countWebhook counts x) !! k = tally (if methodIs k x then S n else n)
  ∧ snd (countWebhook counts x) !! d = tally (if dateIs d x then S m else m).
Proof.
  intros Hn Hm. unfold countWebhook, methodIs, dateIs.
  destruct (method x); simpl; try done.
  destruct (receivedAt x); simpl;
    (split; [by apply increment_lookup | try done]).
  by apply increment_lookup.
Qed.

Lemma foldl_countWebhook_lookup (records : list WebhookRequest)
    (counts : gmap string nat * gmap string nat) (k d : string) (n m : nat) :
  fst counts !! k = tally n → snd counts !! d = tally m →
  fst (foldl countWebhook counts records) !! k
  = tally (n + length (List.filter (methodIs k) records))
  ∧ snd (foldl countWebhook counts records) !! d
    = tally (m + length (List.filter (dateIs d) records)).
Proof.
  revert counts n m. induction records as [|x records IH]; intros counts n m Hn Hm.
  - simpl. by rewrite !Nat.add_0_r.
  - simpl. destruct (countWebhook_lookup counts x k d n m Hn Hm) as [Hn' Hm'].
    destruct (IH _ _ _ Hn' Hm') as [IHn IHm]. rewrite IHn, IHm.
    destruct (methodIs k x), (dateIs d x); cbn [length]; split; f_equal; lia.
Qed.


(** X7. In the statistics the counter of a method is the number of loaded
    records whose upper-cased method is that key. The counter of a date is
    the number of loaded records with a string method whose [ReceivedAt] up
    to the first [T] is that key; this is stated for keys that start with a
    digit, as dates do, since the counters are plain objects and a key that
    names a property of [Object.prototype] would read the inherited value.
    A key without such a record is absent rather than zero. *)
Theorem getWebhookStats_tallies (w : World) (s : WebhookStats) (k d : string) :
  getWebhookStats w = Ok s →
  byMethod s !! k
  = tally (length (List.filter (methodIs k) (readAll w (jsonBlobs w))))
  ∧ (headDecimal d = true →
     byDate s !! d
     = tally (length (List.filter (dateIs d) (readAll w (jsonBlobs w))))).
Proof.
  unfold getWebhookStats. rewrite listBlobs_all.
  destruct (getContainerClient w); cbn [bind]; [| discriminate].
  intros [= <-]. cbn [byMethod byDate]. rewrite foldl_countBlob.
  destruct (foldl_countWebhook_lookup (readAll w (jsonBlobs w)) (∅, ∅) k d 0 0)
    as [Hm Hd]; [apply lookup_empty | apply lookup_empty |].
  split; [exact Hm | intros _; exact Hd].
Qed.

Lemma deleteBlob_Ok (c c' : list Blob) (n : string) :
  deleteBlob c n = Ok c' →
  c' = List.filter (λ b, negb (String.eqb (name b) n)) c.
Proof.
  unfold deleteBlob. destruct (List.find _ c) as [b|]; [| discriminate].
  destruct (deleteFails b); [discriminate | congruence].
Qed.

Lemma find_removed (c : list Blob) (n : string) :
  List.find (λ b, String.eqb (name b) n)
    (List.filter (λ b, negb (String.eqb (name b) n)) c) = None.
Proof.
  induction c as [|a c IH]; simpl; [done |].
  destruct (String.eqb (name a) n) eqn:E; simpl; [done | by rewrite E].
Qed.

Lemma find_kept (c : list Blob) (n k : string) :
  n ≠ k →
  List.find (λ b, String.eqb (name b) k)
    (List.filter (λ b, negb (String.eqb (name b) n)) c)
  = List.find (λ b, String.eqb (name b) k) c.
Proof.
  intros Hne.
  apply (find_filter_name (λ x, negb (String.eqb x n)) k c).
  by destruct (String.eqb_spec k n).
Qed.

Lemma getContainerClient_configured (w : World) :
  connectionString w ≠ "" → getContainerClient w = Ok (container w).
Proof.
  intros H. unfold getContainerClient.
  by destruct (String.eqb_spec (connectionString w) "").
Qed.

Lemma readWebhook_after_other (w : World) (out : DeleteOutcome) (n k : string) :
  remaining out = List.filter (λ b, negb (String.eqb (name b) n)) (container w) →
  n ≠ k →
  readWebhook (after w out) k = readWebhook w k.
Proof.
  intros Hrem Hne. unfold readWebhook, readBlobAsJson, getContainerClient, download, after.
  cbn [connectionString container].
  destruct (String.eqb (connectionString w) ""); cbn [bind]; [done |].
  by rewrite Hrem, find_kept.
Qed.

Lemma readWebhook_after_deleted (w : World) (out : DeleteOutcome) (n : string) :
  remaining out = List.filter (λ b, negb (String.eqb (name b) n)) (container w) →
  ∃ e, readWebhook (after w out) n = Throw e.
Proof.
  intros Hrem. unfold readWebhook, readBlobAsJson, getContainerClient, download, after.
  cbn [connectionString container].
  destruct (String.eqb (connectionString w) ""); cbn [bind]; [by eexists |].
  rewrite Hrem, find_removed. cbn [bind]. by eexists.
Qed.

(** X8. When the first [.json] key that contains the id can be deleted,
    [deleteWebhook] returns true after one delete call, the route answers
    204, the container loses the blobs of that key and no other, the key can
    no longer be read, and every other key reads as before. *)
Theorem deleteWebhook_success (w : World) (id : string) (b : Blob) (c' : list Blob) :
  connectionString w ≠ "" →
  List.find (keyMatches id) (jsonBlobs w) = Some b →
  deleteBlob (container w) (name b) = Ok c' →
  let out := {| deleted := true; remaining := c'; attempts := [name b] |} in
  deleteWebhook w id = Ok out
  ∧ Routes.deleteRoute w id = 204%nat
  ∧ (∀ b', In b' c' ↔ In b' (container w) ∧ name b' ≠ name b)
  ∧ (∃ e, readWebhook (after w out) (name b) = Throw e)
  ∧ (∀ k, k ≠ name b → readWebhook (after w out) k = readWebhook w k).
Proof.
  intros Hcs Hfind Hdel out.
  assert (H : deleteWebhook w id = Ok out).
  { rewrite deleteWebhook_find, (getContainerClient_configured w Hcs). cbn [bind].
    by rewrite Hfind, Hdel. }
  pose proof (deleteBlob_Ok _ _ _ Hdel) as Hc.
  split; [exact H |]. split; [| split; [| split]].
  - unfold Routes.deleteRoute. by rewrite H.
  - intros b'. rewrite Hc, filter_In, negb_true_iff, String.eqb_neq. done.
  - by apply readWebhook_after_deleted.
  - intros k Hk. apply (readWebhook_after_other w out (name b)); [done | congruence].
Qed.

Lemma findByName_none (w : World) (id : string) (blobs : list Blob) :
  Forall (λ b, keyMatches id b = false ∨ ∃ e, readWebhook w (name b) = Throw e) blobs →
  findByName w id blobs = None.
Proof.
  induction 1 as [|b blobs Hb _ IH]; simpl; [done |].
  destruct Hb as [Hb | [e Hb]].
  - unfold keyMatches in Hb. by rewrite Hb.
  - rewrite Hb. by destruct (Str.includes (name b) id).
Qed.

(** X9. After a successful delete, when no other [.json] key contains the
    id, [getWebhookById] for the same id returns [null] and the route
    answers 404. *)
Theorem delete_then_lookup (w : World) (id : string) (b : Blob) (c' : list Blob) :
  connectionString w ≠ "" →
  List.find (keyMatches id) (jsonBlobs w) = Some b →
  deleteBlob (container w) (name b) = Ok c' →
  (∀ b', In b' (jsonBlobs w) → keyMatches id b' = true → name b' = name b) →
  let w' := after w {| deleted := true; remaining := c'; attempts := [name b] |} in
  getWebhookById w' id = Ok None
  ∧ status (getRoute w' id) = 404%nat.
Proof.
  intros Hcs Hfind Hdel Honly w'.
  pose proof (deleteBlob_Ok _ _ _ Hdel) as Hc.
  assert (H : getWebhookById w' id = Ok None).
  { unfold getWebhookById. rewrite listBlobs_all.
    rewrite (getContainerClient_configured w') by done. cbn [bind]. f_equal.
    apply findByName_none. apply Forall_forall. intros b' Hb'.
    apply list_elem_of_In in Hb'. unfold jsonBlobs, w', after in Hb'.
    cbn [container] in Hb'. apply filter_In in Hb' as [Hb' Hjson].
    rewrite Hc in Hb'. apply filter_In in Hb' as [Hb' Hne].
    destruct (keyMatches id b') eqn:Hm; [| by left].
    exfalso. apply negb_true_iff, String.eqb_neq in Hne. apply Hne.
    apply Honly; [| done]. apply filter_In. by split. }
  split; [exact H |]. unfold getRoute. by rewrite H.
Qed.

(** X12. With a connection string, and a store that lists its keys, the
    route [GET /:id] answers 200 when some [.json] key contains the id and
    loads, and 404 otherwise: a key that does not load is passed over and
    never turns the answer into 500. *)
Theorem getRoute_status (w : World) (id : string) :
  connectionString w ≠ "" →
  status (getRoute w id)
  = (if existsb (λ b, keyMatches id b && loads w b) (jsonBlobs w) then 200 else 404)%nat.
Proof.
  intros Hcs. unfold getRoute, getWebhookById. rewrite listBlobs_all.
  rewrite (getContainerClient_configured w Hcs). cbn [bind].
  rewrite findByName_find.
  destruct (List.find _ (jsonBlobs w)) as [b|] eqn:E.
  - pose proof E as E'. apply find_some in E as [Hin Hb].
    apply andb_true_iff in Hb as [_ Hl]. unfold loads in Hl.
    destruct (readWebhook w (name b)); [| discriminate].
    replace (existsb _ (jsonBlobs w)) with true; [done |].
    symmetry. apply existsb_exists. exists b. split; [done |].
    apply find_some in E' as [_ ?]. done.
  - replace (existsb _ (jsonBlobs w)) with false; [done |].
    symmetry. apply not_true_is_false. intros Hex.
    apply existsb_exists in Hex as (b & Hin & Hb).
    pose proof (find_none _ _ E b Hin) as Hf. simpl in Hf. congruence.
Qed.

(** X1. Without a connection string each of the five operations throws the
    configuration error, and each of the five routes answers 500. *)
Theorem unconfigured_operations_fail (w : World) :
  connectionString w = "" →
  (∀ params, getWebhooks w params = Throw ConfigError)
  ∧ (∀ id, getWebhookById w id = Throw ConfigError)
  ∧ getAvailableDates w = Throw ConfigError
  ∧ getWebhookStats w = Throw ConfigError
  ∧ (∀ id, deleteWebhook w id = Throw ConfigError)
  ∧ (∀ q, status (listRoute w q) = 500%nat)
  ∧ (∀ id, status (getRoute w id) = 500%nat)
  ∧ status (datesRoute w) = 500%nat
  ∧ status (statsRoute w) = 500%nat
  ∧ (∀ id, Routes.deleteRoute w id = 500%nat).
Proof.
  intros Hcs.
  assert (Hc : getContainerClient w = Throw ConfigError).
  { unfold getContainerClient. by rewrite Hcs. }
  assert (Hl : ∀ prefix, listBlobs w prefix = Throw ConfigError).
  { intros prefix. unfold listBlobs. by rewrite Hc. }
  assert (H1 : ∀ params, getWebhooks w params = Throw ConfigError).
  { intros params. unfold getWebhooks. by rewrite Hl. }
  assert (H2 : ∀ id, getWebhookById w id = Throw ConfigError).
  { intros id. unfold getWebhookById. by rewrite Hc. }
  assert (H3 : getAvailableDates w = Throw ConfigError).
  { unfold getAvailableDates. by rewrite Hc. }
  assert (H4 : getWebhookStats w = Throw ConfigError).
  { unfold getWebhookStats. by rewrite Hl. }
  assert (H5 : ∀ id, deleteWebhook w id = Throw ConfigError).
  { intros id. unfold deleteWebhook. by rewrite Hc. }
  repeat split; try done.
  - intros q. unfold listRoute. by rewrite H1.
  - intros id. unfold getRoute. by rewrite H2.
  - unfold datesRoute. by rewrite H3.
  - unfold statsRoute. by rewrite H4.
  - intros id. unfold Routes.deleteRoute. by rewrite H5.
Qed.

Lemma arraySlice_empty {A} (l : list A) (start stop : number) :
  (relativeIndex (Z.of_nat (length l)) stop
   ≤ relativeIndex (Z.of_nat (length l)) start)%Z →
  arraySlice l start stop = [].
Proof.
  intros H. unfold arraySlice. cbn zeta.
  replace (Z.to_nat _) with 0%nat by lia. done.
Qed.

(** X10. A page or a limit that is not a number, a limit of zero, and page
    zero with a limit that is not negative all yield an empty [data], with
    [total] still the number of matching records. *)
Theorem getWebhooks_empty_page (w : World) (params : ListWebhooksParams)
    (records : list WebhookRequest) :
  matchingRecords w params = Ok records →
  default (Num 1) (page params) = NaN
  ∨ default (Num 10) (limit params) = NaN
  ∨ default (Num 10) (limit params) = Num 0
  ∨ (default (Num 1) (page params) = Num 0
     ∧ ∃ l, default (Num 10) (limit params) = Num l ∧ (0 ≤ l)%Z) →
  ∃ r, getWebhooks w params = Ok r ∧ data r = [] ∧ total r = length records.
Proof.
  intros Hrec Hcase. rewrite getWebhooks_unfold, Hrec. cbn [bind].
  eexists. split; [reflexivity |]. cbn [data total]. split; [| done].
  apply arraySlice_empty. unfold relativeIndex.
  pose proof (Nat2Z.is_nonneg (length records)) as Hlen.
  set (len := Z.of_nat (length records)) in *. clearbody len.
  destruct Hcase as [-> | [-> | [-> | [-> (l & -> & Hl)]]]];
    try destruct (default (Num 1) (page params));
    cbn [sub mul add toInteger];
    repeat match goal with
           | |- context [(?a <? ?b)%Z] => destruct (Z.ltb_spec a b)
           end; lia.
Qed.

Lemma flat_map_ext_In {A B} (f g : A → list B) (l : list A) :
  (∀ a, In a l → f a = g a) → flat_map f l = flat_map g l.
Proof.
  induction l as [|a l IH]; intros H; simpl; [done |].
  rewrite (H a), IH; [done | | by left]. intros b Hb. apply H. by right.
Qed.

Lemma pages_concat {A} (l : list A) (L n : nat) :
  flat_map (λ p, take L (drop ((p - 1) * L) l)) (seq 1 n) = take (n * L) l.
Proof.
  induction n as [|n IH]; [by rewrite take_0 |].
  rewrite seq_S, flat_map_app, IH. simpl. rewrite app_nil_r.
  replace (n - 0)%nat with n by lia.
  rewrite take_take_drop. f_equal. lia.
Qed.

(** X11. For a limit of at least one, the pages 1 to [ceil(T/L)] of a
    query, one after the other, are the matching records in their sorted
    order: no record is left out and none comes twice. *)
Theorem pages_partition (w : World) (params : ListWebhooksParams)
    (records : list WebhookRequest) (l : Z) :
  matchingRecords w params = Ok records →
  (1 ≤ l)%Z →
  flat_map (pageOf w params l)
    (seq 1 (Z.to_nat (pageCount (Z.of_nat (length records)) l)))
  = records.
Proof.
  intros Hrec Hl.
  rewrite (flat_map_ext_In _
             (λ p, take (Z.to_nat l) (drop ((p - 1) * Z.to_nat l) records))).
  - rewrite pages_concat. apply take_ge. unfold pageCount.
    set (T := Z.of_nat (length records)).
    assert (T ≤ ((T + l - 1) `div` l) * l)%Z.
    { pose proof (Z.div_mod (T + l - 1) l ltac:(lia)).
      pose proof (Z.mod_pos_bound (T + l - 1) l ltac:(lia)). nia. }
    assert (0 ≤ (T + l - 1) `div` l)%Z by (apply Z.div_pos; lia).
    unfold T in *. nia.
  - intros p Hp. apply in_seq in Hp. unfold pageOf.
    rewrite getWebhooks_unfold, matchingRecords_withPaging, Hrec. cbn [bind data].
    pose proof (arraySlice_page records (Z.of_nat p) l ltac:(lia) ltac:(lia)) as Hs.
    cbv zeta in Hs. cbv zeta.
    change (default (Num 1) (page (withPaging (Some (Num (Z.of_nat p))) (Some (Num l)) params)))
      with (Num (Z.of_nat p)).
    change (default (Num 10) (limit (withPaging (Some (Num (Z.of_nat p))) (Some (Num l)) params)))
      with (Num l).
    rewrite Hs. do 2 f_equal. nia.
Qed.

(** X16. The conversation id that the table shows for a raw body is found
    by the conversation filter of the service: whenever
    [extractConversationId] returns an ASCII text, the record passes the
    filter for every non-empty ASCII parameter contained in that text up to
    the case of its letters. *)
Theorem displayed_conversation_id_passes (x : WebhookRequest) (body s q : string) :
  rawBody x = JStr body →
  extractConversationId (Some body) = Some s →
  q ≠ "" →
  Str.isAscii q = true →
  Str.isAscii s = true →
  ciSubstring q s →
  passes (Some q) (λ c y, Ok (conversationFilter c y)) x = true.
Proof.
  intros Hb He Hq Haq Has Hsub.
  assert (Hp : passes (Some q) (λ c y, Ok (conversationFilter c y)) x
               = conversationFilter q x).
  { unfold passes, given. by destruct (String.eqb_spec q ""). }
  rewrite Hp. apply (conversationFilter_true q x body Hb).
  unfold extractConversationId, given, tryParseJson in He.
  destruct (String.eqb_spec body "") as [| Hne]; [discriminate |].
  split; [done |].
  destruct (JSON_parse body) as [parsed|] eqn:Hparse; [| discriminate].
  destruct (truthy parsed && isObject parsed); [| discriminate].
  destruct (truthy (optChain parsed "conversation")
            && isObject (optChain parsed "conversation")); [| discriminate].
  destruct (optChain (optChain parsed "conversation") "id") as [| | | |s'| |] eqn:Hid;
    try discriminate.
  injection He as ->.
  assert (Hs : s ≠ "").
  { intros ->. destruct Hsub as (pre & mid & post & Hs & Hci).
    destruct pre; [| discriminate]. destruct mid; [| discriminate].
    inversion Hci. congruence. }
  exists parsed, (JStr s), s. split; [done |].
  assert (Ht : truthy (JStr s) = true).
  { simpl. by destruct (String.eqb_spec s ""). }
  split; [by apply truthy_conversationId |]. split; [done |]. split; [done |].
  by apply lowerOccurs_ascii.
Qed.

Lemma pretty_N_char_decimal (d : N) :
  (d < 10)%N →
  isDecimal (pretty_N_char d) = true
  ∧ (Z.of_nat (nat_of_ascii (pretty_N_char d)) - 48 = Z.of_N d)%Z.
Proof.
  intros Hd.
  assert (d = 0 ∨ d = 1 ∨ d = 2 ∨ d = 3 ∨ d = 4 ∨ d = 5 ∨ d = 6 ∨ d = 7
          ∨ d = 8 ∨ d = 9)%N as H by lia.
  repeat destruct H as [-> | H]; try subst d; by vm_compute.
Qed.

Lemma leadingDigits_pretty_N_go (x : N) :
  ∃ k : Z, (0 ≤ k)%Z ∧ ∀ acc s,
    leadingDigits acc (pretty_N_go x s) = leadingDigits (acc * 10 ^ k + Z.of_N x) s.
Proof.
  induction (N.lt_wf_0 x) as [x _ IH].
  destruct (decide (x = 0)%N) as [-> | Hx].
  - exists 0%Z. split; [done |]. intros acc s. rewrite pretty_N_go_0. f_equal. lia.
  - destruct (IH (x `div` 10)%N) as (k & Hk & IHk).
    { apply N.div_lt; lia. }
    exists (k + 1)%Z. split; [lia |]. intros acc s.
    rewrite pretty_N_go_step by lia. rewrite IHk. cbn [leadingDigits].
    destruct (pretty_N_char_decimal (x `mod` 10)) as [-> ->].
    { apply N.mod_lt. lia. }
    f_equal. rewrite Z.pow_add_r by lia.
    pose proof (N.div_mod x 10 ltac:(lia)) as Hdm.
    rewrite N2Z.inj_mod, N2Z.inj_div in * .
    assert (Z.of_N x = 10 * (Z.of_N x `div` 10) + Z.of_N x `mod` 10)%Z
      by (apply Z.div_mod; lia).
    change (Z.of_N 10) with 10%Z. lia.
Qed.

Lemma headDecimal_pretty_N_go (x : N) (s : string) :
  headDecimal s = true → headDecimal (pretty_N_go x s) = true.
Proof.
  revert s. induction (N.lt_wf_0 x) as [x _ IH]. intros s Hs.
  destruct (decide (x = 0)%N) as [-> | Hx]; [by rewrite pretty_N_go_0 |].
  rewrite pretty_N_go_step by lia. apply IH; [apply N.div_lt; lia |].
  simpl. apply pretty_N_char_decimal. apply N.mod_lt. lia.
Qed.

Lemma headDecimal_pretty_pos (p : positive) :
  headDecimal (pretty (N.pos p)) = true.
Proof.
  unfold pretty, pretty_N. destruct (decide (N.pos p = 0)%N); [done |].
  rewrite pretty_N_go_step by lia. apply headDecimal_pretty_N_go.
  simpl. apply pretty_N_char_decimal. apply N.mod_lt. lia.
Qed.

Lemma unsignedInt_pretty_pos (p : positive) :
  unsignedInt (pretty (N.pos p)) = Some (Z.pos p).
Proof.
  pose proof (headDecimal_pretty_pos p) as Hh.
  unfold unsignedInt. destruct (pretty (N.pos p)) as [|c r] eqn:E; [done |].
  simpl in Hh. rewrite Hh. f_equal. rewrite <- E.
  unfold pretty, pretty_N. destruct (decide (N.pos p = 0)%N); [done |].
  destruct (leadingDigits_pretty_N_go (N.pos p)) as (k & _ & Hk).
  rewrite Hk. simpl. lia.
Qed.

Lemma isDecimal_plain (c : ascii) :
  isDecimal c = true →
  isSpace c = false ∧ Ascii.eqb c "-"%char = false ∧ Ascii.eqb c "+"%char = false.
Proof.
  unfold isDecimal, isSpace. intros H. apply andb_true_iff in H as [H1 H2].
  apply Nat.leb_le in H1, H2. split; [| split].
  - apply orb_false_iff. split; [apply Nat.eqb_neq; lia |].
    apply andb_false_iff. right. apply Nat.leb_gt. lia.
  - apply Ascii.eqb_neq. intros ->. vm_compute in H1. lia.
  - apply Ascii.eqb_neq. intros ->. vm_compute in H1. lia.
Qed.

Lemma parseInt_headDecimal (t : string) :
  headDecimal t = true → parseInt t = signed false t.
Proof.
  destruct t as [|c r]; [done |]. simpl. intros Hc.
  destruct (isDecimal_plain c Hc) as (Hs & Hm & Hp).
  unfold parseInt. simpl. by rewrite Hs, Hm, Hp.
Qed.

Lemma parseInt_pretty (z : Z) : parseInt (pretty z) = Num z.
Proof.
  destruct z as [|p|p].
  - reflexivity.
  - change (pretty (Z.pos p)) with (pretty (N.pos p)).
    rewrite parseInt_headDecimal by apply headDecimal_pretty_pos.
    unfold signed. by rewrite unsignedInt_pretty_pos.
  - change (pretty (Z.neg p)) with ("-" +:+ pretty (N.pos p)).
    change ("-" +:+ pretty (N.pos p)) with (String "-"%char (pretty (N.pos p))).
    change (parseInt (String "-"%char (pretty (N.pos p))))
      with (signed true (pretty (N.pos p))).
    unfold signed. by rewrite unsignedInt_pretty_pos.
Qed.

Lemma pretty_nonempty (z : Z) : String.eqb (pretty z) "" = false.
Proof.
  destruct (String.eqb_spec (pretty z) "") as [E |]; [| done].
  pose proof (parseInt_pretty z) as H. rewrite E in H. discriminate.
Qed.

Lemma numberParam_pretty (z : Z) : numberParam (Some (pretty z)) = Some (Num z).
Proof. unfold numberParam, given. by rewrite pretty_nonempty, parseInt_pretty. Qed.

Lemma listRoute_paged (w : World) (q : Query) (records : list WebhookRequest)
    (page limit : number) :
  matchingRecords w (listParams q) = Ok records →
  default (Num 1) (numberParam (q_page q)) = page →
  default (Num 10) (numberParam (q_limit q)) = limit →
  listRoute w q
  = {| status := 200;
       payload := PList {| data := arraySlice records (mul (sub page (Num 1)) limit)
                                     (add (mul (sub page (Num 1)) limit) limit);
                           total := length records;
                           r_page := page; r_limit := limit |} |}.
Proof. intros H <- <-. unfold listRoute. by rewrite getWebhooks_unfold, H. Qed.

Lemma numberParam_readsAs (o : option string) (dflt z : Z) :
  readsAs o dflt z → default (Num dflt) (numberParam o) = Num z.
Proof.
  intros [[Ho ->] | [-> _]].
  - unfold numberParam. by rewrite Ho.
  - by rewrite numberParam_pretty.
Qed.

(** X13. The list route reads the decimal text of an integer as that
    integer. With [page] the decimal text of an integer [p] between 1 and
    2^53, or absent or empty for [p = 1], and [limit] the decimal text of
    an integer [l] between 0 and 2^53, or absent or empty for [l = 10], it
    answers 200 with the [l] records after the first [(p - 1) * l], the
    number of matching records, and [p] and [l] themselves. *)
Theorem listRoute_decimal_paging (w : World) (q : Query) (p l : Z)
    (records : list WebhookRequest) :
  readsAs (q_page q) 1 p →
  readsAs (q_limit q) 10 l →
  (1 ≤ p)%Z → (0 ≤ l)%Z →
  matchingRecords w (listParams q) = Ok records →
  listRoute w q
  = {| status := 200;
       payload := PList {| data := take (Z.to_nat l)
                                     (drop (Z.to_nat ((p - 1) * l)) records);
                           total := length records;
                           r_page := Num p; r_limit := Num l |} |}.
Proof.
  intros Hp Hl H1 H0 Hrec.
  rewrite (listRoute_paged w q records (Num p) (Num l) Hrec);
    [| by apply numberParam_readsAs | by apply numberParam_readsAs].
  pose proof (arraySlice_page records p l H1 H0) as Hs. cbv zeta in Hs.
  by rewrite Hs.
Qed.

(** X14. When [page] and [limit] are absent or empty, the list route answers
    200 with the first ten matching records, page 1 and limit 10. *)
Theorem listRoute_defaults (w : World) (q : Query) (records : list WebhookRequest) :
  given (q_page q) = None →
  given (q_limit q) = None →
  matchingRecords w (listParams q) = Ok records →
  listRoute w q
  = {| status := 200;
       payload := PList {| data := take 10 records; total := length records;
                           r_page := Num 1; r_limit := Num 10 |} |}.
Proof.
  intros Hp Hl Hrec.
  rewrite (listRoute_paged w q records (Num 1) (Num 10) Hrec);
    [| unfold numberParam; by rewrite Hp | unfold numberParam; by rewrite Hl].
  pose proof (arraySlice_page records 1 10 ltac:(lia) ltac:(lia)) as Hs.
  cbv zeta in Hs. by rewrite Hs.
Qed.



Lemma findByName_after (w : World) (out : DeleteOutcome) (n id : string)
    (blobs : list Blob) :
  remaining out = List.filter (λ b, negb (String.eqb (name b) n)) (container w) →
  (∃ e, readWebhook w n = Throw e) →
  findByName (after w out) id (List.filter (λ b, negb (String.eqb (name b) n)) blobs)
  = findByName w id blobs.
Proof.
  intros Hrem [e He]. induction blobs as [|a blobs IH]; [done |].
  cbn [List.filter findByName].
  destruct (String.eqb_spec (name a) n) as [Ha | Ha]; cbn [negb].
  - rewrite Ha, He, IH. by destruct (Str.includes n id).
  - cbn [findByName]. rewrite (readWebhook_after_other w out n (name a) Hrem) by congruence.
    by rewrite IH.
Qed.

Lemma jsonBlobs_after (w : World) (out : DeleteOutcome) (n : string) :
  remaining out = List.filter (λ b, negb (String.eqb (name b) n)) (container w) →
  jsonBlobs (after w out)
  = List.filter (λ b, negb (String.eqb (name b) n)) (jsonBlobs w).
Proof.
  intros Hrem. unfold jsonBlobs, after. cbn [container]. rewrite Hrem.
  clear Hrem. induction (container w) as [|a c IH]; [done |]. cbn [List.filter].
  destruct (negb (String.eqb (name a) n)) eqn:E1;
    destruct (Str.endsWith (name a) ".json") eqn:E2; cbn [List.filter];
    rewrite ?E1, ?E2, ?IH; done.
Qed.

(** X17. The lookup skips a key that does not load, the delete does not:
    when the first [.json] key that contains the id does not load and is
    deleted, the delete reports success, and the lookup of the same id
    returns afterwards what it returned before, with the same status. *)
Theorem delete_keeps_shown_record (w : World) (id : string) (b : Blob)
    (c' : list Blob) (e : exn) :
  connectionString w ≠ "" →
  List.find (keyMatches id) (jsonBlobs w) = Some b →
  deleteBlob (container w) (name b) = Ok c' →
  readWebhook w (name b) = Throw e →
  let w' := after w {| deleted := true; remaining := c'; attempts := [name b] |} in
  deleteWebhook w id = Ok {| deleted := true; remaining := c'; attempts := [name b] |}
  ∧ getWebhookById w' id = getWebhookById w id
  ∧ status (getRoute w' id) = status (getRoute w id).
Proof.
  intros Hcs Hfind Hdel He w'.
  pose proof (deleteBlob_Ok _ _ _ Hdel) as Hc.
  assert (H : getWebhookById w' id = getWebhookById w id).
  { unfold getWebhookById. rewrite !listBlobs_all.
    rewrite (getContainerClient_configured w') by done.
    rewrite (getContainerClient_configured w) by done. cbn [bind]. f_equal.
    unfold w'. rewrite (jsonBlobs_after w _ (name b)) by done.
    apply findByName_after; [done | by exists e]. }
  split; [| split; [exact H | unfold getRoute; by rewrite H]].
  rewrite deleteWebhook_find, (getContainerClient_configured w Hcs). cbn [bind].
  by rewrite Hfind, Hdel.
Qed.

End Further.

(** ** The further properties on sample containers *)

Section FurtherExamples.
Import Js BlobStorage NodeRuntime Spec Router Client Coverage Samples MoreSamples.

(** X1 on the sample container without a connection string. *)
Lemma unconfigured_operations_fail_witness :
  connectionString offline = ""
  ∧ getWebhookStats (rt := nodeRuntime) offline = Throw ConfigError
  ∧ status (listRoute (rt := nodeRuntime) offline (paging None None)) = 500%nat
  ∧ Routes.deleteRoute offline "a1" = 500%nat.
Proof.
  destruct (unconfigured_operations_fail (rt := nodeRuntime) offline eq_refl)
    as (_ & _ & _ & Hstats & _ & Hlist & _ & _ & _ & Hdelete).
  split; [reflexivity |]. split; [exact Hstats |].
  split; [apply Hlist | apply Hdelete].
Defined.

(** X2 on the record [a1], whose method is [GET]: it passes the method
    filter [get], and it does not pass the filter for another address. *)
Lemma methodFilter_spec_witness :
  Str.isAscii "get" = true
  ∧ Str.isAscii (w_method record_a1) = true
  ∧ methodFilter (rt := nodeRuntime) "get" (embed record_a1) = Ok true
  ∧ sourceIpFilter "10.0.0.9" (embed record_a1) = Ok false.
Proof.
  split; [reflexivity |]. split; [reflexivity |]. split.
  - destruct (methodFilter_spec (rt := nodeRuntime) "get" "10.0.0.9" record_a1
                eq_refl eq_refl) as [(b & Hb & Hiff) _].
    rewrite Hb. f_equal. apply Hiff. repeat constructor.
  - vm_compute. reflexivity.
Defined.

(** X3 on a container with a record without [Method]. *)
Lemma untyped_method_fails_witness :
  readWebhook (rt := nodeRuntime) sparse "2026-01-18/e1.json" = Ok record_e1
  ∧ given (p_method getOnly) = Some "get"
  ∧ getWebhooks (rt := nodeRuntime) sparse getOnly = Throw TypeError
  ∧ status (listRoute (rt := nodeRuntime) sparse
              {| q_date := None; q_page := None; q_limit := None;
                 q_method := Some "get"; q_sourceIp := None; q_search := None;
                 q_conversationId := None |}) = 500%nat.
Proof.
  destruct (untyped_method_fails (rt := nodeRuntime) sparse getOnly
              (jsonBlobs sparse) "get" record_e1) as [Hthrow Hroute];
    [vm_compute; reflexivity | reflexivity | vm_compute; left; reflexivity
    | reflexivity |].
  split; [vm_compute; reflexivity |]. split; [reflexivity |].
  split; [exact Hthrow | apply Hroute; reflexivity].
Defined.

(** X4 on a container with a record without [Id]. *)
Lemma untyped_id_fails_witness :
  readWebhook (rt := nodeRuntime) sparse "2026-01-18/e2.json" = Ok record_e2
  ∧ given (search searchOnly) = Some "x"
  ∧ getWebhooks (rt := nodeRuntime) sparse searchOnly = Throw TypeError.
Proof.
  destruct (untyped_id_fails (rt := nodeRuntime) sparse searchOnly
              (jsonBlobs sparse) "x" record_e2) as [Hthrow _];
    [vm_compute; reflexivity | reflexivity | reflexivity
    | vm_compute; right; left; reflexivity | reflexivity | reflexivity |].
  split; [vm_compute; reflexivity |]. split; [reflexivity | exact Hthrow].
Defined.

(** X5 on the sample container and the date of its first two records. *)
Lemma date_scope_is_key_prefix_witness :
  given (date dated) = Some "2026-01-15"
  ∧ getWebhooks (rt := nodeRuntime) demo dated
    = getWebhooks (rt := nodeRuntime) (restrictTo "2026-01-15" demo) (withoutDate dated)
  ∧ map name (container (restrictTo "2026-01-15" demo))
    = ["2026-01-15/a1.json"; "2026-01-15/b2.json"].
Proof.
  split; [reflexivity |]. split; [| vm_compute; reflexivity].
  apply (date_scope_is_key_prefix (rt := nodeRuntime) demo dated "2026-01-15" eq_refl).
Defined.


(** X7 on the sample container: two GET records, no DELETE record, one
    record of the 16th. *)
Lemma getWebhookStats_tallies_witness :
  ∃ s, getWebhookStats (rt := nodeRuntime) demo = Ok s
     ∧ byMethod s !! "GET" = Some 2%nat
     ∧ byMethod s !! "DELETE" = None
     ∧ byDate s !! "2026-01-16" = Some 1%nat.
Proof.
  destruct (getWebhookStats (rt := nodeRuntime) demo) as [s |] eqn:Hs;
    [| vm_compute in Hs; discriminate].
  exists s. split; [reflexivity |].
  destruct (getWebhookStats_tallies (rt := nodeRuntime) demo s "GET" "2026-01-16" Hs)
    as [Hget Hdate].
  destruct (getWebhookStats_tallies (rt := nodeRuntime) demo s "DELETE" "2026-01-16" Hs)
    as [Hdelete _].
  split; [rewrite Hget; vm_compute; reflexivity |].
  split; [rewrite Hdelete; vm_compute; reflexivity |].
  rewrite (Hdate eq_refl). vm_compute. reflexivity.
Defined.

(** X8 on the sample container: the delete of [b2] removes the key of
    [blob_b2] and leaves the three others. *)
Lemma deleteWebhook_success_witness :
  connectionString demo ≠ ""
  ∧ List.find (keyMatches "b2") (jsonBlobs demo) = Some blob_b2
  ∧ deleteBlob (container demo) (name blob_b2) = Ok (remaining without_b2)
  ∧ deleteWebhook demo "b2" = Ok without_b2
  ∧ Routes.deleteRoute demo "b2" = 204%nat
  ∧ (∃ e, readWebhook (rt := nodeRuntime) (after demo without_b2) (name blob_b2) = Throw e)
  ∧ readWebhook (rt := nodeRuntime) (after demo without_b2) (name blob_a1)
    = readWebhook (rt := nodeRuntime) demo (name blob_a1).
Proof.
  assert (Hcs : connectionString demo ≠ "") by discriminate.
  destruct (deleteWebhook_success (rt := nodeRuntime) demo "b2" blob_b2
              (remaining without_b2) Hcs eq_refl eq_refl)
    as (Hdel & Hroute & _ & Hgone & Hkept).
  split; [exact Hcs |]. split; [reflexivity |]. split; [reflexivity |].
  split; [exact Hdel |]. split; [exact Hroute |]. split; [exact Hgone |].
  apply Hkept. discriminate.
Defined.

(** X9 on the sample container: after the delete of [b2] the lookup of
    [b2] finds nothing. *)
Lemma delete_then_lookup_witness :
  deleteWebhook demo "b2" = Ok without_b2
  ∧ getWebhookById (rt := nodeRuntime) (after demo without_b2) "b2" = Ok None
  ∧ status (getRoute (rt := nodeRuntime) (after demo without_b2) "b2") = 404%nat.
Proof.
  split; [vm_compute; reflexivity |].
  apply (delete_then_lookup (rt := nodeRuntime) demo "b2" blob_b2 (remaining without_b2));
    [discriminate | reflexivity | reflexivity |].
  intros b' Hin Hkey. vm_compute in Hin.
  destruct Hin as [<- | [<- | [<- | []]]]; [discriminate Hkey | reflexivity | discriminate Hkey].
Defined.

(** X10 on the sample container: page 0 with limit 2 is empty, and the
    total is 3. *)
Lemma getWebhooks_empty_page_witness :
  ∃ r, getWebhooks (rt := nodeRuntime) demo zeroPage = Ok r
     ∧ data r = []
     ∧ total r = 3%nat.
Proof.
  edestruct (getWebhooks_empty_page (rt := nodeRuntime) demo zeroPage)
    as (r & Hr & Hdata & Htotal);
    [vm_compute; reflexivity
    | right; right; right; split;
      [reflexivity | exists 2%Z; split; [reflexivity | lia]]
    |].
  exists r. split; [exact Hr |]. split; [exact Hdata |].
  rewrite Htotal. reflexivity.
Defined.

(** X11 on the sample container: the two pages of limit 2 are the three
    records, newest first. *)
Lemma pages_partition_witness :
  ∃ records,
    matchingRecords (rt := nodeRuntime) demo noParams = Ok records
    ∧ map id records = [JStr "c3"; JStr "b2"; JStr "a1"]
    ∧ pageCount 3 2 = 2%Z
    ∧ pageOf (rt := nodeRuntime) demo noParams 2 1
      ++ pageOf (rt := nodeRuntime) demo noParams 2 2 = records.
Proof.
  eexists. split; [vm_compute; reflexivity |]. split; [reflexivity |].
  split; [reflexivity |].
  etrans; [| apply (pages_partition (rt := nodeRuntime) demo noParams _ 2);
             [vm_compute; reflexivity | lia]].
  vm_compute. reflexivity.
Defined.

(** X12 on the sample container: [b2] is found, [zz] is not. *)
Lemma getRoute_status_witness :
  connectionString demo ≠ ""
  ∧ status (getRoute (rt := nodeRuntime) demo "b2") = 200%nat
  ∧ status (getRoute (rt := nodeRuntime) demo "zz") = 404%nat.
Proof.
  assert (Hcs : connectionString demo ≠ "") by discriminate.
  split; [exact Hcs |].
  split; rewrite (getRoute_status (rt := nodeRuntime) demo _ Hcs);
    vm_compute; reflexivity.
Defined.

(** X13 on the sample container: [?page=2&limit=2] is answered with the
    third record. *)
Lemma listRoute_decimal_paging_witness :
  pretty 2%Z = "2"
  ∧ ∃ r, listRoute (rt := nodeRuntime) demo (paging (Some "2") (Some "2"))
         = {| status := 200; payload := PList r |}
       ∧ map id (data r) = [JStr "a1"]
       ∧ total r = 3%nat
       ∧ r_page r = Num 2
       ∧ r_limit r = Num 2.
Proof.
  split; [vm_compute; reflexivity |].
  eexists. split.
  - apply (listRoute_decimal_paging (rt := nodeRuntime) demo
             (paging (Some "2") (Some "2")) 2 2);
      [right; split; [vm_compute; reflexivity | lia]
      | right; split; [vm_compute; reflexivity | lia]
      | lia | lia | vm_compute; reflexivity].
  - split; [vm_compute; reflexivity |]. split; [reflexivity |].
    split; reflexivity.
Defined.

(** X14 on the sample container: without [page] and with an empty [limit]
    the three records come on page 1 of limit 10. *)
Lemma listRoute_defaults_witness :
  ∃ r, listRoute (rt := nodeRuntime) demo (paging None (Some ""))
       = {| status := 200; payload := PList r |}
     ∧ map id (data r) = [JStr "c3"; JStr "b2"; JStr "a1"]
     ∧ r_page r = Num 1
     ∧ r_limit r = Num 10.
Proof.
  eexists. split.
  - apply (listRoute_defaults (rt := nodeRuntime) demo (paging None (Some "")));
      [reflexivity | reflexivity | vm_compute; reflexivity].
  - split; [vm_compute; reflexivity |]. split; reflexivity.
Defined.


(** X16 on the example body: the table shows [conv-123], and the record
    passes the filter [CONV-1]. *)
Lemma displayed_conversation_id_passes_witness :
  extractConversationId (rt := nodeRuntime)
    (Some (json "{'conversation':{'id':'conv-123'}}")) = Some "conv-123"
  ∧ passes (Some "CONV-1") (λ c y, Ok (conversationFilter (rt := nodeRuntime) c y))
      (posted (json "{'conversation':{'id':'conv-123'}}"))
    = true.
Proof.
  split; [vm_compute; reflexivity |].
  apply (displayed_conversation_id_passes (rt := nodeRuntime) _
           (json "{'conversation':{'id':'conv-123'}}") "conv-123" "CONV-1");
    [reflexivity | vm_compute; reflexivity | discriminate | reflexivity
    | reflexivity |].
  exists "", "conv-1", "23". split; [reflexivity |]. repeat constructor.
Defined.

(** X17 on a container where a key that does not load hides nothing: the
    delete of [a1] removes that key, and the lookup of [a1] returns the
    record [a1] before and after. *)
Lemma delete_keeps_shown_record_witness :
  List.find (keyMatches "a1") (jsonBlobs shadowed) = Some draft
  ∧ readWebhook (rt := nodeRuntime) shadowed (name draft) = Throw SyntaxError
  ∧ deleteWebhook shadowed "a1"
    = Ok {| deleted := true; remaining := [blob_a1]; attempts := [name draft] |}
  ∧ getWebhookById (rt := nodeRuntime)
      (after shadowed
         {| deleted := true; remaining := [blob_a1]; attempts := [name draft] |}) "a1"
    = getWebhookById (rt := nodeRuntime) shadowed "a1"
  ∧ ∃ x, getWebhookById (rt := nodeRuntime) shadowed "a1" = Ok (Some x)
       ∧ id x = JStr "a1".
Proof.
  destruct (delete_keeps_shown_record (rt := nodeRuntime) shadowed "a1" draft
              [blob_a1] SyntaxError) as (Hdel & Hsame & _);
    [discriminate | reflexivity | reflexivity | vm_compute; reflexivity |].
  split; [reflexivity |]. split; [vm_compute; reflexivity |].
  split; [exact Hdel |]. split; [exact Hsame |].
  eexists. split; [vm_compute; reflexivity | reflexivity].
Defined.

End FurtherExamples.
